(** * cmost_analysis: standard analysis products of CMOST exposures

    A shallow embedding of [cmost_analysis.py].  The script is one long
    function, [standard_analysis_products], which reads bias, dark and flat
    exposures, reduces them to a handful of numbers (read noise, gain, dark
    current, well depth) kept in four dictionaries, and writes one PDF page
    per reduced frame.

    Conventions of the embedding:
    - numpy's float64 values are idealised as real numbers ([R]); rounding,
      infinities and NaN are not represented;
    - a two-dimensional image is the list of its pixels in row-major order
      (every operation the script applies to an image is elementwise or
      works on the flattened image);
    - the dictionaries are [gmap string R];
    - a Python exception is a value [Raise e] of the [result] type; the
      local state of the function is lost when one is raised;
    - a PDF page is recorded by its kind, title and image, not by its
      rendering: captions made of formatted floats are left out. *)

From Stdlib Require Import Reals Lra Lia ZArith Ascii String.
From stdpp Require Import gmap strings list fin_maps sorting pretty.

(** ** Real numbers as the carrier of float arrays *)

#[global] Instance Rlt_decision (x y : R) : Decision (x < y)%R := Rlt_dec x y.
#[global] Instance Rle_decision (x y : R) : Decision (x <= y)%R := Rle_dec x y.
#[global] Instance R_eq_decision : EqDecision R := Req_dec_T.

#[global] Instance Rle_transitive : Transitive Rle.
Proof. intros x y z; apply Rle_trans. Qed.
#[global] Instance Rle_antisymm : AntiSymm (=) Rle.
Proof. intros x y; apply Rle_antisym. Qed.
#[global] Instance Rle_total : Total Rle.
Proof. intros x y. destruct (Rle_dec x y); [left|right]; lra. Qed.

(** An image, flattened. *)
Abbreviation Frame := (list R).

(** ** Exceptions *)

Inductive exn : Type :=
  | IndexError
  | ValueError
  | TypeError
  | ExternalError (msg : string).

Inductive result (A : Type) : Type :=
  | Ok (a : A)
  | Raise (e : exn).
Arguments Ok {A} a.
Arguments Raise {A} e.

#[global] Instance result_ret : MRet result := @Ok.
#[global] Instance result_bind : MBind result := fun A B f m =>
  match m with
  | Ok a => f a
  | Raise e => Raise e
  end.
#[global] Instance result_fmap : FMap result := fun A B f m =>
  match m with
  | Ok a => Ok (f a)
  | Raise e => Raise e
  end.

Definition is_raise {A} (r : result A) : Prop :=
  match r with Ok _ => False | Raise _ => True end.

(** [l[i]] on a Python list or the first axis of an array. *)
Definition py_index {A} (l : list A) (i : nat) : result A :=
  match l !! i with
  | Some a => Ok a
  | None => Raise IndexError
  end.

(** ** numpy reductions *)

Module np.

Definition sort (l : list R) : list R := merge_sort Rle l.

(** [np.median] of a one-dimensional (or flattened) array: the middle
    value of the sorted data, the mean of the two middle values when the
    count is even. *)
Definition median (l : list R) : R :=
  let s := sort l in
  let n := length s in
  if Nat.even n
  then ((nth (n / 2 - 1) s 0 + nth (n / 2) s 0) / 2)%R
  else nth (n / 2) s 0%R.

(** The values found at each pixel position along the first axis of a
    stack of [n]-pixel images. *)
Fixpoint columns (n : nat) (stack : list Frame) : list (list R) :=
  match stack with
  | [] => replicate n []
  | f :: fs => zip_with cons f (columns n fs)
  end.

(** [np.median(stack, axis=0)]. *)
Definition median_axis0 (stack : list Frame) : Frame :=
  median <$> columns (length (hd [] stack)) stack.

(** [np.stack]: the images must be there and agree in shape. *)
Definition stack (fs : list Frame) : result (list Frame) :=
  match fs with
  | [] => Raise ValueError
  | f :: _ =>
      if decide (Forall (fun g => length g = length f) fs)
      then Ok fs else Raise ValueError
  end.

End np.

(** Python's builtin [min] and [max] over a flattened array. *)
Definition py_min (l : list R) : result R :=
  match l with
  | [] => Raise ValueError
  | x :: l' => Ok (foldl Rmin x l')
  end.

Definition py_max (l : list R) : result R :=
  match l with
  | [] => Raise ValueError
  | x :: l' => Ok (foldl Rmax x l')
  end.

(** ** Python helpers *)

(** A [for] loop whose body updates the loop state and may raise. *)
Fixpoint for_each {A S : Type} (body : S → A → result S) (l : list A) (s : S)
    : result S :=
  match l with
  | [] => Ok s
  | a :: l' => s' ← body s a; for_each body l' s'
  end.

Definition enumerate {A : Type} (l : list A) : list (nat * A) :=
  zip (seq 0 (length l)) l.

(** [sub in s] on strings. *)
Fixpoint contains (sub s : string) : bool :=
  String.prefix sub s ||
  match s with
  | EmptyString => false
  | String _ s' => contains sub s'
  end.

(** [s.split(sep)] for a one-character separator. *)
Fixpoint split (sep : ascii) (s : string) : list string :=
  match s with
  | EmptyString => [EmptyString]
  | String c s' =>
      if decide (c = sep) then EmptyString :: split sep s'
      else match split sep s' with
           | [] => [String c EmptyString]
           | w :: ws => String c w :: ws
           end
  end.

(** [s.endswith('/')] *)
Fixpoint ends_with_slash (s : string) : bool :=
  match s with
  | EmptyString => false
  | String c s' =>
      match s' with
      | EmptyString => bool_decide (c = "/"%char)
      | String _ _ => ends_with_slash s'
      end
  end.

(** [os.path.join(dirname, name)]: [name] alone when it starts with a
    slash; no separator is added after an empty [dirname] or after one
    that already ends with a slash. *)
Definition path_join (dirname name : string) : string :=
  if String.prefix "/" name then name
  else if decide (dirname = EmptyString) then name
  else if ends_with_slash dirname then dirname +:+ name
  else dirname +:+ "/" +:+ name.

(** [a[mask]]: the entries of [a] where the boolean mask holds. *)
Definition mask_select {A : Type} (a : list A) (mask : list bool) : list A :=
  fst <$> filter (fun p => p.2 = true) (zip a mask).

(** ** Exposures: the objects of [cmost_exposure]

    The module [cmost_exposure] is not part of this file; an [Exposure] is
    taken as the data the script reads from it.  A dual-gain ([hdr])
    exposure carries two channels wherever a single-gain one carries one. *)

Inductive chan (A : Type) : Type :=
  | Mono (a : A)
  | Dual (hi lo : A).
Arguments Mono {A} a.
Arguments Dual {A} hi lo.

(** [cds_frames]: an array of shape (n, H, W), or (n, 2, H, W) in hdr mode. *)
Inductive CDS : Type :=
  | MonoCDS (frames : list Frame)
  | DualCDS (frames : list (Frame * Frame)).

Abbreviation ROI := (nat * nat * nat * nat)%type.

Record Exposure : Type := {
  gain : string;
  exp_time : R;
  date : R;
  dev_size : nat * nat;
  temperature : R;
  firmware : string;
  cds_frames : CDS;
  get_median : ROI → chan R;
  get_variance : ROI → chan R;
}.

(** The region [(0, dev_size[0], 0, dev_size[1])] every call passes. *)
Definition full_frame (e : Exposure) : ROI :=
  (0, (dev_size e).1, 0, (dev_size e).2).

(** A value of the wrong shape ends in a numpy or matplotlib error; the
    embedding raises [TypeError] where the shape is first relied on. *)
Definition as_dual {A : Type} (c : chan A) : result (A * A) :=
  match c with
  | Dual hi lo => Ok (hi, lo)
  | Mono _ => Raise TypeError
  end.

Definition as_mono {A : Type} (c : chan A) : result A :=
  match c with
  | Mono a => Ok a
  | Dual _ _ => Raise TypeError
  end.

(** [cds_frames[:,0]] and [cds_frames[:,1]]. *)
Definition cds_channels (e : Exposure) : result (list Frame * list Frame) :=
  match cds_frames e with
  | DualCDS fs => Ok (fst <$> fs, snd <$> fs)
  | MonoCDS _ => Raise TypeError
  end.

(** [cds_frames] of a single-gain exposure. *)
Definition cds_all (e : Exposure) : result (list Frame) :=
  match cds_frames e with
  | MonoCDS fs => Ok fs
  | DualCDS _ => Raise TypeError
  end.

(** [(cds_frames[0,0], cds_frames[0,1])]. *)
Definition cds_first_dual (e : Exposure) : result (Frame * Frame) :=
  match cds_frames e with
  | DualCDS fs => py_index fs 0
  | MonoCDS _ => Raise TypeError
  end.

(** [cds_frames[0]] of a single-gain exposure. *)
Definition cds_first_mono (e : Exposure) : result Frame :=
  match cds_frames e with
  | MonoCDS fs => py_index fs 0
  | DualCDS _ => Raise TypeError
  end.

(** ** The fitted model

    [astropy]'s [PowerLaw1D] is [amplitude * (x / x_0) ** (-alpha)]. *)

Record PowerLaw1D : Type := {
  amplitude : R;
  x_0 : R;
  alpha : R;
}.

Definition PowerLaw1D_eval (m : PowerLaw1D) (x : R) : R :=
  (amplitude m * Rpower (x / x_0 m) (- alpha m))%R.

(** The solver status [fit_info['ierr']] left by [LevMarLSQFitter]: the fit
    is reported successful for the values 1 to 4; any other value only
    emits a warning, and the fitter still returns the model it reached. *)
Definition fit_converged (ierr : Z) : Prop := (1 <= ierr <= 4)%Z.

(** ** What the script takes from its surroundings *)

Record Env : Type := {
  (** [os.listdir] *)
  listdir : string → result (list string);
  (** [Exposure(path)] *)
  Exposure_open : string → result Exposure;
  (** [load_by_file_prefix(prefix, **kwargs)] *)
  load_by_file_prefix : string → result (list Exposure);
  (** [fitting.LevMarLSQFitter()(model, x, y, maxiter=n)]: the fitted model
      and the solver status, or the exception the fitter raised *)
  fit : PowerLaw1D → list R → list R → nat → result (PowerLaw1D * Z);
  (** [git rev-parse --short HEAD] *)
  git_hash : result string;
  (** [time.strftime] *)
  now : string;
}.

(** ** The report *)

Abbreviation Row :=
  (string * option R * option R * option R * option R)%type.

Inductive Page : Type :=
  | TitlePage (number : nat) (detid camera datestring fw : string)
      (temp : option R) (generated git : string) (contents : list string)
  | HistPage (number : nat) (title : string) (data : Frame)
  | PlotPage (number : nat) (title : string)
  | TablePage (number : nat) (rows : list Row).

(** The open PDF and the four dictionaries of final numbers. *)
Record Report : Type := {
  pdf : list Page;
  read_noise : gmap string R;
  det_gain : gmap string R;
  dark_current : gmap string R;
  well_depth : gmap string R;
}.

Definition set_pdf (p : list Page) (st : Report) : Report :=
  {| pdf := p; read_noise := read_noise st; det_gain := det_gain st;
     dark_current := dark_current st; well_depth := well_depth st |}.

Definition set_read_noise (m : gmap string R) (st : Report) : Report :=
  {| pdf := pdf st; read_noise := m; det_gain := det_gain st;
     dark_current := dark_current st; well_depth := well_depth st |}.

Definition set_det_gain (m : gmap string R) (st : Report) : Report :=
  {| pdf := pdf st; read_noise := read_noise st; det_gain := m;
     dark_current := dark_current st; well_depth := well_depth st |}.

Definition set_dark_current (m : gmap string R) (st : Report) : Report :=
  {| pdf := pdf st; read_noise := read_noise st; det_gain := det_gain st;
     dark_current := m; well_depth := well_depth st |}.

Definition set_well_depth (m : gmap string R) (st : Report) : Report :=
  {| pdf := pdf st; read_noise := read_noise st; det_gain := det_gain st;
     dark_current := dark_current st; well_depth := m |}.

(** [pdf.savefig()] of a figure numbered [pdf.get_pagecount()+1]. *)
Definition savefig (mk : nat → Page) (p : list Page) : list Page :=
  p ++ [mk (length p + 1)].

(** [hist_page]: image, two histograms and caption on one page.  The second
    histogram has [data_range] bins; [np.histogram] refuses a bin count
    below one. *)
Definition hist_page (p : list Page) (data : Frame) (title : string)
    : result (list Page) :=
  dmin ← py_min data;
  dmax ← py_max data;
  let data_range := (Zceil dmax - Zfloor dmin)%Z in
  if decide (data_range < 1)%Z then Raise ValueError
  else Ok (savefig (fun n => HistPage n title data) p).

(** ** Bias frames *)

Definition bias_channels (bifr : Exposure)
    : result (list string * list Frame * list R) :=
  if decide (gain bifr = "hdr") then
    '(hi, lo) ← cds_channels bifr;
    var ← as_dual (get_variance bifr (full_frame bifr));
    Ok (["high (dual-gain)"; "low (dual-gain)"],
        [np.median_axis0 hi; np.median_axis0 lo], [var.1; var.2])
  else
    fs ← cds_all bifr;
    var ← as_mono (get_variance bifr (full_frame bifr));
    Ok ([gain bifr], [np.median_axis0 fs], [var]).

(** One page of the bias report; [read_noise] is set before the page is
    drawn. *)
Definition bias_page (gains : list string) (var : list R) (st : Report)
    (im : nat * Frame) : result Report :=
  let '(i, med_bias) := im in
  mmin ← py_min med_bias;
  mmax ← py_max med_bias;
  g ← py_index gains i;
  v ← py_index var i;
  let st := set_read_noise (<[g := sqrt v]> (read_noise st)) st in
  p ← hist_page (pdf st) med_bias ("Bias frames - gain: " +:+ g);
  Ok (set_pdf p st).

Definition bias_frame (st : Report) (bifr : Exposure) : result Report :=
  '(gains, med_frames, var) ← bias_channels bifr;
  for_each (bias_page gains var) (enumerate med_frames) st.

Definition bias_analysis (E : Env) (prefix : string) (st : Report)
    : result Report :=
  bias_frames ← load_by_file_prefix E (prefix +:+ "_bias");
  for_each bias_frame bias_frames st.

(** ** Standard operating darks *)

Definition dark_modes : list string := ["FUVdark"; "NUVdark"; "NUVguidingdark"].

(** [(long, short)] exposure times of a mode, in seconds. *)
Definition dark_durations (mode : string) : Z * Z :=
  if decide (mode = "FUVdark") then (900, 9)%Z else (300, 3)%Z.

Record DarkStacks : Type := {
  short_low : list Frame;
  short_high : list Frame;
  long_low : list Frame;
  long_high : list Frame;
  s_starts : list R;
  l_starts : list R;
}.

(** The prefixes of the long and short exposure of each of the nine
    acquisitions, in loading order. *)
Definition dark_prefixes (prefix mode : string) (long short : Z)
    : list (string * string) :=
  if decide (mode = "NUVguidingdark") then
    i ← seq 0 3; j ← seq 0 3;
    let stem := prefix +:+ "_" +:+ mode +:+ pretty i +:+ "_FullDwell_exp"
                +:+ pretty j +:+ "_UVEXNUV_" in
    [(stem +:+ "4", stem +:+ "2")]
  else
    i ← seq 0 9;
    let stem := prefix +:+ "_" +:+ mode +:+ pretty i +:+ "_" in
    [(stem +:+ pretty long +:+ "_", stem +:+ pretty short +:+ "_")].

Definition dark_load (E : Env) (acc : DarkStacks) (ps : string * string)
    : result DarkStacks :=
  long_frame ← load_by_file_prefix E ps.1 ≫= fun l => py_index l 0;
  short_frame ← load_by_file_prefix E ps.2 ≫= fun l => py_index l 0;
  '(lh, ll) ← cds_first_dual long_frame;
  '(sh, sl) ← cds_first_dual short_frame;
  Ok {| short_low := short_low acc ++ [sl];
        short_high := short_high acc ++ [sh];
        long_low := long_low acc ++ [ll];
        long_high := long_high acc ++ [lh];
        s_starts := s_starts acc ++ [date short_frame];
        l_starts := l_starts acc ++ [date long_frame] |}.

(** The empty lists the loading loop starts from. *)
Definition no_stacks : DarkStacks :=
  {| short_low := []; short_high := []; long_low := []; long_high := [];
     s_starts := []; l_starts := [] |}.

Definition dark_names : list string :=
  ["short low-gain"; "short high-gain"; "long low-gain"; "long high-gain"].

(** The assignment to [dark_current] inside the page loop. *)
Definition dark_assign (mode name : string) (mmedian : R) (t : Z)
    (dc : gmap string R) : gmap string R :=
  if decide (mode = "FUVdark" ∧ name = "long low-gain")
  then <["low (dual-gain)" := (mmedian / IZR t)%R]> dc
  else if decide (mode = "FUVdark" ∧ name = "long high-gain")
  then <["high (dual-gain)" := (mmedian / IZR t)%R]> dc
  else dc.

Definition dark_page (mode : string) (times : list Z) (st : Report)
    (jm : nat * Frame) : result Report :=
  let '(j, med_dark) := jm in
  mmin ← py_min med_dark;
  mmax ← py_max med_dark;
  let mmedian := np.median med_dark in
  name ← py_index dark_names j;
  t ← py_index times j;
  let st := set_dark_current (dark_assign mode name mmedian t (dark_current st)) st in
  p ← hist_page (pdf st) med_dark
        ("Dark frames - " +:+ mode +:+ " mode - " +:+ name +:+ " frame");
  Ok (set_pdf p st).

(** The four median frames of a mode, in the order of [dark_names]. *)
Definition dark_frames (d : DarkStacks) : result (list Frame) :=
  lh ← np.stack (long_high d);
  ll ← np.stack (long_low d);
  sh ← np.stack (short_high d);
  sl ← np.stack (short_low d);
  Ok [np.median_axis0 sl; np.median_axis0 sh;
      np.median_axis0 ll; np.median_axis0 lh].

Definition dark_pages (mode : string) (d : DarkStacks) (st : Report)
    : result Report :=
  let '(long, short) := dark_durations mode in
  frames ← dark_frames d;
  for_each (dark_page mode [short; short; long; long]) (enumerate frames) st.

Definition dark_mode (E : Env) (prefix : string) (st : Report) (mode : string)
    : result Report :=
  let '(long, short) := dark_durations mode in
  d ← for_each (dark_load E) (dark_prefixes prefix mode long short) no_stacks;
  st ← dark_pages mode d st;
  (* the page of mean values over time: a diagnostic plot *)
  Ok (set_pdf (savefig (fun n => PlotPage n
         ("Dark frames - " +:+ mode +:+ " mode - mean over time")) (pdf st)) st).

Definition dark_analysis (E : Env) (prefix : string) (st : Report)
    : result Report :=
  for_each (dark_mode E prefix) dark_modes st.

(** ** Flat fields and the photon transfer curve *)

(** [np.where(mask)[0]]: the indices at which the mask holds, ascending. *)
Fixpoint where_from (i : nat) (mask : list bool) : list nat :=
  match mask with
  | [] => []
  | b :: m => if b then i :: where_from (S i) m else where_from (S i) m
  end.

Definition np_where (mask : list bool) : list nat := where_from 0 mask.

(** [(medians > 5000) & (medians < 15000)] *)
Definition mid_range_mask (medians : list R) : list bool :=
  (fun m => bool_decide (5000 < m)%R && bool_decide (m < 15000)%R) <$> medians.

(** [np.where(...)[0][0]]: the first mid-range exposure. *)
Definition mid_exp_i (medians : list R) : result nat :=
  py_index (np_where (mid_range_mask medians)) 0.

(** [med_sig[j] < 15000] *)
Definition unsaturated_mask (sig : list R) : list bool :=
  (fun m => bool_decide (m < 15000)%R) <$> sig.

(** [np.argmax]: the first index of the largest entry. *)
Fixpoint argmax_from (best : R) (best_i i : nat) (l : list R) : nat :=
  match l with
  | [] => best_i
  | x :: l' =>
      if decide (best < x)%R then argmax_from x i (S i) l'
      else argmax_from best best_i (S i) l'
  end.

Definition np_argmax (l : list R) : result nat :=
  match l with
  | [] => Raise ValueError
  | x :: l' => Ok (argmax_from x 0 1 l')
  end.

(** The columns [a[:,0]] and [a[:,1]] of an array built from per-exposure
    values, and the array itself in single-gain mode. *)
Fixpoint dual_columns (l : list (chan R)) : result (list R * list R) :=
  match l with
  | [] => Ok ([], [])
  | c :: l' =>
      '(h, lo) ← as_dual c;
      '(hs, los) ← dual_columns l';
      Ok (h :: hs, lo :: los)
  end.

Fixpoint mono_column (l : list (chan R)) : result (list R) :=
  match l with
  | [] => Ok []
  | c :: l' => a ← as_mono c; r ← mono_column l'; Ok (a :: r)
  end.

(** The lists the gain-mode loop fills, one entry per channel. *)
Record Flats : Type := {
  gain_label : list string;
  sat_flats : list Frame;
  mid_flats : list Frame;
  mid_flat_times : list R;
  exp_times : list (list R);
  med_sig : list (list R);
  var : list (list R);
}.

Definition flat_gains : list string := ["hdr"; "high"; "low"].

Definition flat_gain (E : Env) (prefix : string) (acc : Flats) (g : string)
    : result Flats :=
  flat_frames ← load_by_file_prefix E (prefix +:+ "_flat_" +:+ g);
  let exp := exp_time <$> flat_frames in
  max_exp ← py_max exp;
  max_i ← np_argmax exp;
  let medians := (fun ff => get_median ff (full_frame ff)) <$> flat_frames in
  let variance := (fun ff => get_variance ff (full_frame ff)) <$> flat_frames in
  if decide (g = "hdr") then
    sat ← py_index flat_frames max_i ≫= cds_first_dual;
    '(med_h, med_l) ← dual_columns medians;
    '(var_h, var_l) ← dual_columns variance;
    hmid_exp_i ← mid_exp_i med_h;
    lmid_exp_i ← mid_exp_i med_l;
    th ← py_index exp hmid_exp_i;
    tl ← py_index exp lmid_exp_i;
    fh ← py_index flat_frames hmid_exp_i ≫= cds_first_dual;
    fl ← py_index flat_frames lmid_exp_i ≫= cds_first_dual;
    Ok {| gain_label := gain_label acc ++ ["high (dual-gain)"; "low (dual-gain)"];
          sat_flats := sat_flats acc ++ [sat.1; sat.2];
          mid_flats := mid_flats acc ++ [fh.1; fl.2];
          mid_flat_times := mid_flat_times acc ++ [th; tl];
          exp_times := exp_times acc ++ [exp; exp];
          med_sig := med_sig acc ++ [med_h; med_l];
          var := var acc ++ [var_h; var_l] |}
  else
    sat ← py_index flat_frames max_i ≫= cds_first_mono;
    med ← mono_column medians;
    vars ← mono_column variance;
    i ← mid_exp_i med;
    fm ← py_index flat_frames i ≫= cds_first_mono;
    t ← py_index exp i;
    Ok {| gain_label := gain_label acc ++ [g];
          sat_flats := sat_flats acc ++ [sat];
          mid_flats := mid_flats acc ++ [fm];
          mid_flat_times := mid_flat_times acc ++ [t];
          exp_times := exp_times acc ++ [exp];
          med_sig := med_sig acc ++ [med];
          var := var acc ++ [vars] |}.

Definition flat_load (E : Env) (prefix : string) : result Flats :=
  for_each (flat_gain E prefix) flat_gains
    {| gain_label := []; sat_flats := []; mid_flats := []; mid_flat_times := [];
       exp_times := []; med_sig := []; var := [] |}.

Definition mid_flat_page (labels : list string) (st : Report)
    (im : nat * Frame) : result Report :=
  let '(i, flat) := im in
  mmin ← py_min flat;
  mmax ← py_max flat;
  label ← py_index labels i;
  p ← hist_page (pdf st) flat ("Mid-range flat frame - gain: " +:+ label);
  Ok (set_pdf p st).

Definition well_depth_page (labels : list string) (st : Report)
    (im : nat * Frame) : result Report :=
  let '(i, flat) := im in
  smin ← py_min flat;
  smax ← py_max flat;
  let smedian := np.median flat in
  label ← py_index labels i;
  let st := set_well_depth (<[label := smedian]> (well_depth st)) st in
  p ← hist_page (pdf st) flat
        ("Well depth (saturated flat frame) - gain: " +:+ label);
  Ok (set_pdf p st).

(** The points of the linearity curve of channel [j]:
    [exp_times[j][exp_times[j] > 0]] against [med_sig[j][exp_times[j] > 0]]. *)
Definition linearity_points (fl : Flats) (j : nat) : result (list R * list R) :=
  t ← py_index (exp_times fl) j;
  s ← py_index (med_sig fl) j;
  label ← py_index (gain_label fl) j;
  let positive := (fun x => bool_decide (0 < x)%R) <$> t in
  Ok (mask_select t positive, mask_select s positive).

(** Re-expression of the stored numbers of a channel in electrons once
    its gain [k] is known. *)
Definition gain_convert (label : string) (k : R) (st : Report) : Report :=
  let st := set_det_gain (<[label := k]> (det_gain st)) st in
  let st := match read_noise st !! label with
            | Some r => set_read_noise (<[label := (sqrt r * k)%R]> (read_noise st)) st
            | None => st
            end in
  let st := match dark_current st !! label with
            | Some d => set_dark_current (<[label := (d * k)%R]> (dark_current st)) st
            | None => st
            end in
  match well_depth st !! label with
  | Some w => set_well_depth (<[label := (w * k)%R]> (well_depth st)) st
  | None => st
  end.

(** The samples the curve is fitted to: [sig, v = med_sig[j][unsaturated],
    var[j][unsaturated]]. *)
Definition ptc_samples (fl : Flats) (j : nat) : result (list R * list R) :=
  s ← py_index (med_sig fl) j;
  v ← py_index (var fl) j;
  Ok (mask_select s (unsaturated_mask s), mask_select v (unsaturated_mask s)).

Definition ptc_model : PowerLaw1D := {| amplitude := 1; x_0 := 1; alpha := -1 |}.

(** The gain of channel [j] from the fit: [k = 5000 / model_fit(5000)]. *)
Definition ptc_gain (E : Env) (fl : Flats) (j : nat) : result R :=
  '(sig, v) ← ptc_samples fl j;
  noise_floor ← py_min v;
  '(model_fit, ierr) ← fit E ptc_model sig ((fun x => x - noise_floor)%R <$> v) 100;
  Ok (5000 / PowerLaw1D_eval model_fit 5000)%R.

Definition ptc_channel (E : Env) (fl : Flats) (st : Report) (j : nat)
    : result Report :=
  k ← ptc_gain E fl j;
  label ← py_index (gain_label fl) j;
  Ok (gain_convert label k st).

Definition flat_report (E : Env) (fl : Flats) (st : Report) : result Report :=
  st ← for_each (mid_flat_page (gain_label fl)) (enumerate (mid_flats fl)) st;
  st ← for_each (well_depth_page (gain_label fl)) (enumerate (sat_flats fl)) st;
  _ ← for_each (fun (_ : unit) j => _ ← linearity_points fl j; Ok tt) (seq 0 4) tt;
  st ← for_each (ptc_channel E fl) (seq 0 4) st;
  Ok (set_pdf (savefig (fun n => PlotPage n "Linearity and photon transfer curves")
                 (pdf st)) st).

Definition flat_analysis (E : Env) (prefix : string) (st : Report)
    : result (Report * list string) :=
  fl ← flat_load E prefix;
  st ← flat_report E fl st;
  Ok (st, gain_label fl).

(** ** The whole run *)

(** The scan of the file names for the three kinds of exposure. *)
Definition scan_files (files : list string) : bool * bool * bool :=
  foldl (fun '(bias_present, dark_present, flat_present) f =>
           (if contains "bias" f then true else bias_present,
            if contains "dark" f then true else dark_present,
            if contains "flat" f then true else flat_present))
        (false, false, false) files.

Definition contents (present : bool * bool * bool) : list string :=
  let '(bias_present, dark_present, flat_present) := present in
  (if bias_present then ["- Bias frames"] else []) ++
  (if dark_present then ["- Standard operating dark frames"] else []) ++
  (if flat_present then ["- Flat fields vs exposure time"] else []).

(** The final table: one row per gain label, a cell per dictionary that
    has the label. *)
Definition summary_rows (labels : list string) (st : Report) : list Row :=
  (fun g => (g, det_gain st !! g, read_noise st !! g,
             (fun d => d * 1000)%R <$> dark_current st !! g,
             well_depth st !! g)) <$> labels.

(** The three sections and the final table, given the analyzers that the
    sections call.  A section whose exposures were not seen by the scan is
    not entered. *)
Definition run_sections
    (bias dark : Report → result Report)
    (flat : Report → result (Report * list string))
    (present : bool * bool * bool) (st : Report) : result Report :=
  let '(bias_present, dark_present, flat_present) := present in
  st ← (if bias_present then bias st else Ok st);
  st ← (if dark_present then dark st else Ok st);
  '(st, labels) ← (if flat_present then flat st else Ok (st, []));
  Ok (if bias_present && dark_present && flat_present
      then set_pdf (savefig (fun n => TablePage n (summary_rows labels st))
                      (pdf st)) st
      else st).

(** The body of the function once the directory is known not to be empty:
    the report file name and the final state. *)
Definition write_report_with
    (bias dark : string → Report → result Report)
    (flat : string → Report → result (Report * list string))
    (E : Env) (dirname : string) (files : list string)
    : result (string * Report) :=
  f0 ← py_index files 0;
  let f := split "_" f0 in
  camera ← py_index f 0;
  detid ← py_index f 1;
  let stamp := List.last f EmptyString in
  let datestring := substring 0 4 stamp +:+ "-" +:+ substring 4 2 stamp
                    +:+ "-" +:+ substring 6 2 stamp in
  exp ← Exposure_open E (path_join dirname f0);
  let present := scan_files files in
  (* with PdfPages(...) as pdf: *)
  git ← git_hash E;
  let temp := if decide (0 < temperature exp)%R
              then Some (temperature exp) else None in
  let st := {| pdf := savefig (fun n => TitlePage n detid camera datestring
                         (firmware exp) temp (now E) git (contents present)) [];
               read_noise := ∅; det_gain := ∅;
               dark_current := ∅; well_depth := ∅ |} in
  let prefix := dirname +:+ "/" +:+ camera +:+ "_" +:+ detid in
  st ← run_sections (bias prefix) (dark prefix) (flat prefix) present st;
  Ok (path_join dirname (camera +:+ "_" +:+ detid +:+ "_analysis_report.pdf"), st).

Definition write_report (E : Env) : string → list string → result (string * Report) :=
  write_report_with (bias_analysis E) (dark_analysis E) (flat_analysis E) E.

Inductive PyValue : Type := PyNone | PyFalse.

(** What a call leaves behind: the lines printed, the value returned and
    the report written (file name and content), or the exception that
    ended it. *)
Inductive Outcome : Type :=
  | Returned (stdout : list string) (value : PyValue)
      (report : option (string * Report))
  | Raised (e : exn).

Definition standard_analysis_products (E : Env) (dirname : string) : Outcome :=
  match listdir E dirname with
  | Raise e => Raised e
  | Ok files =>
      if decide (length files < 1)
      then Returned ["No data files found in directory"] PyFalse None
      else match write_report E dirname files with
           | Ok r => Returned [] PyNone (Some r)
           | Raise e => Raised e
           end
  end.

(** ** Vocabulary of the statements *)

Definition channel_labels (g : string) : list string :=
  if decide (g = "hdr") then ["high (dual-gain)"; "low (dual-gain)"] else [g].

(** The per-channel lists grow together. *)
Definition flats_aligned (fl : Flats) : Prop :=
  length (sat_flats fl) = length (gain_label fl)
  ∧ length (mid_flats fl) = length (gain_label fl)
  ∧ length (exp_times fl) = length (gain_label fl)
  ∧ length (med_sig fl) = length (gain_label fl)
  ∧ length (var fl) = length (gain_label fl).

Definition flat_labels : list string :=
  ["high (dual-gain)"; "low (dual-gain)"; "high"; "low"].

(** The shape the script expects of the exposures of a gain mode. *)
Definition dual_shaped (e : Exposure) : Prop :=
  (∃ fs, cds_frames e = DualCDS fs)
  ∧ (∃ h l, get_median e (full_frame e) = Dual h l)
  ∧ (∃ h l, get_variance e (full_frame e) = Dual h l).

Definition mono_shaped (e : Exposure) : Prop :=
  (∃ fs, cds_frames e = MonoCDS fs)
  ∧ (∃ a, get_median e (full_frame e) = Mono a)
  ∧ (∃ a, get_variance e (full_frame e) = Mono a).

Definition shaped (g : string) (e : Exposure) : Prop :=
  if decide (g = "hdr") then dual_shaped e else mono_shaped e.

Definition chan_hi {A : Type} (c : chan A) : A :=
  match c with Mono a => a | Dual h _ => h end.

Definition chan_lo {A : Type} (c : chan A) : A :=
  match c with Mono a => a | Dual _ l => l end.

(** The series of median signals of each channel of a gain mode. *)
Definition channel_medians (g : string) (frames : list Exposure) : list (list R) :=
  let ms := (fun ff => get_median ff (full_frame ff)) <$> frames in
  if decide (g = "hdr") then [chan_hi <$> ms; chan_lo <$> ms] else [chan_hi <$> ms].

Definition no_mid_range (ms : list R) : Prop :=
  Forall (fun m => ¬ (5000 < m < 15000)%R) ms.

(** A computation that can only end well or in an [IndexError]. *)
Definition ok_or_index {A : Type} (r : result A) : Prop :=
  match r with
  | Ok _ => True
  | Raise e => e = IndexError
  end.

(** No key of any of the four dictionaries is lost between two states. *)
Definition keys_kept (st st' : Report) : Prop :=
  dom (read_noise st) ⊆ dom (read_noise st')
  ∧ dom (det_gain st) ⊆ dom (det_gain st')
  ∧ dom (dark_current st) ⊆ dom (dark_current st')
  ∧ dom (well_depth st) ⊆ dom (well_depth st').

(** One-pixel exposures with pixel value 1/2; the median signal [m] of the
    flats and the solver status [ierr] of the fits are left open. *)
Module Sample.

Definition pixel : Frame := [(1 / 2)%R].

Definition dual (m : R) : Exposure :=
  {| gain := "hdr"; exp_time := 1; date := 0; dev_size := (1, 1);
     temperature := 0; firmware := "v1";
     cds_frames := DualCDS [(pixel, pixel)];
     get_median := fun _ => Dual m m;
     get_variance := fun _ => Dual 4%R 4%R |}.

Definition mono (g : string) (m : R) : Exposure :=
  {| gain := g; exp_time := 1; date := 0; dev_size := (1, 1);
     temperature := 0; firmware := "v1";
     cds_frames := MonoCDS [pixel];
     get_median := fun _ => Mono m;
     get_variance := fun _ => Mono 4%R |}.

Definition load (m : R) (prefix : string) : result (list Exposure) :=
  if decide (prefix = "data/cam_det_flat_high") then Ok [mono "high" m]
  else if decide (prefix = "data/cam_det_flat_low") then Ok [mono "low" m]
  else Ok [dual m].

Definition fitted : PowerLaw1D :=
  {| amplitude := (1 / 2)%R; x_0 := 1%R; alpha := (-1)%R |}.

Definition files : list string :=
  ["cam_det_bias_hdr_20240413.fits"; "cam_det_FUVdark0_900_20240413.fits";
   "cam_det_flat_hdr_20240413.fits"].

Definition env (m : R) (ierr : Z) : Env :=
  {| listdir := fun _ => Ok files;
     Exposure_open := fun _ => Ok (dual m);
     load_by_file_prefix := load m;
     fit := fun _ _ _ _ => Ok (fitted, ierr);
     git_hash := Ok "abc1234";
     now := "2024-04-13 12:00:00" |}.

(** What the gain-mode loop collects from these flats. *)
Definition flats (m : R) : Flats :=
  {| gain_label := flat_labels;
     sat_flats := [pixel; pixel; pixel; pixel];
     mid_flats := [pixel; pixel; pixel; pixel];
     mid_flat_times := [1; 1; 1; 1]%R;
     exp_times := [[1]; [1]; [1]; [1]]%R;
     med_sig := [[m]; [m]; [m]; [m]];
     var := [[4]; [4]; [4]; [4]]%R |}.

(** The gain the loop derives from [fitted]. *)
Definition k : R := (5000 / PowerLaw1D_eval fitted 5000)%R.

(** A state with one entry in each dictionary the conversion rewrites. *)
Definition measured : Report :=
  {| pdf := []; read_noise := {[ "high" := 4%R ]}; det_gain := ∅;
     dark_current := {[ "high" := 1%R ]}; well_depth := {[ "high" := 3%R ]} |}.

Definition blank : Report :=
  {| pdf := []; read_noise := ∅; det_gain := ∅; dark_current := ∅;
     well_depth := ∅ |}.

End Sample.

(** ** The command line

    The block under [if __name__ == '__main__']: the arguments after the
    script name that start with "-" are options, the others are
    arguments; the directory is the first argument, or is asked for; the
    option "-g" makes every call of the loader carry [graycode=True]. *)

Definition command_line (argv : list string) (input : string) : string * bool :=
  let opts := filter (fun opt => String.prefix "-" opt = true) (tail argv) in
  let args := filter (fun arg => String.prefix "-" arg = false) (tail argv) in
  let dirname := if decide (length args < 1) then input
                 else default input (head args) in
  (dirname, bool_decide ("-g" ∈ opts)).

(** The environment whose loader is called with the given keyword. *)
Definition with_loader (E : Env) (load : string → result (list Exposure)) : Env :=
  {| listdir := listdir E; Exposure_open := Exposure_open E;
     load_by_file_prefix := load; fit := fit E;
     git_hash := git_hash E; now := now E |}.

Definition main (E : Env) (load : bool → string → result (list Exposure))
    (argv : list string) (input : string) : Outcome :=
  let '(dirname, graycode) := command_line argv input in
  standard_analysis_products (with_loader E (load graycode)) dirname.

(** ** Vocabulary for the pages of a report *)

Definition page_number (pg : Page) : nat :=
  match pg with
  | TitlePage n _ _ _ _ _ _ _ _ => n
  | HistPage n _ _ => n
  | PlotPage n _ => n
  | TablePage n _ => n
  end.

(** The pages a section draws: histogram pages and plots. *)
Definition section_page (pg : Page) : Prop :=
  match pg with
  | HistPage _ _ _ | PlotPage _ _ => True
  | _ => False
  end.

(** [st'] has the pages of [st] followed by [new], each numbered by its
    place in the document. *)
Definition appended (st st' : Report) (new : list Page) : Prop :=
  pdf st' = pdf st ++ new
  ∧ Forall section_page new
  ∧ ∀ i pg, new !! i = Some pg → page_number pg = length (pdf st) + i + 1.

(** The pages of a document are numbered 1, 2, 3, ... *)
Definition numbered (p : list Page) : Prop :=
  ∀ i pg, p !! i = Some pg → page_number pg = i + 1.

(** The number of channels, hence of pages, of the bias exposures. *)
Definition bias_channel_count (frames : list Exposure) : nat :=
  sum_list ((fun e => length (channel_labels (gain e))) <$> frames).

(** Every channel has as many variances as median signals, and a median
    signal in the mid range. *)
Definition fit_ready (fl : Flats) : Prop :=
  Forall2 (fun s v => length s = length v ∧ ∃ m, m ∈ s ∧ (5000 < m < 15000)%R)
    (med_sig fl) (var fl).

(** The pairs of file prefixes (long exposure, short exposure) the dark
    section loads, in loading order. *)
Definition dark_acquisitions (prefix : string) : list (string * string) :=
  mode ← dark_modes;
  dark_prefixes prefix mode (dark_durations mode).1 (dark_durations mode).2.

(** The files of a prefix are there and the first of them is a dual-gain
    exposure with at least one CDS frame. *)
Definition dual_first (E : Env) (p : string) : Prop :=
  ∃ e rest hl, load_by_file_prefix E p = Ok (e :: rest) ∧ cds_first_dual e = Ok hl.

(** An image without pixels, or with all pixels at one integer value. *)
Definition undrawable (data : Frame) : Prop :=
  data = [] ∨ ∃ z : Z, Forall (fun x => x = IZR z) data.

(** Synthetic darks: every file prefix holds one dual-gain exposure whose
    CDS frame has [n] pixels, all at the value [V], in both channels. *)
Module Synthetic.

Definition dark (n : nat) (V : R) : Exposure :=
  {| gain := "hdr"; exp_time := 900; date := 0; dev_size := (1, n);
     temperature := 0; firmware := "v1";
     cds_frames := DualCDS [(replicate n V, replicate n V)];
     get_median := fun _ => Dual V V;
     get_variance := fun _ => Dual 0%R 0%R |}.

Definition env (n : nat) (V : R) : Env :=
  {| listdir := fun _ => Ok ["cam_det_FUVdark0_900_20240413.fits"];
     Exposure_open := fun _ => Ok (dark n V);
     load_by_file_prefix := fun _ => Ok [dark n V];
     fit := fun m _ _ _ => Ok (m, 1%Z);
     git_hash := Ok "abc1234";
     now := "2024-04-13 12:00:00" |}.

End Synthetic.

(** The empty lists the gain-mode loop starts from. *)
Definition no_flats : Flats :=
  {| gain_label := []; sat_flats := []; mid_flats := []; mid_flat_times := [];
     exp_times := []; med_sig := []; var := [] |}.

(** [i] is the first index of [s] whose value lies strictly between 5000
    and 15000. *)
Definition first_mid_range (s : list R) (i : nat) : Prop :=
  (∃ m, s !! i = Some m ∧ (5000 < m < 15000)%R)
  ∧ ∀ q m', q < i → s !! q = Some m' → ¬ (5000 < m' < 15000)%R.

(** Four single-gain flats of growing exposure time, one pixel each, with
    median signals 5000, 10000, 15000 and 20000 ADU: the first and the
    third sit exactly on the two bounds. *)
Module Ramp.

Definition flat (t m : R) : Exposure :=
  {| gain := "high"; exp_time := t; date := 0; dev_size := (1, 1);
     temperature := 0; firmware := "v1";
     cds_frames := MonoCDS [[m]];
     get_median := fun _ => Mono m;
     get_variance := fun _ => Mono (m / 2)%R |}.

Definition frames : list Exposure :=
  [flat 1 5000; flat 2 10000; flat 3 15000; flat 4 20000].

Definition env : Env :=
  {| listdir := fun _ => Ok ["cam_det_flat_high_20240413.fits"];
     Exposure_open := fun _ => Ok (flat 1 5000);
     load_by_file_prefix := fun _ => Ok frames;
     fit := fun m _ _ _ => Ok (m, 1%Z);
     git_hash := Ok "abc1234";
     now := "2024-04-13 12:00:00" |}.

End Ramp.

(** Two directories: one without any file, and one that holds a single
    bias exposure and nothing for the dark and flat sections. *)
Module Partial.

Definition empty_dir : Env :=
  {| listdir := fun _ => Ok [];
     Exposure_open := fun _ => Raise (ExternalError "no such file");
     load_by_file_prefix := fun _ => Ok [];
     fit := fun m _ _ _ => Ok (m, 1%Z);
     git_hash := Ok "abc1234";
     now := "2024-04-13 12:00:00" |}.

Definition files : list string := ["cam_det_bias_hdr_20240413.fits"].

Definition bias_only : Env :=
  {| listdir := fun _ => Ok files;
     Exposure_open := fun _ => Ok (Sample.dual 10000);
     load_by_file_prefix := fun p =>
       if decide (p = "data/cam_det_bias") then Ok [Sample.dual 10000] else Ok [];
     fit := fun m _ _ _ => Ok (m, 1%Z);
     git_hash := Ok "abc1234";
     now := "2024-04-13 12:00:00" |}.

(** The sample directory without the flats of the low gain mode. *)
Definition no_low : Env :=
  {| listdir := fun _ => Ok Sample.files;
     Exposure_open := fun _ => Ok (Sample.dual 10000);
     load_by_file_prefix := fun p =>
       if decide (p = "data/cam_det_flat_low") then Ok []
       else Sample.load 10000 p;
     fit := fun _ _ _ _ => Ok (Sample.fitted, 1%Z);
     git_hash := Ok "abc1234";
     now := "2024-04-13 12:00:00" |}.

End Partial.

(** ** Facts about the median *)

Section median_facts.

Lemma sort_sorted (l : list R) : Sorted Rle (np.sort l).
Proof. apply (Sorted_merge_sort Rle). Qed.

Lemma sort_perm (l : list R) : np.sort l ≡ₚ l.
Proof. apply (merge_sort_Permutation Rle). Qed.

Lemma sort_unique (l s : list R) :
  Sorted Rle s → s ≡ₚ l → np.sort l = s.
Proof.
  intros Hs Hp. apply (Sorted_unique Rle); auto using sort_sorted.
  rewrite sort_perm. by symmetry.
Qed.



Lemma median_even (l s : list R) (m : nat) :
  Sorted Rle s → s ≡ₚ l → length l = 2 * m → 0 < m →
  np.median l = ((nth (m - 1) s 0 + nth m s 0) / 2)%R.
Proof.
  intros Hs Hp Hl Hm. unfold np.median. rewrite (sort_unique l s Hs Hp).
  rewrite (Permutation_length Hp), Hl.
  replace (Nat.even (2 * m)) with true
    by (symmetry; apply Nat.even_spec; by exists m).
  replace (2 * m / 2) with m by (apply (Nat.div_unique _ 2 m 0); lia).
  done.
Qed.


Lemma columns_length (n : nat) (st : list Frame) :
  Forall (fun f => length f = n) st → length (np.columns n st) = n.
Proof.
  induction 1 as [|f fs Hf _ IH]; simpl.
  - by rewrite length_replicate.
  - rewrite length_zip_with, IH, Hf. lia.
Qed.

Lemma columns_lookup (n p : nat) (st : list Frame) :
  Forall (fun f => length f = n) st → p < n →
  np.columns n st !! p = Some ((fun f => nth p f 0%R) <$> st).
Proof.
  intros Hall Hp. induction Hall as [|f fs Hf _ IH]; simpl.
  - by rewrite lookup_replicate_2.
  - rewrite lookup_zip_with, IH. simpl.
    destruct (f !! p) as [x|] eqn:E.
    + simpl. by rewrite (nth_lookup_Some _ _ _ _ E).
    + apply lookup_ge_None in E. lia.
Qed.








End median_facts.

(** ** The median frame (claim C8) *)

Lemma median_frame_pixel (n : nat) (stack : list Frame) :
  stack ≠ [] →
  Forall (fun f => length f = n) stack →
  length (np.median_axis0 stack) = n
  ∧ (∀ p, p < n →
       np.median_axis0 stack !! p
       = Some (np.median ((fun f => nth p f 0%R) <$> stack))).
Proof.
  intros Hne Hall.
  assert (Hhd : length (hd [] stack) = n).
  { destruct stack; [done|]. by inversion Hall. }
  split.
  - unfold np.median_axis0. by rewrite length_fmap, Hhd, columns_length.
  - intros p Hp. unfold np.median_axis0.
    by rewrite list_lookup_fmap, Hhd, (columns_lookup n p stack Hall Hp).
Qed.



(** The median frame of a small stack: pixel 0 is (1 + 3) / 2, pixel 1 is
    (2 + 5) / 2. *)
Example median_axis0_example :
  np.median_axis0 [[1; 5]; [3; 2]]%R = [2; 7 / 2]%R.
Proof.
  unfold np.median_axis0. simpl. f_equal; [|f_equal].
  - rewrite (median_even _ [1; 3]%R 1); try done; try lia.
    + simpl. lra.
    + repeat constructor. lra.
  - rewrite (median_even _ [2; 5]%R 1); try done; try lia.
    + simpl. lra.
    + repeat constructor. lra.
    + apply perm_swap.
Qed.

(** ** Reasoning about [result] and loops *)

Lemma bind_Ok {A B : Type} (m : result A) (f : A → result B) (b : B) :
  m ≫= f = Ok b ↔ ∃ a, m = Ok a ∧ f a = Ok b.
Proof.
  destruct m as [a|e]; simpl; split.
  - intros H. by exists a.
  - by intros (a' & [= ->] & H).
  - discriminate.
  - by intros (a' & [=] & _).
Qed.

Lemma bind_Raise {A B : Type} (m : result A) (f : A → result B) (e : exn) :
  m = Raise e → m ≫= f = Raise e.
Proof. by intros ->. Qed.

(** Splits a hypothesis [x ← m; k = Ok r] into its successful steps. *)
Ltac inv_ok H :=
  repeat match type of H with
  | (_ ≫= _) = Ok _ =>
      let a := fresh "a" in let Ha := fresh "Hstep" in
      apply bind_Ok in H; destruct H as (a & Ha & H)
  | (let '(_, _) := ?p in _) = Ok _ => destruct p
  | Ok _ = Ok _ => injection H as H
  | Raise _ = Ok _ => discriminate H
  | (if ?c then _ else _) = Ok _ => destruct c
  end.

Lemma for_each_nil {A S : Type} (body : S → A → result S) (s : S) :
  for_each body [] s = Ok s.
Proof. done. Qed.

Lemma for_each_cons {A S : Type} (body : S → A → result S) (a : A) (l : list A) (s : S) :
  for_each body (a :: l) s = body s a ≫= for_each body l.
Proof. done. Qed.

(** One turn of a loop that ended well. *)
Ltac loop_step H s Hs :=
  rewrite for_each_cons in H; apply bind_Ok in H as (s & Hs & H).

Lemma for_each_app {A S : Type} (body : S → A → result S) (l1 l2 : list A) (s : S) :
  for_each body (l1 ++ l2) s = for_each body l1 s ≫= for_each body l2.
Proof.
  revert s. induction l1 as [|a l1 IH]; intros s; simpl; [done|].
  destruct (body s a); simpl; auto.
Qed.

(** A property kept by every successful pass through the body holds after
    the loop. *)
Lemma for_each_invariant {A S : Type} (P : S → Prop) (body : S → A → result S)
    (l : list A) (s s' : S) :
  (∀ s1 a s2, a ∈ l → P s1 → body s1 a = Ok s2 → P s2) →
  P s → for_each body l s = Ok s' → P s'.
Proof.
  revert s. induction l as [|a l IH]; intros s Hstep Hs H; simpl in H.
  - by injection H as <-.
  - apply bind_Ok in H as (s1 & H1 & H2).
    apply (IH s1); auto.
    + intros s2 b s3 Hb. apply Hstep. by right.
    + apply (Hstep s a s1); auto. by left.
Qed.

Lemma py_index_Ok {A : Type} (l : list A) (i : nat) (a : A) :
  py_index l i = Ok a ↔ l !! i = Some a.
Proof. unfold py_index. destruct (l !! i); split; congruence. Qed.

Lemma enumerate_lookup {A : Type} (l : list A) (i : nat) (a : A) :
  l !! i = Some a → enumerate l !! i = Some (i, a).
Proof.
  intros H. unfold enumerate. rewrite lookup_zip_with, H.
  rewrite lookup_seq_lt by (by eapply lookup_lt_Some). done.
Qed.

Lemma elem_of_enumerate {A : Type} (l : list A) (i : nat) (a : A) :
  (i, a) ∈ enumerate l ↔ l !! i = Some a.
Proof.
  unfold enumerate. rewrite list_elem_of_lookup. split.
  - intros (j & Hj). rewrite lookup_zip_with in Hj.
    destruct (seq 0 (length l) !! j) as [i'|] eqn:E1; [|done]. simpl in Hj.
    destruct (l !! j) as [a'|] eqn:E2; [|done]. simpl in Hj.
    injection Hj as <- <-. apply lookup_seq in E1 as [-> _]. done.
  - intros H. exists i. by apply enumerate_lookup.
Qed.

(** ** The gain conversion (claims C1, C2) *)

Lemma gain_convert_fields (label : string) (k : R) (st : Report) :
  pdf (gain_convert label k st) = pdf st
  ∧ det_gain (gain_convert label k st) = <[label := k]> (det_gain st)
  ∧ read_noise (gain_convert label k st)
    = match read_noise st !! label with
      | Some r => <[label := (sqrt r * k)%R]> (read_noise st)
      | None => read_noise st
      end
  ∧ dark_current (gain_convert label k st)
    = match dark_current st !! label with
      | Some d => <[label := (d * k)%R]> (dark_current st)
      | None => dark_current st
      end
  ∧ well_depth (gain_convert label k st)
    = match well_depth st !! label with
      | Some w => <[label := (w * k)%R]> (well_depth st)
      | None => well_depth st
      end.
Proof.
  unfold gain_convert. destruct st as [p rn dg dc wd]; simpl.
  destruct (rn !! label); simpl; destruct (dc !! label); simpl;
    destruct (wd !! label); simpl; done.
Qed.

Lemma convert_lookup_eq (f : R → R) (label : string) (m : gmap string R) :
  match m !! label with
  | Some r => <[label := f r]> m
  | None => m
  end !! label = f <$> m !! label.
Proof. destruct (m !! label) eqn:E; simpl; [by rewrite lookup_insert_eq|done]. Qed.

Lemma convert_lookup_ne (f : R → R) (label l : string) (m : gmap string R) :
  l ≠ label →
  match m !! label with
  | Some r => <[label := f r]> m
  | None => m
  end !! l = m !! l.
Proof. intros Hne. destruct (m !! label); [by rewrite lookup_insert_ne|done]. Qed.

Lemma convert_dom (f : R → R) (label : string) (m : gmap string R) :
  dom (match m !! label with
       | Some r => <[label := f r]> m
       | None => m
       end) = dom m.
Proof.
  destruct (m !! label) eqn:E; [|done]. rewrite dom_insert_L.
  apply elem_of_dom_2 in E. set_solver.
Qed.

Lemma ptc_channel_inv (E : Env) (fl : Flats) (st st' : Report) (j : nat) :
  ptc_channel E fl st j = Ok st' →
  ∃ label k, gain_label fl !! j = Some label ∧ ptc_gain E fl j = Ok k
             ∧ st' = gain_convert label k st.
Proof.
  unfold ptc_channel. intros H.
  apply bind_Ok in H as (k & Hk & H). apply bind_Ok in H as (label & Hl & H).
  injection H as H; subst st'. apply py_index_Ok in Hl. by exists label, k.
Qed.

Lemma gain_convert_lookups (label : string) (k : R) (st : Report) :
  let st' := gain_convert label k st in
  det_gain st' !! label = Some k
  ∧ read_noise st' !! label = (fun r => sqrt r * k)%R <$> read_noise st !! label
  ∧ dark_current st' !! label = (fun d => d * k)%R <$> dark_current st !! label
  ∧ well_depth st' !! label = (fun w => w * k)%R <$> well_depth st !! label
  ∧ (∀ l, l ≠ label →
       det_gain st' !! l = det_gain st !! l
       ∧ read_noise st' !! l = read_noise st !! l
       ∧ dark_current st' !! l = dark_current st !! l
       ∧ well_depth st' !! l = well_depth st !! l).
Proof.
  intros st'. unfold st'.
  destruct (gain_convert_fields label k st) as (_ & Hg & Hrn & Hdc & Hwd).
  rewrite Hg, Hrn, Hdc, Hwd, !convert_lookup_eq, lookup_insert_eq.
  repeat split; auto.
  - by rewrite lookup_insert_ne.
  - by apply convert_lookup_ne.
  - by apply convert_lookup_ne.
  - by apply convert_lookup_ne.
Qed.

Lemma ptc_channel_Ok (E : Env) (fl : Flats) (st st' : Report) (j : nat) :
  ptc_channel E fl st j = Ok st' →
  ∃ label k,
    gain_label fl !! j = Some label
    ∧ ptc_gain E fl j = Ok k
    ∧ det_gain st' !! label = Some k
    ∧ read_noise st' !! label = (fun r => sqrt r * k)%R <$> read_noise st !! label
    ∧ dark_current st' !! label = (fun d => d * k)%R <$> dark_current st !! label
    ∧ well_depth st' !! label = (fun w => w * k)%R <$> well_depth st !! label
    ∧ (∀ l, l ≠ label →
         det_gain st' !! l = det_gain st !! l
         ∧ read_noise st' !! l = read_noise st !! l
         ∧ dark_current st' !! l = dark_current st !! l
         ∧ well_depth st' !! l = well_depth st !! l)
    ∧ pdf st' = pdf st.
Proof.
  intros H. apply ptc_channel_inv in H as (label & k & Hl & Hk & ->).
  exists label, k. destruct (gain_convert_lookups label k st) as (G & R' & D & W & O).
  destruct (gain_convert_fields label k st) as (P & _). done.
Qed.

(** C1.  When the loop over the channels has obtained the gain [k] of
    channel [j] from the fit, the entry of the channel's label in
    [read_noise] becomes [sqrt] of the old entry times [k], the entries in
    [dark_current] and [well_depth] become the old entries times [k], and
    [det_gain] records [k]; a dictionary that has no entry for the label
    gets none, and the entries of all other labels stay as they were. *)
Theorem gain_conversion_in_place (E : Env) (fl : Flats) (st st' : Report) (j : nat) :
  ptc_channel E fl st j = Ok st' →
  ∃ label k,
    gain_label fl !! j = Some label
    ∧ ptc_gain E fl j = Ok k
    ∧ det_gain st' !! label = Some k
    ∧ read_noise st' !! label = (fun r => sqrt r * k)%R <$> read_noise st !! label
    ∧ dark_current st' !! label = (fun d => d * k)%R <$> dark_current st !! label
    ∧ well_depth st' !! label = (fun w => w * k)%R <$> well_depth st !! label
    ∧ (∀ l, l ≠ label →
         det_gain st' !! l = det_gain st !! l
         ∧ read_noise st' !! l = read_noise st !! l
         ∧ dark_current st' !! l = dark_current st !! l
         ∧ well_depth st' !! l = well_depth st !! l)
    ∧ pdf st' = pdf st.
Proof.
  unfold ptc_channel. intros H.
  apply bind_Ok in H as (k & Hk & H). apply bind_Ok in H as (label & Hl & H).
  injection H as H; subst st'. apply py_index_Ok in Hl.
  exists label, k. split; [exact Hl|]. split; [exact Hk|].
  destruct (gain_convert_fields label k st) as (Hp & Hg & Hrn & Hdc & Hwd).
  rewrite Hp, Hg, Hrn, Hdc, Hwd, !convert_lookup_eq, lookup_insert_eq.
  repeat split; auto.
  - by rewrite lookup_insert_ne.
  - by apply convert_lookup_ne.
  - by apply convert_lookup_ne.
  - by apply convert_lookup_ne.
Qed.

(** ** What the gain-mode loop of the flat section leaves *)

Lemma flat_gain_Ok (E : Env) (prefix : string) (acc acc' : Flats) (g : string) :
  flat_gain E prefix acc g = Ok acc' →
  gain_label acc' = gain_label acc ++ channel_labels g
  ∧ (flats_aligned acc → flats_aligned acc')
  ∧ ∃ frames, load_by_file_prefix E (prefix +:+ "_flat_" +:+ g) = Ok frames
              ∧ frames ≠ [].
Proof.
  unfold flat_gain, channel_labels. intros H.
  apply bind_Ok in H as (frames & Hload & H).
  apply bind_Ok in H as (mx & Hmax & H).
  assert (Hne : frames ≠ []) by (by intros ->).
  apply bind_Ok in H as (mi & _ & H).
  destruct (decide (g = "hdr")); inv_ok H; subst acc'; simpl.
  - split; [done|]. split; [|by exists frames].
    unfold flats_aligned; simpl. rewrite !length_app; simpl. lia.
  - split; [done|]. split; [|by exists frames].
    unfold flats_aligned; simpl. rewrite !length_app; simpl. lia.
Qed.

Lemma flat_load_Ok (E : Env) (prefix : string) (fl : Flats) :
  flat_load E prefix = Ok fl →
  gain_label fl = flat_labels
  ∧ flats_aligned fl
  ∧ ∀ g, g ∈ flat_gains →
      ∃ frames, load_by_file_prefix E (prefix +:+ "_flat_" +:+ g) = Ok frames
                ∧ frames ≠ [].
Proof.
  unfold flat_load, flat_gains. simpl. intros H.
  apply bind_Ok in H as (a1 & H1 & H). apply bind_Ok in H as (a2 & H2 & H).
  apply bind_Ok in H as (a3 & H3 & H). injection H as H; subst a3.
  apply flat_gain_Ok in H1 as (L1 & A1 & F1).
  apply flat_gain_Ok in H2 as (L2 & A2 & F2).
  apply flat_gain_Ok in H3 as (L3 & A3 & F3).
  split; [|split].
  - rewrite L3, L2, L1. done.
  - apply A3, A2, A1. unfold flats_aligned; simpl; lia.
  - intros g Hg. apply elem_of_cons in Hg as [->|Hg]; [done|].
    apply elem_of_cons in Hg as [->|Hg]; [done|].
    apply elem_of_cons in Hg as [->|Hg]; [done|]. by apply elem_of_nil in Hg.
Qed.

Lemma write_report_with_Ok (bias dark : string → Report → result Report)
    (flat : string → Report → result (Report * list string))
    (E : Env) (dirname : string) (files : list string) (path : string) (st' : Report) :
  write_report_with bias dark flat E dirname files = Ok (path, st') →
  ∃ prefix st,
    read_noise st = ∅ ∧ det_gain st = ∅ ∧ dark_current st = ∅ ∧ well_depth st = ∅
    ∧ run_sections (bias prefix) (dark prefix) (flat prefix) (scan_files files) st
      = Ok st'.
Proof.
  unfold write_report_with. intros H.
  apply bind_Ok in H as (f0 & _ & H). apply bind_Ok in H as (camera & _ & H).
  apply bind_Ok in H as (detid & _ & H). apply bind_Ok in H as (exp & _ & H).
  apply bind_Ok in H as (git & _ & H). apply bind_Ok in H as (st & Hrun & H).
  injection H as _ <-. eexists _, _. repeat split; [..|exact Hrun]; done.
Qed.

(** The loop over the four channels converts the entries of each label
    once, with the gain of that label's channel. *)
Lemma ptc_loop_Ok (E : Env) (fl : Flats) (st st' : Report) :
  gain_label fl = flat_labels →
  for_each (ptc_channel E fl) (seq 0 4) st = Ok st' →
  pdf st' = pdf st
  ∧ (∀ j label, flat_labels !! j = Some label →
       ∃ k, ptc_gain E fl j = Ok k
         ∧ det_gain st' !! label = Some k
         ∧ read_noise st' !! label
           = (fun r => sqrt r * k)%R <$> read_noise st !! label
         ∧ dark_current st' !! label
           = (fun d => d * k)%R <$> dark_current st !! label
         ∧ well_depth st' !! label
           = (fun w => w * k)%R <$> well_depth st !! label)
  ∧ (∀ l, l ∉ flat_labels →
       det_gain st' !! l = det_gain st !! l
       ∧ read_noise st' !! l = read_noise st !! l
       ∧ dark_current st' !! l = dark_current st !! l
       ∧ well_depth st' !! l = well_depth st !! l).
Proof.
  intros Hlab H. simpl in H.
  apply bind_Ok in H as (s1 & H0 & H). apply bind_Ok in H as (s2 & H1 & H).
  apply bind_Ok in H as (s3 & H2 & H). apply bind_Ok in H as (s4 & H3 & H).
  injection H as H; subst s4.
  apply ptc_channel_Ok in H0 as (l0 & k0 & L0 & K0 & G0 & R0 & D0 & W0 & O0 & P0).
  apply ptc_channel_Ok in H1 as (l1 & k1 & L1 & K1 & G1 & R1 & D1 & W1 & O1 & P1).
  apply ptc_channel_Ok in H2 as (l2 & k2 & L2 & K2 & G2 & R2 & D2 & W2 & O2 & P2).
  apply ptc_channel_Ok in H3 as (l3 & k3 & L3 & K3 & G3 & R3 & D3 & W3 & O3 & P3).
  rewrite Hlab in L0, L1, L2, L3. simpl in L0, L1, L2, L3.
  injection L0 as <-. injection L1 as <-. injection L2 as <-. injection L3 as <-.
  split; [congruence|]. split.
  - intros j label Hj.
    destruct j as [|[|[|[|j]]]]; simpl in Hj; try discriminate;
      injection Hj as <-.
    + exists k0. split; [done|].
      destruct (O1 "high (dual-gain)") as (a1 & b1 & c1 & d1); [done|].
      destruct (O2 "high (dual-gain)") as (a2 & b2 & c2 & d2); [done|].
      destruct (O3 "high (dual-gain)") as (a3 & b3 & c3 & d3); [done|].
      repeat split; congruence.
    + exists k1. split; [done|].
      destruct (O0 "low (dual-gain)") as (a1 & b1 & c1 & d1); [done|].
      destruct (O2 "low (dual-gain)") as (a2 & b2 & c2 & d2); [done|].
      destruct (O3 "low (dual-gain)") as (a3 & b3 & c3 & d3); [done|].
      repeat split; congruence.
    + exists k2. split; [done|].
      destruct (O0 "high") as (a1 & b1 & c1 & d1); [done|].
      destruct (O1 "high") as (a2 & b2 & c2 & d2); [done|].
      destruct (O3 "high") as (a3 & b3 & c3 & d3); [done|].
      repeat split; congruence.
    + exists k3. split; [done|].
      destruct (O0 "low") as (a1 & b1 & c1 & d1); [done|].
      destruct (O1 "low") as (a2 & b2 & c2 & d2); [done|].
      destruct (O2 "low") as (a3 & b3 & c3 & d3); [done|].
      repeat split; congruence.
  - intros l Hl. unfold flat_labels in Hl.
    rewrite !not_elem_of_cons in Hl. destruct Hl as (n0 & n1 & n2 & n3 & _).
    destruct (O0 l n0) as (a0 & b0 & c0 & d0).
    destruct (O1 l n1) as (a1 & b1 & c1 & d1).
    destruct (O2 l n2) as (a2 & b2 & c2 & d2).
    destruct (O3 l n3) as (a3 & b3 & c3 & d3).
    repeat split; congruence.
Qed.

(** A second application of the conversion converts again. *)
Lemma gain_convert_twice (label : string) (k : R) (st : Report) :
  let st2 := gain_convert label k (gain_convert label k st) in
  det_gain st2 !! label = Some k
  ∧ read_noise st2 !! label
    = (fun r => sqrt (sqrt r * k) * k)%R <$> read_noise st !! label
  ∧ dark_current st2 !! label
    = (fun d => d * k * k)%R <$> dark_current st !! label
  ∧ well_depth st2 !! label
    = (fun w => w * k * k)%R <$> well_depth st !! label.
Proof.
  intros st2. unfold st2.
  destruct (gain_convert_fields label k (gain_convert label k st))
    as (_ & Hg & Hrn & Hdc & Hwd).
  destruct (gain_convert_fields label k st) as (_ & Hg' & Hrn' & Hdc' & Hwd').
  rewrite Hg, Hrn, Hdc, Hwd, !convert_lookup_eq.
  rewrite Hrn', Hdc', Hwd', !convert_lookup_eq, lookup_insert_eq.
  repeat split.
  - by destruct (read_noise st !! label).
  - by destruct (dark_current st !! label).
  - by destruct (well_depth st !! label).
Qed.

(** C2 (as amended).  Within one run the conversion is applied once per
    channel: the loop visits the four channel labels, which are distinct,
    and leaves for each label the stored value converted once with that
    channel's gain.  The conversion step itself is not idempotent: applied
    a second time with the same [k] to the same dictionaries it converts
    again, giving [d * k * k] for [dark_current] and [well_depth] and
    [sqrt (sqrt r * k) * k] for [read_noise].  A second run of the program
    does not meet converted values: every run starts its sections from
    empty dictionaries. *)
Theorem gain_conversion_once_per_run (E : Env) (prefix : string) (fl : Flats)
    (st st' : Report) :
  flat_load E prefix = Ok fl →
  for_each (ptc_channel E fl) (seq 0 4) st = Ok st' →
  gain_label fl = flat_labels
  ∧ NoDup (gain_label fl)
  ∧ (∀ j label, gain_label fl !! j = Some label →
       ∃ k, ptc_gain E fl j = Ok k
         ∧ det_gain st' !! label = Some k
         ∧ read_noise st' !! label
           = (fun r => sqrt r * k)%R <$> read_noise st !! label
         ∧ dark_current st' !! label
           = (fun d => d * k)%R <$> dark_current st !! label
         ∧ well_depth st' !! label
           = (fun w => w * k)%R <$> well_depth st !! label)
  ∧ (∀ label k st0,
       let st2 := gain_convert label k (gain_convert label k st0) in
       read_noise st2 !! label
       = (fun r => sqrt (sqrt r * k) * k)%R <$> read_noise st0 !! label
       ∧ dark_current st2 !! label
         = (fun d => d * k * k)%R <$> dark_current st0 !! label
       ∧ well_depth st2 !! label
         = (fun w => w * k * k)%R <$> well_depth st0 !! label)
  ∧ (∀ dirname files path st'',
       write_report E dirname files = Ok (path, st'') →
       ∃ prefix' st0,
         read_noise st0 = ∅ ∧ det_gain st0 = ∅
         ∧ dark_current st0 = ∅ ∧ well_depth st0 = ∅
         ∧ run_sections (bias_analysis E prefix') (dark_analysis E prefix')
             (flat_analysis E prefix') (scan_files files) st0 = Ok st'').
Proof.
  intros Hload Hloop. apply flat_load_Ok in Hload as (Hlab & _ & _).
  destruct (ptc_loop_Ok E fl st st' Hlab Hloop) as (_ & Hconv & _).
  split; [done|]. split; [|split; [|split]].
  - rewrite Hlab. unfold flat_labels.
    repeat (apply NoDup_cons; split; [set_solver|]). apply NoDup_nil_2.
  - rewrite Hlab. exact Hconv.
  - intros label k st0. apply gain_convert_twice.
  - intros dirname files path st'' H. unfold write_report in H.
    by apply write_report_with_Ok in H.
Qed.

(** ** Thresholds of the flat section *)

Lemma where_from_head (mask : list bool) (i r : nat) :
  py_index (where_from i mask) 0 = Ok r ↔
  ∃ p, r = i + p ∧ mask !! p = Some true ∧ ∀ q, q < p → mask !! q = Some false.
Proof.
  revert i. induction mask as [|b mask IH]; intros i; simpl.
  - split; [discriminate|]. by intros (p & _ & Hp & _).
  - destruct b.
    + unfold py_index; simpl. split.
      * intros [= <-]. exists 0. split; [lia|]. split; [done|]. lia.
      * intros (p & -> & Hp & Hq). destruct p as [|p]; [f_equal; lia|].
        specialize (Hq 0 ltac:(lia)). discriminate.
    + rewrite IH. split.
      * intros (p & -> & Hp & Hq). exists (S p). split; [lia|]. split; [done|].
        intros [|q] Hlt; [done|]. simpl. apply Hq. lia.
      * intros (p & -> & Hp & Hq). destruct p as [|p]; [discriminate|].
        exists p. split; [lia|]. split; [done|].
        intros q Hlt. apply (Hq (S q)). lia.
Qed.

Lemma where_from_none (mask : list bool) (i : nat) :
  Forall (fun b => b = false) mask → py_index (where_from i mask) 0 = Raise IndexError.
Proof.
  intros H. revert i. induction H as [|b mask -> _ IH]; intros i; simpl; auto.
Qed.

Lemma mid_range_mask_lookup (medians : list R) (i : nat) (b : bool) :
  mid_range_mask medians !! i = Some b ↔
  ∃ m, medians !! i = Some m ∧ (b = true ↔ (5000 < m < 15000)%R).
Proof.
  unfold mid_range_mask. rewrite list_lookup_fmap.
  destruct (medians !! i) as [m|]; simpl.
  - split.
    + intros [= <-]. exists m. split; [done|].
      rewrite andb_true_iff, !bool_decide_eq_true. done.
    + intros (m' & [= <-] & Hb). f_equal.
      destruct b.
      * apply andb_true_iff. rewrite !bool_decide_eq_true. by apply Hb.
      * apply not_true_is_false. rewrite andb_true_iff, !bool_decide_eq_true.
        intros H. apply Hb in H. discriminate.
  - split; [discriminate|]. by intros (m & [=] & _).
Qed.

Lemma mid_exp_i_Ok (medians : list R) (i : nat) :
  mid_exp_i medians = Ok i ↔
  (∃ m, medians !! i = Some m ∧ (5000 < m < 15000)%R)
  ∧ (∀ q m', q < i → medians !! q = Some m' → ¬ (5000 < m' < 15000)%R).
Proof.
  unfold mid_exp_i, np_where. rewrite where_from_head. split.
  - intros (p & -> & Hp & Hq). simpl. split.
    + apply mid_range_mask_lookup in Hp as (m & Hm & Hb).
      exists m. split; [done|]. by apply Hb.
    + intros q m' Hlt Hm' Hin. specialize (Hq q Hlt).
      apply mid_range_mask_lookup in Hq as (m & Hm & Hb).
      rewrite Hm' in Hm. injection Hm as <-. apply Hb in Hin. discriminate.
  - intros ((m & Hm & Hin) & Hq). exists i. split; [done|]. split.
    + apply mid_range_mask_lookup. exists m. done.
    + intros q Hlt.
      destruct (medians !! q) as [m'|] eqn:Hm'.
      * apply mid_range_mask_lookup. exists m'. split; [done|].
        split; [discriminate|]. intros Hin'. by destruct (Hq q m' Hlt Hm').
      * apply lookup_ge_None in Hm'. apply lookup_lt_Some in Hm. lia.
Qed.

Lemma mid_exp_i_none (medians : list R) :
  Forall (fun m => ¬ (5000 < m < 15000)%R) medians →
  mid_exp_i medians = Raise IndexError.
Proof.
  intros H. unfold mid_exp_i, np_where. apply where_from_none.
  unfold mid_range_mask. apply Forall_fmap. eapply Forall_impl; [exact H|].
  intros m Hm. simpl. apply not_true_is_false.
  rewrite andb_true_iff, !bool_decide_eq_true. done.
Qed.

Lemma mask_select_unsaturated (s : list R) :
  mask_select s (unsaturated_mask s) = filter (fun m => (m < 15000)%R) s.
Proof.
  unfold mask_select, unsaturated_mask.
  induction s as [|a s IH]; [done|]. csimpl.
  rewrite filter_cons. rewrite (filter_cons _ a s). simpl.
  destruct (decide (a < 15000)%R) as [Ha|Ha].
  - rewrite (bool_decide_eq_true_2 _ Ha). simpl. f_equal. exact IH.
  - rewrite (bool_decide_eq_false_2 _ Ha). simpl. exact IH.
Qed.

Lemma mask_select_pairs (s vs : list R) :
  length s = length vs →
  zip (mask_select s (unsaturated_mask s)) (mask_select vs (unsaturated_mask s))
  = filter (fun p => (p.1 < 15000)%R) (zip s vs).
Proof.
  unfold mask_select, unsaturated_mask. revert vs.
  induction s as [|a s IH]; intros [|b vs] Hlen; try done; simpl in Hlen.
  csimpl. rewrite !filter_cons. simpl.
  destruct (decide (a < 15000)%R) as [Ha|Ha].
  - rewrite (bool_decide_eq_true_2 _ Ha). simpl. f_equal. apply IH. lia.
  - rewrite (bool_decide_eq_false_2 _ Ha). simpl. apply IH. lia.
Qed.

(** ** Failures of the gain-mode loop (claims C6, C10) *)

Lemma ok_or_index_bind {A B : Type} (m : result A) (f : A → result B) :
  ok_or_index m → (∀ a, m = Ok a → ok_or_index (f a)) → ok_or_index (m ≫= f).
Proof. destruct m; simpl; auto. Qed.

Lemma py_index_ok_or_index {A : Type} (l : list A) (i : nat) :
  ok_or_index (py_index l i).
Proof. unfold py_index. by destruct (l !! i). Qed.

Lemma mid_exp_i_ok_or_index (ms : list R) : ok_or_index (mid_exp_i ms).
Proof. apply py_index_ok_or_index. Qed.

Lemma dual_columns_Ok (l : list (chan R)) (hs los : list R) :
  dual_columns l = Ok (hs, los) → hs = chan_hi <$> l ∧ los = chan_lo <$> l.
Proof.
  revert hs los. induction l as [|c l IH]; intros hs los H; simpl in H.
  - by injection H as <- <-.
  - destruct c as [a|h lo]; simpl in H; [discriminate|].
    destruct (dual_columns l) as [[hs' los']|]; simpl in H; [|discriminate].
    injection H as <- <-. destruct (IH hs' los' eq_refl) as [-> ->]. done.
Qed.

Lemma mono_column_Ok (l : list (chan R)) (ms : list R) :
  mono_column l = Ok ms → ms = chan_hi <$> l.
Proof.
  revert ms. induction l as [|c l IH]; intros ms H; simpl in H.
  - by injection H as <-.
  - destruct c as [a|h lo]; simpl in H; [|discriminate].
    destruct (mono_column l) as [ms'|]; simpl in H; [|discriminate].
    injection H as <-. by rewrite (IH ms' eq_refl).
Qed.

Lemma dual_columns_shaped (l : list (chan R)) :
  Forall (fun c => ∃ h lo, c = Dual h lo) l →
  dual_columns l = Ok (chan_hi <$> l, chan_lo <$> l).
Proof.
  induction 1 as [|c l (h & lo & ->) _ IH]; simpl; [done|]. by rewrite IH.
Qed.

Lemma mono_column_shaped (l : list (chan R)) :
  Forall (fun c => ∃ a, c = Mono a) l → mono_column l = Ok (chan_hi <$> l).
Proof.
  induction 1 as [|c l (a & ->) _ IH]; simpl; [done|]. by rewrite IH.
Qed.

Lemma mid_exp_i_some (ms : list R) (i : nat) :
  mid_exp_i ms = Ok i → ¬ no_mid_range ms.
Proof.
  intros H Hno. rewrite (mid_exp_i_none ms Hno) in H. discriminate.
Qed.

(** A gain mode that gets through the loop has a mid-range exposure in each
    of its channels. *)
Lemma flat_gain_Ok_mid (E : Env) (prefix : string) (acc acc' : Flats) (g : string)
    (frames : list Exposure) :
  flat_gain E prefix acc g = Ok acc' →
  load_by_file_prefix E (prefix +:+ "_flat_" +:+ g) = Ok frames →
  Forall (fun ms => ¬ no_mid_range ms) (channel_medians g frames).
Proof.
  unfold flat_gain, channel_medians. intros H Hload. rewrite Hload in H. simpl in H.
  apply bind_Ok in H as (mx & _ & H). apply bind_Ok in H as (mi & _ & H).
  destruct (decide (g = "hdr")).
  - apply bind_Ok in H as (sat & _ & H).
    apply bind_Ok in H as ([mh ml] & Hm & H).
    apply bind_Ok in H as ([vh vl] & _ & H).
    apply bind_Ok in H as (hi & Hhi & H). apply bind_Ok in H as (li & Hli & _).
    apply dual_columns_Ok in Hm as [-> ->].
    repeat constructor; eauto using mid_exp_i_some.
  - apply bind_Ok in H as (sat & _ & H).
    apply bind_Ok in H as (med & Hm & H). apply bind_Ok in H as (vs & _ & H).
    apply bind_Ok in H as (i & Hi & _).
    apply mono_column_Ok in Hm as ->.
    repeat constructor; eauto using mid_exp_i_some.
Qed.

Lemma for_each_ok_or_index {A S : Type} (body : S → A → result S) (l : list A) (s : S) :
  (∀ s1 a, a ∈ l → ok_or_index (body s1 a)) → ok_or_index (for_each body l s).
Proof.
  revert s. induction l as [|a l IH]; intros s H; simpl; [done|].
  apply ok_or_index_bind.
  - apply H. by left.
  - intros s1 _. apply IH. intros s2 b Hb. apply H. by right.
Qed.

Lemma index_cds_dual (frames : list Exposure) (i : nat) :
  Forall dual_shaped frames → ok_or_index (py_index frames i ≫= cds_first_dual).
Proof.
  intros Hall. apply ok_or_index_bind; [apply py_index_ok_or_index|].
  intros e He. apply py_index_Ok in He.
  rewrite Forall_lookup in Hall. destruct (Hall i e He) as ((fs & Hfs) & _).
  unfold cds_first_dual. rewrite Hfs. apply py_index_ok_or_index.
Qed.

Lemma index_cds_mono (frames : list Exposure) (i : nat) :
  Forall mono_shaped frames → ok_or_index (py_index frames i ≫= cds_first_mono).
Proof.
  intros Hall. apply ok_or_index_bind; [apply py_index_ok_or_index|].
  intros e He. apply py_index_Ok in He.
  rewrite Forall_lookup in Hall. destruct (Hall i e He) as ((fs & Hfs) & _).
  unfold cds_first_mono. rewrite Hfs. apply py_index_ok_or_index.
Qed.

Lemma py_max_nonempty (l : list R) : l ≠ [] → ∃ x, py_max l = Ok x.
Proof. destruct l; [done|]. intros _. by eexists. Qed.

Lemma np_argmax_nonempty (l : list R) : l ≠ [] → ∃ i, np_argmax l = Ok i.
Proof. destruct l; [done|]. intros _. by eexists. Qed.

(** With exposures present and of the expected shape, a gain mode can only
    fail with an [IndexError]. *)
Lemma flat_gain_ok_or_index (E : Env) (prefix : string) (acc : Flats) (g : string)
    (frames : list Exposure) :
  load_by_file_prefix E (prefix +:+ "_flat_" +:+ g) = Ok frames →
  frames ≠ [] → Forall (shaped g) frames →
  ok_or_index (flat_gain E prefix acc g).
Proof.
  intros Hload Hne Hsh. unfold flat_gain. rewrite Hload. simpl.
  assert (Hexp : exp_time <$> frames ≠ []) by (by destruct frames).
  destruct (py_max_nonempty _ Hexp) as (mx & ->).
  destruct (np_argmax_nonempty _ Hexp) as (mi & ->).
  simpl.
  unfold shaped in Hsh. destruct (decide (g = "hdr")).
  - apply ok_or_index_bind; [by apply index_cds_dual|]. intros sat _.
    rewrite (dual_columns_shaped ((fun ff => get_median ff (full_frame ff)) <$> frames)).
    2:{ apply Forall_fmap. eapply Forall_impl; [exact Hsh|].
        intros x (_ & Hm & _). exact Hm. }
    rewrite (dual_columns_shaped ((fun ff => get_variance ff (full_frame ff)) <$> frames)).
    2:{ apply Forall_fmap. eapply Forall_impl; [exact Hsh|].
        intros x (_ & _ & Hv). exact Hv. }
    simpl.
    apply ok_or_index_bind; [apply mid_exp_i_ok_or_index|]. intros hi _.
    apply ok_or_index_bind; [apply mid_exp_i_ok_or_index|]. intros li _.
    apply ok_or_index_bind; [apply py_index_ok_or_index|]. intros th _.
    apply ok_or_index_bind; [apply py_index_ok_or_index|]. intros tl _.
    apply ok_or_index_bind; [by apply index_cds_dual|]. intros fh _.
    apply ok_or_index_bind; [by apply index_cds_dual|]. intros fl _. done.
  - apply ok_or_index_bind; [by apply index_cds_mono|]. intros sat _.
    rewrite (mono_column_shaped ((fun ff => get_median ff (full_frame ff)) <$> frames)).
    2:{ apply Forall_fmap. eapply Forall_impl; [exact Hsh|].
        intros x (_ & Hm & _). exact Hm. }
    rewrite (mono_column_shaped ((fun ff => get_variance ff (full_frame ff)) <$> frames)).
    2:{ apply Forall_fmap. eapply Forall_impl; [exact Hsh|].
        intros x (_ & _ & Hv). exact Hv. }
    simpl.
    apply ok_or_index_bind; [apply mid_exp_i_ok_or_index|]. intros i _.
    apply ok_or_index_bind; [by apply index_cds_mono|]. intros fm _.
    apply ok_or_index_bind; [apply py_index_ok_or_index|]. intros t _. done.
Qed.

Lemma flat_load_Ok_mid (E : Env) (prefix : string) (fl : Flats) (g : string)
    (frames : list Exposure) :
  flat_load E prefix = Ok fl → g ∈ flat_gains →
  load_by_file_prefix E (prefix +:+ "_flat_" +:+ g) = Ok frames →
  Forall (fun ms => ¬ no_mid_range ms) (channel_medians g frames).
Proof.
  unfold flat_load, flat_gains. simpl. intros H Hg Hload.
  apply bind_Ok in H as (a1 & H1 & H). apply bind_Ok in H as (a2 & H2 & H).
  apply bind_Ok in H as (a3 & H3 & _).
  apply elem_of_cons in Hg as [->|Hg]; [by eapply flat_gain_Ok_mid|].
  apply elem_of_cons in Hg as [->|Hg]; [by eapply flat_gain_Ok_mid|].
  apply elem_of_cons in Hg as [->|Hg]; [by eapply flat_gain_Ok_mid|].
  by apply elem_of_nil in Hg.
Qed.

Lemma flat_analysis_Ok (E : Env) (prefix : string) (st st' : Report)
    (labels : list string) :
  flat_analysis E prefix st = Ok (st', labels) →
  ∃ fl, flat_load E prefix = Ok fl ∧ flat_report E fl st = Ok st'
        ∧ labels = gain_label fl.
Proof.
  unfold flat_analysis. intros H.
  apply bind_Ok in H as (fl & Hfl & H). apply bind_Ok in H as (s & Hs & H).
  injection H as <- <-. by exists fl.
Qed.

(** C6.  If some channel of the flat section has no exposure whose median
    signal is strictly inside (5000, 15000) ADU, the flat analyzer does not
    complete: it raises.  When every gain mode has at least one flat
    exposure, of the shape of its mode, the exception is the [IndexError]
    of taking the first element of an empty index array. *)
Theorem no_mid_range_exposure_fails (E : Env) (prefix : string) (st : Report)
    (g : string) (frames : list Exposure) (ms : list R) :
  g ∈ flat_gains →
  load_by_file_prefix E (prefix +:+ "_flat_" +:+ g) = Ok frames →
  ms ∈ channel_medians g frames →
  no_mid_range ms →
  is_raise (flat_analysis E prefix st)
  ∧ ((∀ g', g' ∈ flat_gains →
        ∃ fs, load_by_file_prefix E (prefix +:+ "_flat_" +:+ g') = Ok fs
              ∧ fs ≠ [] ∧ Forall (shaped g') fs) →
     flat_analysis E prefix st = Raise IndexError).
Proof.
  intros Hg Hload Hms Hno.
  assert (Hfail : ∀ fl, flat_load E prefix ≠ Ok fl).
  { intros fl Hfl.
    pose proof (flat_load_Ok_mid E prefix fl g frames Hfl Hg Hload) as Hall.
    rewrite Forall_forall in Hall. by apply (Hall ms). }
  split.
  - unfold flat_analysis. destruct (flat_load E prefix) as [fl|e] eqn:Hfl; [|done].
    by destruct (Hfail fl).
  - intros Hall.
    assert (Hoi : ok_or_index (flat_load E prefix)).
    { apply for_each_ok_or_index. intros acc g' Hg'.
      destruct (Hall g' Hg') as (fs & Hfs & Hne & Hsh).
      by eapply flat_gain_ok_or_index. }
    unfold flat_analysis. destruct (flat_load E prefix) as [fl|e] eqn:Hfl.
    + by destruct (Hfail fl).
    + simpl in *. by subst e.
Qed.

(** ** The dark section *)

Lemma np_stack_Ok (fs fs' : list Frame) :
  np.stack fs = Ok fs' →
  fs' = fs ∧ fs ≠ [] ∧ Forall (fun g => length g = length (hd [] fs)) fs.
Proof.
  unfold np.stack. destruct fs as [|f fs]; [discriminate|].
  destruct (decide _) as [Hall|]; [|discriminate]. intros [= <-]. done.
Qed.

Lemma dark_page_Ok (mode : string) (times : list Z) (st st' : Report)
    (j : nat) (f : Frame) :
  dark_page mode times st (j, f) = Ok st' →
  ∃ name t, dark_names !! j = Some name ∧ times !! j = Some t
    ∧ dark_current st'
      = dark_assign mode name (np.median f) t (dark_current st)
    ∧ read_noise st' = read_noise st
    ∧ det_gain st' = det_gain st
    ∧ well_depth st' = well_depth st
    ∧ hist_page (pdf st) f
        ("Dark frames - " +:+ mode +:+ " mode - " +:+ name +:+ " frame")
      = Ok (pdf st').
Proof.
  unfold dark_page. intros H.
  apply bind_Ok in H as (mmin & _ & H). apply bind_Ok in H as (mmax & _ & H).
  apply bind_Ok in H as (name & Hn & H). apply bind_Ok in H as (t & Ht & H).
  apply bind_Ok in H as (p & Hp & H). injection H as H; subst st'.
  apply py_index_Ok in Hn, Ht. exists name, t. simpl. done.
Qed.

(** What the page loop of a dark mode does to the dictionaries. *)
Lemma dark_pages_Ok (mode : string) (d : DarkStacks) (st st' : Report) :
  dark_pages mode d st = Ok st' →
  dark_current st'
  = (if decide (mode = "FUVdark")
     then <["high (dual-gain)" :=
              (np.median (np.median_axis0 (long_high d)) / 900)%R]>
            (<["low (dual-gain)" :=
                 (np.median (np.median_axis0 (long_low d)) / 900)%R]>
               (dark_current st))
     else dark_current st)
  ∧ read_noise st' = read_noise st
  ∧ det_gain st' = det_gain st
  ∧ well_depth st' = well_depth st.
Proof.
  unfold dark_pages, dark_durations, dark_frames. intros H.
  assert (H' : ∃ lh ll sh sl long short,
            (if decide (mode = "FUVdark") then (900, 9)%Z else (300, 3)%Z)
            = (long, short)
            ∧ np.stack (long_high d) = Ok lh ∧ np.stack (long_low d) = Ok ll
            ∧ for_each (dark_page mode [short; short; long; long])
                (enumerate [np.median_axis0 sl; np.median_axis0 sh;
                            np.median_axis0 ll; np.median_axis0 lh]) st = Ok st').
  { destruct (decide (mode = "FUVdark")).
    - apply bind_Ok in H as (fr & Hfr & H).
      apply bind_Ok in Hfr as (lh & Hlh & Hfr). apply bind_Ok in Hfr as (ll & Hll & Hfr).
      apply bind_Ok in Hfr as (sh & Hsh & Hfr). apply bind_Ok in Hfr as (sl & Hsl & Hfr).
      injection Hfr as <-. by exists lh, ll, sh, sl, 900%Z, 9%Z.
    - apply bind_Ok in H as (fr & Hfr & H).
      apply bind_Ok in Hfr as (lh & Hlh & Hfr). apply bind_Ok in Hfr as (ll & Hll & Hfr).
      apply bind_Ok in Hfr as (sh & Hsh & Hfr). apply bind_Ok in Hfr as (sl & Hsl & Hfr).
      injection Hfr as <-. by exists lh, ll, sh, sl, 300%Z, 3%Z. }
  clear H. destruct H' as (lh & ll & sh & sl & long & short & Hdur & Hlh & Hll & H).
  apply np_stack_Ok in Hlh as (-> & _). apply np_stack_Ok in Hll as (-> & _).
  unfold enumerate in H. cbn [length seq zip_with] in H.
  loop_step H s1 H0. loop_step H s2 H1. loop_step H s3 H2. loop_step H s4 H3.
  rewrite for_each_nil in H. injection H as H; subst s4.
  apply dark_page_Ok in H0 as (n0 & t0 & N0 & T0 & D0 & R0 & G0 & W0 & _).
  apply dark_page_Ok in H1 as (n1 & t1 & N1 & T1 & D1 & R1 & G1 & W1 & _).
  apply dark_page_Ok in H2 as (n2 & t2 & N2 & T2 & D2 & R2 & G2 & W2 & _).
  apply dark_page_Ok in H3 as (n3 & t3 & N3 & T3 & D3 & R3 & G3 & W3 & _).
  simpl in *.
  injection N0 as <-. injection N1 as <-. injection N2 as <-. injection N3 as <-.
  injection T0 as <-. injection T1 as <-. injection T2 as <-. injection T3 as <-.
  split; [|repeat split; congruence].
  rewrite D3, D2, D1, D0. unfold dark_assign.
  destruct (decide (mode = "FUVdark")) as [->|Hne].
  - injection Hdur as <- <-.
    repeat (destruct (decide _) as [[? ?]|Hn];
            try discriminate; try (by destruct Hn)).
    done.
  - repeat (case_decide as Hc; [destruct Hc as [Hm _]; by destruct Hne|clear Hc]).
    done.
Qed.

Lemma sort_replicate (n : nat) (V : R) : np.sort (replicate n V) = replicate n V.
Proof.
  apply sort_unique; [|done].
  induction n as [|n IH]; simpl; [constructor|].
  constructor; [exact IH|]. destruct n; simpl; constructor. lra.
Qed.

Lemma median_replicate (n : nat) (V : R) : 0 < n → np.median (replicate n V) = V.
Proof.
  intros Hn. unfold np.median. rewrite sort_replicate, length_replicate.
  assert (Hnth : ∀ i, i < n → nth i (replicate n V) 0%R = V).
  { intros i Hi. apply nth_lookup_Some with (d := 0%R).
    by apply lookup_replicate_2. }
  assert (n / 2 < n) by (apply Nat.div_lt; lia).
  destruct (Nat.even n).
  - rewrite !Hnth by lia. lra.
  - by rewrite Hnth.
Qed.

(** The median frame of identical constant exposures is that constant. *)
Lemma median_axis0_constant (k n : nat) (V : R) :
  0 < k →
  np.median_axis0 (replicate k (replicate n V)) = replicate n V.
Proof.
  intros Hk. apply list_eq. intros p.
  destruct (decide (p < n)) as [Hp|Hp].
  - destruct (median_frame_pixel n (replicate k (replicate n V))) as [_ Hpix].
    + by destruct k; [lia|].
    + apply Forall_replicate. by rewrite length_replicate.
    + rewrite (Hpix p Hp), fmap_replicate, lookup_replicate_2 by done.
      rewrite (nth_lookup_Some _ _ _ V) by (by apply lookup_replicate_2).
      by rewrite median_replicate.
  - rewrite (lookup_ge_None_2 (replicate n V)) by (rewrite length_replicate; lia).
    apply lookup_ge_None_2.
    destruct (median_frame_pixel n (replicate k (replicate n V))) as [-> _].
    + by destruct k; [lia|].
    + apply Forall_replicate. by rewrite length_replicate.
    + lia.
Qed.

Lemma dark_load_Ok (E : Env) (acc d : DarkStacks) (ps : string * string) :
  dark_load E acc ps = Ok d →
  length (long_high d) = S (length (long_high acc))
  ∧ length (long_low d) = S (length (long_low acc))
  ∧ length (short_high d) = S (length (short_high acc))
  ∧ length (short_low d) = S (length (short_low acc)).
Proof.
  unfold dark_load. intros H.
  apply bind_Ok in H as (lf & _ & H). apply bind_Ok in H as (sf & _ & H).
  apply bind_Ok in H as ([lh ll] & _ & H). apply bind_Ok in H as ([sh sl] & _ & H).
  injection H as <-. simpl. rewrite !length_app. simpl. lia.
Qed.

Lemma dark_loads_Ok (E : Env) (l : list (string * string)) (acc d : DarkStacks) :
  for_each (dark_load E) l acc = Ok d →
  length (long_high d) = length l + length (long_high acc)
  ∧ length (long_low d) = length l + length (long_low acc)
  ∧ length (short_high d) = length l + length (short_high acc)
  ∧ length (short_low d) = length l + length (short_low acc).
Proof.
  revert acc. induction l as [|ps l IH]; intros acc H.
  - rewrite for_each_nil in H. by injection H as <-.
  - loop_step H a Ha. apply dark_load_Ok in Ha as (H1 & H2 & H3 & H4).
    destruct (IH a H) as (I1 & I2 & I3 & I4). simpl. lia.
Qed.

Lemma dark_mode_Ok (E : Env) (prefix : string) (st st' : Report) (mode : string) :
  dark_mode E prefix st mode = Ok st' →
  ∃ d st0,
    for_each (dark_load E)
      (dark_prefixes prefix mode (dark_durations mode).1 (dark_durations mode).2)
      no_stacks = Ok d
    ∧ dark_pages mode d st = Ok st0
    ∧ st' = set_pdf (savefig (fun n => PlotPage n
              ("Dark frames - " +:+ mode +:+ " mode - mean over time"))
              (pdf st0)) st0.
Proof.
  unfold dark_mode. destruct (dark_durations mode) as [long short]. intros H.
  apply bind_Ok in H as (d & Hd & H). apply bind_Ok in H as (st0 & Hp & H).
  injection H as <-. by exists d, st0.
Qed.

(** X17.  In a dark section that completes, [dark_current] receives
    exactly two entries, both from the long (900 s) frames of the FUVdark
    mode: the median of the median frame of the nine long exposures,
    divided by 900, under "high (dual-gain)" for the high-gain channel and
    under "low (dual-gain)" for the low-gain one.  The page loop of any
    other mode leaves [dark_current] as it was, and the other dictionaries
    are not touched.  When the nine long exposures all have every pixel
    equal to [V] and the section completes, both entries are [V / 900];
    the value assigned for such frames is [V / 900] whatever else happens
    in the run. *)
Theorem dark_current_from_FUVdark_long (E : Env) (prefix : string)
    (st st' : Report) :
  dark_analysis E prefix st = Ok st' →
  ∃ d,
    for_each (dark_load E) (dark_prefixes prefix "FUVdark" 900 9) no_stacks = Ok d
    ∧ length (long_high d) = 9 ∧ length (long_low d) = 9
    ∧ dark_current st'
      = <["high (dual-gain)" :=
            (np.median (np.median_axis0 (long_high d)) / 900)%R]>
          (<["low (dual-gain)" :=
               (np.median (np.median_axis0 (long_low d)) / 900)%R]>
             (dark_current st))
    ∧ read_noise st' = read_noise st
    ∧ det_gain st' = det_gain st
    ∧ well_depth st' = well_depth st
    ∧ (∀ mode d' s s', mode ≠ "FUVdark" → dark_pages mode d' s = Ok s' →
         dark_current s' = dark_current s)
    ∧ (∀ V n, 0 < n →
         long_high d = replicate 9 (replicate n V) →
         long_low d = replicate 9 (replicate n V) →
         dark_current st' !! "high (dual-gain)" = Some (V / 900)%R
         ∧ dark_current st' !! "low (dual-gain)" = Some (V / 900)%R)
    ∧ (∀ V n dc, 0 < n →
         let med_dark := np.median_axis0 (replicate 9 (replicate n V)) in
         dark_assign "FUVdark" "long high-gain" (np.median med_dark) 900 dc
         = <["high (dual-gain)" := (V / 900)%R]> dc
         ∧ dark_assign "FUVdark" "long low-gain" (np.median med_dark) 900 dc
           = <["low (dual-gain)" := (V / 900)%R]> dc).
Proof.
  unfold dark_analysis, dark_modes. intros H.
  loop_step H s1 H1. loop_step H s2 H2. loop_step H s3 H3.
  rewrite for_each_nil in H. injection H as H; subst s3.
  apply dark_mode_Ok in H1 as (d1 & t1 & L1 & P1 & ->).
  apply dark_mode_Ok in H2 as (d2 & t2 & L2 & P2 & ->).
  apply dark_mode_Ok in H3 as (d3 & t3 & L3 & P3 & ->).
  apply dark_pages_Ok in P1 as (D1 & R1 & G1 & W1).
  apply dark_pages_Ok in P2 as (D2 & R2 & G2 & W2).
  apply dark_pages_Ok in P3 as (D3 & R3 & G3 & W3).
  rewrite decide_True in D1 by done.
  rewrite decide_False in D2 by done. rewrite decide_False in D3 by done.
  simpl in R1, R2, R3, G1, G2, G3, W1, W2, W3, D2, D3.
  unfold dark_durations in L1. rewrite decide_True in L1 by done.
  cbn [fst snd] in L1.
  assert (Hdc : dark_current t3
            = <["high (dual-gain)" :=
                  (np.median (np.median_axis0 (long_high d1)) / 900)%R]>
                (<["low (dual-gain)" :=
                     (np.median (np.median_axis0 (long_low d1)) / 900)%R]>
                   (dark_current st))) by congruence.
  exists d1. cbn [set_pdf dark_current read_noise det_gain well_depth].
  split; [exact L1|].
  apply dark_loads_Ok in L1 as (Lh & Ll & _ & _).
  change (length (long_high d1) = 9) in Lh. change (length (long_low d1) = 9) in Ll.
  split; [exact Lh|]. split; [exact Ll|]. split; [exact Hdc|].
  split; [congruence|]. split; [congruence|]. split; [congruence|].
  split; [|split].
  - intros mode d' s s' Hne Hp. apply dark_pages_Ok in Hp as (Hd & _).
    by rewrite decide_False in Hd.
  - intros V n Hn Hh Hl. rewrite Hdc, Hh, Hl.
    rewrite median_axis0_constant, median_replicate by lia.
    rewrite lookup_insert_eq, lookup_insert_ne, lookup_insert_eq by done. done.
  - intros V n dc Hn. unfold dark_assign.
    rewrite median_axis0_constant, median_replicate by lia.
    rewrite decide_False by (by intros [_ ?]).
    rewrite decide_True by done. rewrite decide_True by done. done.
Qed.

(** ** The keys of the dictionaries (claim C5) *)

Lemma keys_kept_refl (st : Report) : keys_kept st st.
Proof. by repeat split. Qed.

Lemma keys_kept_trans (a b c : Report) :
  keys_kept a b → keys_kept b c → keys_kept a c.
Proof.
  intros (A1 & A2 & A3 & A4) (B1 & B2 & B3 & B4). repeat split; set_solver.
Qed.

(** A loop over [enumerate] whose body adds the label of its index to a
    set of keys adds the labels of all the indices it visits. *)
Lemma for_each_zip_keys {St : Type} (keys : St → gset string) (labels : list string)
    (body : St → nat * Frame → result St) :
  (∀ s i a s', body s (i, a) = Ok s' →
     ∃ label, labels !! i = Some label ∧ keys s' = keys s ∪ {[label]}) →
  ∀ (l : list Frame) i s s',
    for_each body (zip (seq i (length l)) l) s = Ok s' →
    keys s' = keys s ∪ list_to_set (take (length l) (drop i labels)).
Proof.
  intros Hbody. induction l as [|a l IH]; intros i s s' H.
  - simpl in H. injection H as <-. simpl. set_solver.
  - cbn [length seq zip_with] in H. loop_step H s1 H1.
    destruct (Hbody _ _ _ _ H1) as (label & Hl & Hk).
    rewrite (IH (S i) s1 s' H), Hk, (drop_S _ _ _ Hl). simpl. set_solver.
Qed.

Lemma bias_page_Ok (gains : list string) (var : list R) (st st' : Report)
    (i : nat) (f : Frame) :
  bias_page gains var st (i, f) = Ok st' →
  ∃ g v, gains !! i = Some g ∧ var !! i = Some v
    ∧ read_noise st' = <[g := sqrt v]> (read_noise st)
    ∧ det_gain st' = det_gain st
    ∧ dark_current st' = dark_current st
    ∧ well_depth st' = well_depth st.
Proof.
  unfold bias_page. intros H.
  apply bind_Ok in H as (mmin & _ & H). apply bind_Ok in H as (mmax & _ & H).
  apply bind_Ok in H as (g & Hg & H). apply bind_Ok in H as (v & Hv & H).
  apply bind_Ok in H as (p & _ & H). injection H as <-.
  apply py_index_Ok in Hg, Hv. by exists g, v.
Qed.

Lemma bias_channels_Ok (bifr : Exposure) (gains : list string)
    (med_frames : list Frame) (var : list R) :
  bias_channels bifr = Ok (gains, med_frames, var) →
  gains = channel_labels (gain bifr) ∧ length med_frames = length gains.
Proof.
  unfold bias_channels, channel_labels. intros H.
  destruct (decide (gain bifr = "hdr")).
  - apply bind_Ok in H as ([hi lo] & _ & H). apply bind_Ok in H as (v & _ & H).
    by injection H as <- <- <-.
  - apply bind_Ok in H as (fs & _ & H). apply bind_Ok in H as (v & _ & H).
    by injection H as <- <- <-.
Qed.

Lemma bias_frame_Ok (st st' : Report) (bifr : Exposure) :
  bias_frame st bifr = Ok st' →
  dom (read_noise st')
  = dom (read_noise st) ∪ list_to_set (channel_labels (gain bifr))
  ∧ det_gain st' = det_gain st
  ∧ dark_current st' = dark_current st
  ∧ well_depth st' = well_depth st.
Proof.
  unfold bias_frame. intros H.
  apply bind_Ok in H as ([[gains med_frames] var] & Hc & H).
  apply bias_channels_Ok in Hc as (-> & Hlen). split.
  - unfold enumerate in H.
    assert (Hbody : ∀ s i a s',
              bias_page (channel_labels (gain bifr)) var s (i, a) = Ok s' →
              ∃ label, channel_labels (gain bifr) !! i = Some label
                ∧ dom (read_noise s') = dom (read_noise s) ∪ {[label]}).
    { intros s i a s' Hs. apply bias_page_Ok in Hs as (g & v & Hg & _ & Hr & _).
      exists g. split; [done|]. rewrite Hr, dom_insert_L. set_solver. }
    rewrite (for_each_zip_keys (fun s => dom (read_noise s)) _ _ Hbody
               med_frames 0 st st' H).
    by rewrite Hlen, drop_0, firstn_all.
  - revert H. apply (for_each_invariant
      (fun s => det_gain s = det_gain st ∧ dark_current s = dark_current st
                ∧ well_depth s = well_depth st)); [|done].
    intros s1 [i a] s2 _ (G & D & W) Hs.
    apply bias_page_Ok in Hs as (g & v & _ & _ & _ & G' & D' & W').
    repeat split; congruence.
Qed.

Lemma bias_analysis_keys (E : Env) (prefix : string) (st st' : Report) :
  bias_analysis E prefix st = Ok st' → keys_kept st st'.
Proof.
  unfold bias_analysis. intros H. apply bind_Ok in H as (frames & _ & H).
  revert H. apply (for_each_invariant (keys_kept st)); [|apply keys_kept_refl].
  intros s1 bifr s2 _ Hk Hs. apply (keys_kept_trans _ s1); [done|].
  apply bias_frame_Ok in Hs as (R' & G' & D' & W').
  unfold keys_kept. rewrite R', G', D', W'. repeat split; set_solver.
Qed.

Lemma mid_flat_pages_Ok (labels : list string) (l : list (nat * Frame))
    (st st' : Report) :
  for_each (mid_flat_page labels) l st = Ok st' →
  read_noise st' = read_noise st ∧ det_gain st' = det_gain st
  ∧ dark_current st' = dark_current st ∧ well_depth st' = well_depth st.
Proof.
  apply (for_each_invariant
    (fun s => read_noise s = read_noise st ∧ det_gain s = det_gain st
              ∧ dark_current s = dark_current st ∧ well_depth s = well_depth st));
    [|done].
  intros s1 [i a] s2 _ (R' & G & D & W) Hs. unfold mid_flat_page in Hs.
  apply bind_Ok in Hs as (mmin & _ & Hs). apply bind_Ok in Hs as (mmax & _ & Hs).
  apply bind_Ok in Hs as (lab & _ & Hs). apply bind_Ok in Hs as (p & _ & Hs).
  by injection Hs as <-.
Qed.

Lemma well_depth_page_Ok (labels : list string) (st st' : Report)
    (i : nat) (f : Frame) :
  well_depth_page labels st (i, f) = Ok st' →
  ∃ label, labels !! i = Some label
    ∧ well_depth st' = <[label := np.median f]> (well_depth st)
    ∧ read_noise st' = read_noise st
    ∧ det_gain st' = det_gain st
    ∧ dark_current st' = dark_current st.
Proof.
  unfold well_depth_page. intros H.
  apply bind_Ok in H as (smin & _ & H). apply bind_Ok in H as (smax & _ & H).
  apply bind_Ok in H as (label & Hl & H). apply bind_Ok in H as (p & _ & H).
  injection H as <-. apply py_index_Ok in Hl. by exists label.
Qed.

Lemma well_depth_pages_Ok (labels : list string) (frames : list Frame)
    (st st' : Report) :
  for_each (well_depth_page labels) (enumerate frames) st = Ok st' →
  length frames = length labels →
  dom (well_depth st') = dom (well_depth st) ∪ list_to_set labels
  ∧ read_noise st' = read_noise st
  ∧ det_gain st' = det_gain st
  ∧ dark_current st' = dark_current st.
Proof.
  intros H Hlen. split.
  - unfold enumerate in H.
    assert (Hbody : ∀ s i a s',
              well_depth_page labels s (i, a) = Ok s' →
              ∃ label, labels !! i = Some label
                ∧ dom (well_depth s') = dom (well_depth s) ∪ {[label]}).
    { intros s i a s' Hs.
      apply well_depth_page_Ok in Hs as (label & Hl & Hw & _).
      exists label. split; [done|]. rewrite Hw, dom_insert_L. set_solver. }
    rewrite (for_each_zip_keys (fun s => dom (well_depth s)) _ _ Hbody
               frames 0 st st' H).
    by rewrite Hlen, drop_0, firstn_all.
  - revert H. apply (for_each_invariant
      (fun s => read_noise s = read_noise st ∧ det_gain s = det_gain st
                ∧ dark_current s = dark_current st)); [|done].
    intros s1 [i a] s2 _ (R' & G & D) Hs.
    apply well_depth_page_Ok in Hs as (label & _ & _ & R'' & G' & D').
    repeat split; congruence.
Qed.

Lemma well_depth_pages_Ok' (labels : list string) (l : list (nat * Frame))
    (st st' : Report) :
  for_each (well_depth_page labels) l st = Ok st' → det_gain st' = det_gain st.
Proof.
  apply (for_each_invariant (fun s => det_gain s = det_gain st)); [|done].
  intros s1 [i a] s2 _ G Hs.
  apply well_depth_page_Ok in Hs as (label & _ & _ & _ & G' & _). congruence.
Qed.

Lemma flat_report_Ok (E : Env) (fl : Flats) (st st' : Report) :
  flat_report E fl st = Ok st' →
  ∃ s1 s2 s3,
    for_each (mid_flat_page (gain_label fl)) (enumerate (mid_flats fl)) st = Ok s1
    ∧ for_each (well_depth_page (gain_label fl)) (enumerate (sat_flats fl)) s1 = Ok s2
    ∧ for_each (ptc_channel E fl) (seq 0 4) s2 = Ok s3
    ∧ st' = set_pdf (savefig (fun n => PlotPage n "Linearity and photon transfer curves")
                       (pdf s3)) s3.
Proof.
  unfold flat_report. intros H.
  apply bind_Ok in H as (s1 & H1 & H). apply bind_Ok in H as (s2 & H2 & H).
  apply bind_Ok in H as (u & _ & H). apply bind_Ok in H as (s3 & H3 & H).
  injection H as <-. by exists s1, s2, s3.
Qed.

Lemma elem_of_flat_labels (l : string) :
  l ∈ flat_labels → ∃ j, flat_labels !! j = Some l.
Proof. by apply list_elem_of_lookup_1. Qed.

(** The keys after the loop over the channels. *)
Lemma ptc_loop_dom (E : Env) (fl : Flats) (st st' : Report) :
  gain_label fl = flat_labels →
  for_each (ptc_channel E fl) (seq 0 4) st = Ok st' →
  dom (det_gain st') = dom (det_gain st) ∪ list_to_set flat_labels
  ∧ dom (read_noise st') = dom (read_noise st)
  ∧ dom (dark_current st') = dom (dark_current st)
  ∧ dom (well_depth st') = dom (well_depth st).
Proof.
  intros Hlab H. destruct (ptc_loop_Ok E fl st st' Hlab H) as (_ & Hin & Hout).
  assert (Hcase : ∀ l, (∃ k,
              det_gain st' !! l = Some k
              ∧ (∃ f, read_noise st' !! l = f <$> read_noise st !! l)
              ∧ (∃ f, dark_current st' !! l = f <$> dark_current st !! l)
              ∧ (∃ f, well_depth st' !! l = f <$> well_depth st !! l)
              ∧ l ∈ flat_labels)
            ∨ (det_gain st' !! l = det_gain st !! l
               ∧ read_noise st' !! l = read_noise st !! l
               ∧ dark_current st' !! l = dark_current st !! l
               ∧ well_depth st' !! l = well_depth st !! l
               ∧ l ∉ flat_labels)).
  { intros l. destruct (decide (l ∈ flat_labels)) as [Hl|Hl].
    - left. destruct (elem_of_flat_labels l Hl) as (j & Hj).
      destruct (Hin j l Hj) as (k & _ & G & R' & D & W).
      exists k. split; [done|]. repeat split; eauto.
    - right. destruct (Hout l Hl) as (G & R' & D & W). done. }
  repeat split; apply set_eq; intros l;
    rewrite ?elem_of_union, !elem_of_dom, ?elem_of_list_to_set;
    destruct (Hcase l) as [(k & G & (f1 & R') & (f2 & D) & (f3 & W) & Hl)
                          |(G & R' & D & W & Hl)];
    rewrite ?G, ?R', ?D, ?W, ?fmap_is_Some; try tauto.
  split; [by right|]. intros _. by eexists.
Qed.

Lemma flat_analysis_keys (E : Env) (prefix : string) (st st' : Report)
    (labels : list string) :
  flat_analysis E prefix st = Ok (st', labels) →
  labels = flat_labels
  ∧ dom (det_gain st') = dom (det_gain st) ∪ list_to_set flat_labels
  ∧ dom (well_depth st') = dom (well_depth st) ∪ list_to_set flat_labels
  ∧ dom (read_noise st') = dom (read_noise st)
  ∧ dom (dark_current st') = dom (dark_current st).
Proof.
  intros H. apply flat_analysis_Ok in H as (fl & Hload & Hrep & ->).
  apply flat_load_Ok in Hload as (Hlab & (Hsat & _) & _).
  apply flat_report_Ok in Hrep as (s1 & s2 & s3 & H1 & H2 & H3 & ->).
  apply mid_flat_pages_Ok in H1 as (R1 & G1 & D1 & W1).
  apply well_depth_pages_Ok in H2 as (W2 & R2 & G2 & D2); [|done].
  apply (ptc_loop_dom E fl s2 s3 Hlab) in H3 as (G3 & R3 & D3 & W3).
  cbn [set_pdf det_gain well_depth read_noise dark_current].
  rewrite G3, W3, R3, D3, W2, R2, G2, D2, R1, G1, D1, W1, Hlab. done.
Qed.

(** C5.  Processing an hdr exposure group creates exactly the keys
    "high (dual-gain)" and "low (dual-gain)" in the dictionary of the
    quantity recorded, and processing a group of another gain mode creates
    exactly the key named after the mode: a bias exposure does so in
    [read_noise]; the flat section, which goes through hdr, high and low,
    does so in [well_depth] and [det_gain]; the dark section, whose
    exposures are dual-gain, does so in [dark_current].  No section removes
    a key from any dictionary. *)
Theorem measurement_keys (E : Env) (prefix : string) :
  channel_labels "hdr" = ["high (dual-gain)"; "low (dual-gain)"]
  ∧ (∀ g, g ≠ "hdr" → channel_labels g = [g])
  ∧ (∀ st bifr st', bias_frame st bifr = Ok st' →
       dom (read_noise st')
       = dom (read_noise st) ∪ list_to_set (channel_labels (gain bifr)))
  ∧ (∀ acc g acc', flat_gain E prefix acc g = Ok acc' →
       gain_label acc' = gain_label acc ++ channel_labels g)
  ∧ (∀ st st' labels, flat_analysis E prefix st = Ok (st', labels) →
       labels = channel_labels "hdr" ++ channel_labels "high" ++ channel_labels "low"
       ∧ dom (well_depth st') = dom (well_depth st) ∪ list_to_set labels
       ∧ dom (det_gain st') = dom (det_gain st) ∪ list_to_set labels
       ∧ keys_kept st st')
  ∧ (∀ st st', dark_analysis E prefix st = Ok st' →
       dom (dark_current st')
       = dom (dark_current st) ∪ list_to_set (channel_labels "hdr")
       ∧ keys_kept st st')
  ∧ (∀ st st', bias_analysis E prefix st = Ok st' → keys_kept st st')
  ∧ (∀ label k st, keys_kept st (gain_convert label k st)).
Proof.
  split; [done|]. split.
  { intros g Hg. unfold channel_labels. by rewrite decide_False. }
  split.
  { intros st bifr st' H. by apply bias_frame_Ok in H as (H & _). }
  split.
  { intros acc g acc' H. by apply flat_gain_Ok in H as (H & _). }
  split.
  { intros st st' labels H.
    apply flat_analysis_keys in H as (-> & G & W & R' & D).
    split; [done|]. split; [done|]. split; [done|].
    unfold keys_kept. rewrite G, W, R', D. repeat split; set_solver. }
  split.
  { intros st st' H.
    assert (Hd : dom (dark_current st')
                 = dom (dark_current st) ∪ list_to_set (channel_labels "hdr")
                 ∧ read_noise st' = read_noise st ∧ det_gain st' = det_gain st
                 ∧ well_depth st' = well_depth st).
    { unfold dark_analysis, dark_modes in H.
      loop_step H s1 H1. loop_step H s2 H2. loop_step H s3 H3.
      rewrite for_each_nil in H. injection H as H; subst s3.
      apply dark_mode_Ok in H1 as (d1 & t1 & _ & P1 & ->).
      apply dark_mode_Ok in H2 as (d2 & t2 & _ & P2 & ->).
      apply dark_mode_Ok in H3 as (d3 & t3 & _ & P3 & ->).
      apply dark_pages_Ok in P1 as (D1 & R1 & G1 & W1).
      apply dark_pages_Ok in P2 as (D2 & R2 & G2 & W2).
      apply dark_pages_Ok in P3 as (D3 & R3 & G3 & W3).
      rewrite decide_True in D1 by done.
      rewrite decide_False in D2 by done. rewrite decide_False in D3 by done.
      cbn [set_pdf dark_current read_noise det_gain well_depth] in *.
      split; [|repeat split; congruence].
      rewrite D3, D2, D1, !dom_insert_L.
      change (channel_labels "hdr") with ["high (dual-gain)"; "low (dual-gain)"].
      set_solver. }
    destruct Hd as (D & R' & G & W). split; [done|].
    unfold keys_kept. rewrite D, R', G, W. repeat split; set_solver. }
  split.
  { intros st st' H. by eapply bias_analysis_keys. }
  intros label k st.
  destruct (gain_convert_fields label k st) as (_ & G & R' & D & W).
  unfold keys_kept. rewrite G, R', D, W, !convert_dom, dom_insert_L.
  repeat split; set_solver.
Qed.

(** ** The sections of a run (claims C7, C10) *)

Lemma scan_files_from (files : list string) (b d f : bool) :
  foldl (fun '(bias_present, dark_present, flat_present) f =>
           (if contains "bias" f then true else bias_present,
            if contains "dark" f then true else dark_present,
            if contains "flat" f then true else flat_present))
        (b, d, f) files
  = (b || existsb (contains "bias") files,
     d || existsb (contains "dark") files,
     f || existsb (contains "flat") files).
Proof.
  revert b d f. induction files as [|x files IH]; intros b d f; simpl.
  - by rewrite !orb_false_r.
  - rewrite IH.
    destruct (contains "bias" x), (contains "dark" x), (contains "flat" x);
      simpl; by rewrite ?orb_true_r.
Qed.

Lemma scan_files_spec (files : list string) :
  scan_files files
  = (existsb (contains "bias") files, existsb (contains "dark") files,
     existsb (contains "flat") files).
Proof. unfold scan_files. by rewrite scan_files_from. Qed.

Lemma existsb_absent (p : string → bool) (files : list string) :
  Forall (fun f => p f = false) files → existsb p files = false.
Proof. induction 1 as [|x l Hx _ IH]; simpl; [done|]. by rewrite Hx, IH. Qed.

Lemma existsb_present (p : string → bool) (files : list string) (f : string) :
  f ∈ files → p f = true → existsb p files = true.
Proof.
  intros Hin Hp. apply existsb_exists. exists f. split; [|done].
  by apply list_elem_of_In.
Qed.

Lemma run_sections_Ok (bias dark : Report → result Report)
    (flat : Report → result (Report * list string))
    (b d f : bool) (st st' : Report) :
  run_sections bias dark flat (b, d, f) st = Ok st' →
  ∃ s1 s2 s3 labels,
    (if b then bias st else Ok st) = Ok s1
    ∧ (if d then dark s1 else Ok s1) = Ok s2
    ∧ (if f then flat s2 else Ok (s2, [])) = Ok (s3, labels)
    ∧ st' = (if b && d && f
             then set_pdf (savefig (fun n => TablePage n (summary_rows labels s3))
                             (pdf s3)) s3
             else s3).
Proof.
  unfold run_sections. intros H.
  apply bind_Ok in H as (s1 & H1 & H). apply bind_Ok in H as (s2 & H2 & H).
  apply bind_Ok in H as ([s3 labels] & H3 & H). injection H as <-.
  by exists s1, s2, s3, labels.
Qed.

Lemma bias_analysis_others (E : Env) (prefix : string) (st st' : Report) :
  bias_analysis E prefix st = Ok st' →
  det_gain st' = det_gain st ∧ dark_current st' = dark_current st
  ∧ well_depth st' = well_depth st.
Proof.
  unfold bias_analysis. intros H. apply bind_Ok in H as (frames & _ & H).
  revert H. apply (for_each_invariant
    (fun s => det_gain s = det_gain st ∧ dark_current s = dark_current st
              ∧ well_depth s = well_depth st)); [|done].
  intros s1 bifr s2 _ (G & D & W) Hs.
  apply bias_frame_Ok in Hs as (_ & G' & D' & W'). repeat split; congruence.
Qed.

Lemma dark_analysis_others (E : Env) (prefix : string) (st st' : Report) :
  dark_analysis E prefix st = Ok st' →
  read_noise st' = read_noise st ∧ det_gain st' = det_gain st
  ∧ well_depth st' = well_depth st.
Proof.
  unfold dark_analysis. apply (for_each_invariant
    (fun s => read_noise s = read_noise st ∧ det_gain s = det_gain st
              ∧ well_depth s = well_depth st)); [|done].
  intros s1 mode s2 _ (R' & G & W) Hs.
  apply dark_mode_Ok in Hs as (d & t & _ & P & ->).
  apply dark_pages_Ok in P as (_ & R'' & G' & W').
  cbn [set_pdf read_noise det_gain well_depth]. repeat split; congruence.
Qed.

Lemma set_pdf_numbers (p : list Page) (st : Report) (b : bool) :
  let st' := if b then set_pdf p st else st in
  read_noise st' = read_noise st ∧ det_gain st' = det_gain st
  ∧ dark_current st' = dark_current st ∧ well_depth st' = well_depth st.
Proof. by destruct b. Qed.

(** A section that is not entered leaves its dictionaries empty. *)
Lemma skipped_section_numbers (E : Env) (dirname : string) (files : list string)
    (path : string) (st : Report) :
  write_report E dirname files = Ok (path, st) →
  (Forall (fun f => contains "bias" f = false) files → read_noise st = ∅)
  ∧ (Forall (fun f => contains "dark" f = false) files → dark_current st = ∅)
  ∧ (Forall (fun f => contains "flat" f = false) files →
       det_gain st = ∅ ∧ well_depth st = ∅).
Proof.
  intros H. unfold write_report in H. apply write_report_with_Ok in H as (prefix & st0 & R0 & G0 & D0 & W0 & H).
  rewrite scan_files_spec in H.
  apply run_sections_Ok in H as (s1 & s2 & s3 & labels & H1 & H2 & H3 & ->).
  match goal with |- context [if ?b then set_pdf ?p s3 else s3] =>
    destruct (set_pdf_numbers p s3 b) as (-> & -> & -> & ->) end.
  split; [|split].
  - intros Hno. rewrite (existsb_absent _ _ Hno) in H1. injection H1 as <-.
    assert (read_noise s2 = ∅) as R2.
    { destruct (existsb (contains "dark") files); [|by injection H2 as <-].
      apply dark_analysis_others in H2 as (-> & _). done. }
    destruct (existsb (contains "flat") files); [|by injection H3 as <- _].
    apply flat_analysis_keys in H3 as (_ & _ & _ & R3 & _).
    apply dom_empty_iff_L. by rewrite R3, R2, dom_empty_L.
  - intros Hno. rewrite (existsb_absent _ _ Hno) in H2. injection H2 as <-.
    assert (dark_current s1 = ∅) as D1.
    { destruct (existsb (contains "bias") files); [|by injection H1 as <-].
      apply bias_analysis_others in H1 as (_ & -> & _). done. }
    destruct (existsb (contains "flat") files); [|by injection H3 as <- _].
    apply flat_analysis_keys in H3 as (_ & _ & _ & _ & D3).
    apply dom_empty_iff_L. by rewrite D3, D1, dom_empty_L.
  - intros Hno. rewrite (existsb_absent _ _ Hno) in H3. injection H3 as <- _.
    assert (det_gain s1 = ∅ ∧ well_depth s1 = ∅) as [G1 W1].
    { destruct (existsb (contains "bias") files); [|by injection H1 as <-].
      apply bias_analysis_others in H1 as (-> & _ & ->). done. }
    destruct (existsb (contains "dark") files); [|by injection H2 as <-].
    apply dark_analysis_others in H2 as (_ & -> & ->). done.
Qed.

Lemma write_report_with_skip (bias bias' dark dark' : string → Report → result Report)
    (flat flat' : string → Report → result (Report * list string))
    (E : Env) (dirname : string) (files : list string) :
  (existsb (contains "bias") files = true → bias' = bias) →
  (existsb (contains "dark") files = true → dark' = dark) →
  (existsb (contains "flat") files = true → flat' = flat) →
  write_report_with bias' dark' flat' E dirname files
  = write_report_with bias dark flat E dirname files.
Proof.
  intros Hb Hd Hf. unfold write_report_with, run_sections.
  rewrite scan_files_spec.
  destruct (existsb (contains "bias") files);
    destruct (existsb (contains "dark") files);
    destruct (existsb (contains "flat") files);
    rewrite ?Hb, ?Hd, ?Hf by done; reflexivity.
Qed.

Lemma for_each_raises {A S : Type} (body : S → A → result S) (l : list A) (a : A) (s : S) :
  a ∈ l → (∀ s', is_raise (body s' a)) → is_raise (for_each body l s).
Proof.
  intros Hin Hr. revert s. induction l as [|b l IH]; intros s.
  - by apply elem_of_nil in Hin.
  - simpl. apply elem_of_cons in Hin as [<-|Hin].
    + specialize (Hr s). by destruct (body s a).
    + destruct (body s b); simpl; auto.
Qed.

Lemma flat_gain_no_frames (E : Env) (prefix : string) (acc : Flats) (g : string) :
  load_by_file_prefix E (prefix +:+ "_flat_" +:+ g) = Ok []
  ∨ (∃ e, load_by_file_prefix E (prefix +:+ "_flat_" +:+ g) = Raise e) →
  is_raise (flat_gain E prefix acc g).
Proof. unfold flat_gain. by intros [->|(e & ->)]. Qed.

(** ** The fit (claim C9) *)

Lemma ptc_channel_fit (E : Env) (fl : Flats) (st : Report) (j : nat)
    (sig v : list R) (noise_floor : R) (label : string) :
  ptc_samples fl j = Ok (sig, v) →
  py_min v = Ok noise_floor →
  gain_label fl !! j = Some label →
  ptc_channel E fl st j
  = match fit E ptc_model sig ((fun x => x - noise_floor)%R <$> v) 100 with
    | Ok (model_fit, ierr) =>
        Ok (gain_convert label (5000 / PowerLaw1D_eval model_fit 5000)%R st)
    | Raise e => Raise e
    end.
Proof.
  intros Hs Hm Hl. unfold ptc_channel, ptc_gain. rewrite Hs. simpl. rewrite Hm. simpl.
  destruct (fit E _ _ _ _) as [[m ierr]|e]; simpl; [|done].
  unfold py_index. by rewrite Hl.
Qed.

(** C9 (as amended).  The loop does not look at the solver status of the
    fit.  Whenever the fitter returns a model, converged within the 100
    iterations or not, the channel's gain is recorded as
    [5000 / model(5000)] and the conversion is applied with it; only an
    exception raised by the fitter itself ends the loop, and then nothing
    is recorded. *)
Theorem fit_status_not_inspected (E : Env) (fl : Flats) (st : Report) (j : nat)
    (sig v : list R) (noise_floor : R) (label : string) :
  ptc_samples fl j = Ok (sig, v) →
  py_min v = Ok noise_floor →
  gain_label fl !! j = Some label →
  (∀ model_fit ierr,
     fit E ptc_model sig ((fun x => x - noise_floor)%R <$> v) 100
     = Ok (model_fit, ierr) →
     let k := (5000 / PowerLaw1D_eval model_fit 5000)%R in
     ptc_channel E fl st j = Ok (gain_convert label k st)
     ∧ det_gain (gain_convert label k st) !! label = Some k)
  ∧ (∀ e,
     fit E ptc_model sig ((fun x => x - noise_floor)%R <$> v) 100 = Raise e →
     ptc_channel E fl st j = Raise e
     ∧ (j < 4 → ∀ s, is_raise (for_each (ptc_channel E fl) (seq 0 4) s))).
Proof.
  intros Hs Hm Hl. split.
  - intros model_fit ierr Hfit k.
    rewrite (ptc_channel_fit E fl st j sig v noise_floor label Hs Hm Hl), Hfit.
    split; [done|].
    destruct (gain_convert_fields label k st) as (_ & -> & _).
    by rewrite lookup_insert_eq.
  - intros e Hfit.
    rewrite (ptc_channel_fit E fl st j sig v noise_floor label Hs Hm Hl), Hfit.
    split; [done|]. intros Hj s. apply (for_each_raises _ _ j).
    + apply elem_of_seq. lia.
    + intros s'.
      rewrite (ptc_channel_fit E fl s' j sig v noise_floor label Hs Hm Hl), Hfit.
      done.
Qed.

(** ** A small data set on which the whole run can be followed *)

Lemma for_each_total {A S : Type} (body : S → A → result S) (l : list A) :
  (∀ s a, a ∈ l → ∃ s', body s a = Ok s') →
  ∀ s, ∃ s', for_each body l s = Ok s'.
Proof.
  induction l as [|a l IH]; intros H s.
  - by exists s.
  - destruct (H s a) as (s1 & H1); [by left|].
    destruct (IH (fun s b Hb => H s b (list_elem_of_further _ _ _ Hb)) s1) as (s' & Hs').
    exists s'. by rewrite for_each_cons, H1.
Qed.

Lemma hist_page_pixel (p : list Page) (title : string) :
  hist_page p Sample.pixel title
  = Ok (savefig (fun n => HistPage n title Sample.pixel) p).
Proof.
  unfold hist_page, Sample.pixel. simpl.
  rewrite (Zceil_eq 1) by (simpl; lra).
  rewrite (Zfloor_eq 0) by (simpl; lra).
  done.
Qed.

Lemma foldl_Rmin_replicate (n : nat) (V : R) : foldl Rmin V (replicate n V) = V.
Proof. induction n as [|n IH]; simpl; [done|]. by rewrite Rmin_left by lra. Qed.

Lemma foldl_Rmax_replicate (n : nat) (V : R) : foldl Rmax V (replicate n V) = V.
Proof. induction n as [|n IH]; simpl; [done|]. by rewrite Rmax_left by lra. Qed.

(** A frame whose pixels all have one integer value has a range of zero
    ADU: the second histogram is asked for zero bins and [hist_page]
    raises. *)
Example hist_page_constant_integer (p : list Page) (title : string) (n : nat) (z : Z) :
  hist_page p (replicate (S n) (IZR z)) title = Raise ValueError.
Proof.
  unfold hist_page, py_min, py_max. simpl.
  rewrite foldl_Rmin_replicate, foldl_Rmax_replicate. simpl.
  rewrite (Zceil_eq z), (Zfloor_eq z) by lra.
  rewrite decide_True by lia. done.
Qed.

Lemma median_axis0_pixel (n : nat) :
  0 < n → np.median_axis0 (replicate n Sample.pixel) = Sample.pixel.
Proof. intros Hn. exact (median_axis0_constant n 1 (1 / 2)%R Hn). Qed.

Lemma median_pixel : np.median Sample.pixel = (1 / 2)%R.
Proof. exact (median_replicate 1 (1 / 2)%R Nat.lt_0_1). Qed.

Lemma sample_load_dual (m : R) (prefix : string) :
  prefix ≠ "data/cam_det_flat_high" → prefix ≠ "data/cam_det_flat_low" →
  Sample.load m prefix = Ok [Sample.dual m].
Proof. intros H1 H2. unfold Sample.load. by rewrite !decide_False. Qed.

#[local] Arguments np.median_axis0 : simpl never.
#[local] Arguments np.median : simpl never.
#[local] Arguments hist_page : simpl never.
#[local] Arguments bias_page : simpl never.
#[local] Arguments dark_page : simpl never.
#[local] Arguments mid_flat_page : simpl never.
#[local] Arguments well_depth_page : simpl never.
#[local] Arguments ptc_channel : simpl never.
#[local] Arguments gain_convert : simpl never.
#[local] Arguments PowerLaw1D_eval : simpl never.
#[local] Arguments replicate : simpl never.
#[local] Arguments Rlt_decision : simpl never.
#[local] Arguments Rle_decision : simpl never.
#[local] Arguments linearity_points : simpl never.

Lemma sample_bias_page (gains : list string) (var : list R) (st : Report)
    (i : nat) (g : string) (v : R) :
  gains !! i = Some g → var !! i = Some v →
  ∃ st', bias_page gains var st (i, Sample.pixel) = Ok st'.
Proof.
  intros Hg Hv. unfold bias_page, py_index. rewrite Hg, Hv. simpl.
  rewrite hist_page_pixel. simpl. by eexists.
Qed.

Lemma sample_bias_frame (m : R) (st : Report) :
  ∃ st', bias_frame st (Sample.dual m) = Ok st'.
Proof.
  unfold bias_frame, bias_channels. simpl.
  change [Sample.pixel] with (replicate 1 Sample.pixel).
  rewrite (median_axis0_pixel 1) by lia.
  unfold enumerate. cbn [length seq zip_with].
  destruct (sample_bias_page ["high (dual-gain)"; "low (dual-gain)"] [4; 4]%R
              st 0 _ _ eq_refl eq_refl) as (s1 & H1).
  destruct (sample_bias_page ["high (dual-gain)"; "low (dual-gain)"] [4; 4]%R
              s1 1 _ _ eq_refl eq_refl) as (s2 & H2).
  exists s2. rewrite ?for_each_cons, H1. simpl. rewrite ?for_each_cons, H2. done.
Qed.

Lemma sample_bias_analysis (m : R) (ierr : Z) (st : Report) :
  ∃ st', bias_analysis (Sample.env m ierr) "data/cam_det" st = Ok st'.
Proof.
  unfold bias_analysis. cbn [load_by_file_prefix Sample.env].
  rewrite sample_load_dual by done. simpl.
  destruct (sample_bias_frame m st) as (s1 & ->). by exists s1.
Qed.

Lemma sample_dark_load (m : R) (ierr : Z) (acc : DarkStacks) (ps : string * string) :
  ps.1 ≠ "data/cam_det_flat_high" → ps.1 ≠ "data/cam_det_flat_low" →
  ps.2 ≠ "data/cam_det_flat_high" → ps.2 ≠ "data/cam_det_flat_low" →
  dark_load (Sample.env m ierr) acc ps
  = Ok {| short_low := short_low acc ++ [Sample.pixel];
          short_high := short_high acc ++ [Sample.pixel];
          long_low := long_low acc ++ [Sample.pixel];
          long_high := long_high acc ++ [Sample.pixel];
          s_starts := s_starts acc ++ [0%R];
          l_starts := l_starts acc ++ [0%R] |}.
Proof.
  intros A1 A2 B1 B2. unfold dark_load. cbn [load_by_file_prefix Sample.env].
  by rewrite !sample_load_dual by done.
Qed.

(** The stacks the loading loop of a dark mode builds. *)
Lemma sample_dark_loads (m : R) (ierr : Z) (l : list (string * string))
    (acc : DarkStacks) :
  Forall (fun ps => (ps.1 ≠ "data/cam_det_flat_high" ∧ ps.1 ≠ "data/cam_det_flat_low")
                    ∧ ps.2 ≠ "data/cam_det_flat_high" ∧ ps.2 ≠ "data/cam_det_flat_low") l →
  for_each (dark_load (Sample.env m ierr)) l acc
  = Ok {| short_low := short_low acc ++ replicate (length l) Sample.pixel;
          short_high := short_high acc ++ replicate (length l) Sample.pixel;
          long_low := long_low acc ++ replicate (length l) Sample.pixel;
          long_high := long_high acc ++ replicate (length l) Sample.pixel;
          s_starts := s_starts acc ++ replicate (length l) 0%R;
          l_starts := l_starts acc ++ replicate (length l) 0%R |}.
Proof.
  intros H. revert acc. induction H as [|ps l ((A1 & A2) & B1 & B2) _ IH]; intros acc.
  - simpl. rewrite !app_nil_r. by destruct acc.
  - rewrite for_each_cons, sample_dark_load by done. simpl. rewrite IH. simpl.
    by rewrite <- !app_assoc.
Qed.

Lemma sample_dark_prefixes (mode : string) :
  mode ∈ dark_modes →
  Forall (fun ps => (ps.1 ≠ "data/cam_det_flat_high" ∧ ps.1 ≠ "data/cam_det_flat_low")
                    ∧ ps.2 ≠ "data/cam_det_flat_high" ∧ ps.2 ≠ "data/cam_det_flat_low")
    (dark_prefixes "data/cam_det" mode (dark_durations mode).1 (dark_durations mode).2)
  ∧ length (dark_prefixes "data/cam_det" mode (dark_durations mode).1
              (dark_durations mode).2) = 9.
Proof.
  intros Hm. unfold dark_modes in Hm.
  repeat (apply elem_of_cons in Hm as [->|Hm]);
    [| | |by apply elem_of_nil in Hm];
    (split; [apply (bool_decide_unpack _); vm_compute; exact I|reflexivity]).
Qed.

Lemma np_stack_replicate (n : nat) (f : Frame) :
  np.stack (replicate (S n) f) = Ok (replicate (S n) f).
Proof.
  unfold np.stack. change (replicate (S n) f) with (f :: replicate n f).
  cbn beta iota. rewrite decide_True; [done|].
  constructor; [done|]. by apply Forall_replicate.
Qed.

Lemma sample_dark_page (mode : string) (times : list Z) (st : Report)
    (j : nat) (name : string) (t : Z) :
  dark_names !! j = Some name → times !! j = Some t →
  ∃ st', dark_page mode times st (j, Sample.pixel) = Ok st'.
Proof.
  intros Hn Ht. unfold dark_page, py_index. rewrite Hn, Ht. simpl.
  rewrite hist_page_pixel. simpl. by eexists.
Qed.

Lemma sample_dark_pages (mode : string) (d : DarkStacks) (st : Report) :
  long_high d = replicate 9 Sample.pixel → long_low d = replicate 9 Sample.pixel →
  short_high d = replicate 9 Sample.pixel → short_low d = replicate 9 Sample.pixel →
  ∃ st', dark_pages mode d st = Ok st'.
Proof.
  intros H1 H2 H3 H4. unfold dark_pages, dark_frames.
  destruct (dark_durations mode) as [long short].
  rewrite H1, H2, H3, H4.
  rewrite (np_stack_replicate 8).
  simpl. rewrite !(median_axis0_pixel 9) by lia.
  unfold enumerate. cbn [length seq zip_with].
  destruct (sample_dark_page mode [short; short; long; long] st 0 _ _
              eq_refl eq_refl) as (s1 & E1).
  destruct (sample_dark_page mode [short; short; long; long] s1 1 _ _
              eq_refl eq_refl) as (s2 & E2).
  destruct (sample_dark_page mode [short; short; long; long] s2 2 _ _
              eq_refl eq_refl) as (s3 & E3).
  destruct (sample_dark_page mode [short; short; long; long] s3 3 _ _
              eq_refl eq_refl) as (s4 & E4).
  exists s4. rewrite ?for_each_cons, E1. simpl. rewrite ?for_each_cons, E2. simpl.
  rewrite ?for_each_cons, E3. simpl. rewrite ?for_each_cons, E4. done.
Qed.

Lemma sample_dark_mode (m : R) (ierr : Z) (st : Report) (mode : string) :
  mode ∈ dark_modes →
  ∃ st', dark_mode (Sample.env m ierr) "data/cam_det" st mode = Ok st'.
Proof.
  intros Hm. destruct (sample_dark_prefixes mode Hm) as (Hp & Hlen).
  unfold dark_mode. destruct (dark_durations mode) as [long short].
  cbn [fst snd] in Hp, Hlen.
  rewrite (sample_dark_loads m ierr _ no_stacks Hp), Hlen. simpl.
  match goal with |- context [dark_pages mode ?d st] =>
    destruct (sample_dark_pages mode d st) as (s1 & ->); try done end.
  simpl. by eexists.
Qed.

Lemma sample_dark_analysis (m : R) (ierr : Z) (st : Report) :
  ∃ st', dark_analysis (Sample.env m ierr) "data/cam_det" st = Ok st'.
Proof.
  apply for_each_total. intros s mode Hm. by apply sample_dark_mode.
Qed.

#[local] Arguments mid_exp_i : simpl never.

Lemma sample_mid_exp_i (m : R) :
  (5000 < m < 15000)%R → mid_exp_i [m] = Ok 0.
Proof.
  intros Hm. apply mid_exp_i_Ok. split.
  - by exists m.
  - intros q m' Hq. lia.
Qed.

Lemma sample_flat_gain_hdr (m : R) (ierr : Z) (acc : Flats) :
  (5000 < m < 15000)%R →
  flat_gain (Sample.env m ierr) "data/cam_det" acc "hdr"
  = Ok {| gain_label := gain_label acc ++ ["high (dual-gain)"; "low (dual-gain)"];
          sat_flats := sat_flats acc ++ [Sample.pixel; Sample.pixel];
          mid_flats := mid_flats acc ++ [Sample.pixel; Sample.pixel];
          mid_flat_times := mid_flat_times acc ++ [1; 1]%R;
          exp_times := exp_times acc ++ [[1]; [1]]%R;
          med_sig := med_sig acc ++ [[m]; [m]];
          var := var acc ++ [[4]; [4]]%R |}.
Proof.
  intros Hm. unfold flat_gain. cbn [load_by_file_prefix Sample.env].
  rewrite sample_load_dual by done. simpl.
  rewrite (sample_mid_exp_i m Hm). simpl. reflexivity.
Qed.

Lemma sample_flat_gain_mono (m : R) (ierr : Z) (acc : Flats) (g : string) :
  (5000 < m < 15000)%R → g = "high" ∨ g = "low" →
  flat_gain (Sample.env m ierr) "data/cam_det" acc g
  = Ok {| gain_label := gain_label acc ++ [g];
          sat_flats := sat_flats acc ++ [Sample.pixel];
          mid_flats := mid_flats acc ++ [Sample.pixel];
          mid_flat_times := mid_flat_times acc ++ [1%R];
          exp_times := exp_times acc ++ [[1%R]];
          med_sig := med_sig acc ++ [[m]];
          var := var acc ++ [[4%R]] |}.
Proof.
  intros Hm [->| ->]; unfold flat_gain; cbn [load_by_file_prefix Sample.env];
    simpl; rewrite (sample_mid_exp_i m Hm); simpl; reflexivity.
Qed.

#[local] Arguments flat_gain : simpl never.

Lemma sample_flat_load (m : R) (ierr : Z) :
  (5000 < m < 15000)%R →
  flat_load (Sample.env m ierr) "data/cam_det" = Ok (Sample.flats m).
Proof.
  intros Hm. unfold flat_load, flat_gains. simpl.
  rewrite sample_flat_gain_hdr by done. simpl.
  rewrite sample_flat_gain_mono by auto. simpl.
  rewrite sample_flat_gain_mono by auto. simpl. reflexivity.
Qed.

Lemma sample_ptc_gain (m : R) (ierr : Z) (j : nat) :
  (m < 15000)%R → j < 4 →
  ptc_gain (Sample.env m ierr) (Sample.flats m) j = Ok Sample.k.
Proof.
  intros Hm Hj. unfold ptc_gain, ptc_samples.
  assert (med_sig (Sample.flats m) !! j = Some [m]) as Hs.
  { by destruct j as [|[|[|[|j]]]]; [..|lia]. }
  assert (var (Sample.flats m) !! j = Some [4%R]) as Hv.
  { by destruct j as [|[|[|[|j]]]]; [..|lia]. }
  unfold py_index. rewrite Hs, Hv. simpl.
  unfold mask_select, unsaturated_mask. simpl.
  rewrite (bool_decide_eq_true_2 _ Hm). simpl. reflexivity.
Qed.

Lemma sample_ptc_channel (m : R) (ierr : Z) (st : Report) (j : nat) (label : string) :
  (m < 15000)%R → flat_labels !! j = Some label →
  ptc_channel (Sample.env m ierr) (Sample.flats m) st j
  = Ok (gain_convert label Sample.k st).
Proof.
  intros Hm Hl. unfold ptc_channel.
  rewrite sample_ptc_gain; [|done|by apply lookup_lt_Some in Hl].
  simpl. unfold py_index. by rewrite Hl.
Qed.

Lemma sample_ptc_loop (m : R) (ierr : Z) (st : Report) :
  (m < 15000)%R →
  for_each (ptc_channel (Sample.env m ierr) (Sample.flats m)) (seq 0 4) st
  = Ok (gain_convert "low" Sample.k (gain_convert "high" Sample.k
         (gain_convert "low (dual-gain)" Sample.k
            (gain_convert "high (dual-gain)" Sample.k st)))).
Proof.
  intros Hm. simpl.
  rewrite (sample_ptc_channel m ierr st 0 _ Hm eq_refl). simpl.
  rewrite (sample_ptc_channel m ierr _ 1 _ Hm eq_refl). simpl.
  rewrite (sample_ptc_channel m ierr _ 2 _ Hm eq_refl). simpl.
  rewrite (sample_ptc_channel m ierr _ 3 _ Hm eq_refl). done.
Qed.

Lemma sample_mid_flat_page (st : Report) (i : nat) (label : string) :
  flat_labels !! i = Some label →
  ∃ st', mid_flat_page flat_labels st (i, Sample.pixel) = Ok st'.
Proof.
  intros Hl. unfold mid_flat_page, py_index. rewrite Hl. simpl.
  rewrite hist_page_pixel. simpl. by eexists.
Qed.

Lemma sample_well_depth_page (st : Report) (i : nat) (label : string) :
  flat_labels !! i = Some label →
  ∃ st', well_depth_page flat_labels st (i, Sample.pixel) = Ok st'.
Proof.
  intros Hl. unfold well_depth_page, py_index. rewrite Hl. simpl.
  rewrite hist_page_pixel. simpl. by eexists.
Qed.

Lemma sample_pages_total (body : Report → nat * Frame → result Report) (st : Report) :
  (∀ s i label, flat_labels !! i = Some label →
     ∃ s', body s (i, Sample.pixel) = Ok s') →
  ∃ st', for_each body
           (enumerate [Sample.pixel; Sample.pixel; Sample.pixel; Sample.pixel]) st
         = Ok st'.
Proof.
  intros H. apply for_each_total. intros s [i a] Hin.
  apply elem_of_enumerate in Hin.
  destruct i as [|[|[|[|i]]]]; simpl in Hin; try discriminate;
    injection Hin as <-; by eapply H.
Qed.

Lemma sample_linearity (m : R) :
  for_each (fun (_ : unit) j => _ ← linearity_points (Sample.flats m) j; Ok tt)
    (seq 0 4) tt = Ok tt.
Proof.
  destruct (for_each_total
              (fun (_ : unit) j => _ ← linearity_points (Sample.flats m) j; Ok tt)
              (seq 0 4)) with (s := tt) as ([] & H); [|exact H].
  intros [] j Hj. apply elem_of_seq in Hj. exists tt.
  unfold linearity_points, py_index.
  by destruct j as [|[|[|[|j]]]]; [..|lia].
Qed.

Lemma sample_flat_analysis (m : R) (ierr : Z) (st : Report) :
  (5000 < m < 15000)%R →
  ∃ st', flat_analysis (Sample.env m ierr) "data/cam_det" st = Ok (st', flat_labels).
Proof.
  intros Hm. unfold flat_analysis. rewrite (sample_flat_load m ierr Hm).
  cbn [mbind result_bind]. unfold flat_report.
  cbn [gain_label mid_flats sat_flats Sample.flats].
  destruct (sample_pages_total (mid_flat_page flat_labels) st) as (s1 & ->).
  { intros s i label. apply sample_mid_flat_page. }
  cbn [mbind result_bind].
  destruct (sample_pages_total (well_depth_page flat_labels) s1) as (s2 & ->).
  { intros s i label. apply sample_well_depth_page. }
  cbn [mbind result_bind]. rewrite sample_linearity, sample_ptc_loop by lra.
  cbn [mbind result_bind]. by eexists.
Qed.

Lemma sample_write_report (m : R) (ierr : Z) :
  (5000 < m < 15000)%R →
  ∃ st, write_report (Sample.env m ierr) "data" Sample.files
        = Ok ("data/cam_det_analysis_report.pdf", st).
Proof.
  intros Hm. unfold write_report, write_report_with.
  rewrite scan_files_spec.
  change (existsb (contains "bias") Sample.files) with true.
  change (existsb (contains "dark") Sample.files) with true.
  change (existsb (contains "flat") Sample.files) with true.
  change (py_index Sample.files 0) with (Ok "cam_det_bias_hdr_20240413.fits").
  cbn [mbind result_bind].
  change (split "_" "cam_det_bias_hdr_20240413.fits")
    with ["cam"; "det"; "bias"; "hdr"; "20240413.fits"].
  change (py_index ["cam"; "det"; "bias"; "hdr"; "20240413.fits"] 0) with (Ok "cam").
  change (py_index ["cam"; "det"; "bias"; "hdr"; "20240413.fits"] 1) with (Ok "det").
  cbn [mbind result_bind Exposure_open git_hash Sample.env].
  change ("data" +:+ "/" +:+ "cam" +:+ "_" +:+ "det") with "data/cam_det".
  unfold run_sections.
  match goal with |- context [bias_analysis _ _ ?s] =>
    destruct (sample_bias_analysis m ierr s) as (s1 & ->) end.
  cbn [mbind result_bind].
  destruct (sample_dark_analysis m ierr s1) as (s2 & ->).
  cbn [mbind result_bind].
  destruct (sample_flat_analysis m ierr s2 Hm) as (s3 & ->).
  cbn [mbind result_bind andb]. by eexists.
Qed.

Lemma sample_ptc_samples (m : R) (j : nat) :
  (m < 15000)%R → j < 4 →
  ptc_samples (Sample.flats m) j = Ok ([m], [4%R]).
Proof.
  intros Hm Hj. unfold ptc_samples, py_index.
  assert (med_sig (Sample.flats m) !! j = Some [m]) as ->.
  { by destruct j as [|[|[|[|j]]]]; [..|lia]. }
  assert (var (Sample.flats m) !! j = Some [4%R]) as ->.
  { by destruct j as [|[|[|[|j]]]]; [..|lia]. }
  cbn [mbind result_bind]. unfold mask_select, unsaturated_mask. simpl.
  rewrite (bool_decide_eq_true_2 _ Hm). done.
Qed.

(** The gain of the sample fit is 2 electrons per ADU. *)
Example sample_gain : Sample.k = 2%R.
Proof.
  unfold Sample.k, PowerLaw1D_eval, Sample.fitted. simpl.
  replace (5000 / 1)%R with 5000%R by lra.
  replace (- -1)%R with 1%R by lra.
  rewrite Rpower_1 by lra. lra.
Qed.

(** ** Instances of the theorems on the sample data *)

Lemma gain_conversion_in_place_witness :
  let st := Sample.measured in
  let st' := gain_convert "high" Sample.k st in
  ∃ label k,
    gain_label (Sample.flats 10000) !! 2 = Some label
    ∧ ptc_gain (Sample.env 10000 1) (Sample.flats 10000) 2 = Ok k
    ∧ det_gain st' !! label = Some k
    ∧ read_noise st' !! label = (fun r => sqrt r * k)%R <$> read_noise st !! label
    ∧ dark_current st' !! label = (fun d => d * k)%R <$> dark_current st !! label
    ∧ well_depth st' !! label = (fun w => w * k)%R <$> well_depth st !! label
    ∧ (∀ l, l ≠ label →
         det_gain st' !! l = det_gain st !! l
         ∧ read_noise st' !! l = read_noise st !! l
         ∧ dark_current st' !! l = dark_current st !! l
         ∧ well_depth st' !! l = well_depth st !! l)
    ∧ pdf st' = pdf st.
Proof.
  apply (gain_conversion_in_place (Sample.env 10000 1) (Sample.flats 10000)
           Sample.measured (gain_convert "high" Sample.k Sample.measured) 2).
  apply sample_ptc_channel; [lra|reflexivity].
Defined.

(** C2, counterexample.  With gain 2, a stored dark current of 1 becomes 2
    after one application of the conversion and 4 after a second one: the
    second application does not leave the values of the first. *)
Lemma gain_conversion_not_idempotent :
  let st1 := gain_convert "high" 2 Sample.measured in
  let st2 := gain_convert "high" 2 st1 in
  (0 < 2)%R
  ∧ dark_current Sample.measured !! "high" = Some 1%R
  ∧ dark_current st1 !! "high" = Some 2%R
  ∧ dark_current st2 !! "high" = Some 4%R
  ∧ st2 ≠ st1.
Proof.
  intros st1 st2.
  assert (H0 : dark_current Sample.measured !! "high" = Some 1%R) by done.
  assert (H1 : dark_current st1 !! "high" = Some 2%R).
  { unfold st1. destruct (gain_convert_fields "high" 2 Sample.measured)
      as (_ & _ & _ & -> & _).
    rewrite convert_lookup_eq, H0. simpl. apply f_equal. lra. }
  assert (H2 : dark_current st2 !! "high" = Some 4%R).
  { unfold st2. destruct (gain_convert_fields "high" 2 st1) as (_ & _ & _ & -> & _).
    rewrite convert_lookup_eq, H1. simpl. apply f_equal. lra. }
  split; [lra|]. split; [done|]. split; [done|]. split; [done|].
  intros Heq. rewrite Heq, H1 in H2. injection H2 as H2. lra.
Qed.

Lemma gain_conversion_once_per_run_witness :
  let fl := Sample.flats 10000 in
  let st := Sample.measured in
  let st' := gain_convert "low" Sample.k (gain_convert "high" Sample.k
               (gain_convert "low (dual-gain)" Sample.k
                  (gain_convert "high (dual-gain)" Sample.k st))) in
  gain_label fl = flat_labels
  ∧ NoDup (gain_label fl)
  ∧ (∀ j label, gain_label fl !! j = Some label →
       ∃ k, ptc_gain (Sample.env 10000 1) fl j = Ok k
         ∧ det_gain st' !! label = Some k
         ∧ read_noise st' !! label
           = (fun r => sqrt r * k)%R <$> read_noise st !! label
         ∧ dark_current st' !! label
           = (fun d => d * k)%R <$> dark_current st !! label
         ∧ well_depth st' !! label
           = (fun w => w * k)%R <$> well_depth st !! label)
  ∧ (∀ label k st0,
       let st2 := gain_convert label k (gain_convert label k st0) in
       read_noise st2 !! label
       = (fun r => sqrt (sqrt r * k) * k)%R <$> read_noise st0 !! label
       ∧ dark_current st2 !! label
         = (fun d => d * k * k)%R <$> dark_current st0 !! label
       ∧ well_depth st2 !! label
         = (fun w => w * k * k)%R <$> well_depth st0 !! label)
  ∧ (∀ dirname files path st'',
       write_report (Sample.env 10000 1) dirname files = Ok (path, st'') →
       ∃ prefix' st0,
         read_noise st0 = ∅ ∧ det_gain st0 = ∅
         ∧ dark_current st0 = ∅ ∧ well_depth st0 = ∅
         ∧ run_sections (bias_analysis (Sample.env 10000 1) prefix')
             (dark_analysis (Sample.env 10000 1) prefix')
             (flat_analysis (Sample.env 10000 1) prefix') (scan_files files) st0
           = Ok st'').
Proof.
  apply (gain_conversion_once_per_run (Sample.env 10000 1) "data/cam_det").
  - apply sample_flat_load. lra.
  - apply sample_ptc_loop. lra.
Defined.

Lemma dark_current_from_FUVdark_long_witness :
  ∃ st',
    dark_analysis (Sample.env 10000 1) "data/cam_det" Sample.blank = Ok st'
    ∧ dark_current st'
      = <["high (dual-gain)" := (1 / 2 / 900)%R]>
          (<["low (dual-gain)" := (1 / 2 / 900)%R]> ∅).
Proof.
  destruct (sample_dark_analysis 10000 1 Sample.blank) as (st' & H).
  exists st'. split; [exact H|].
  destruct (dark_current_from_FUVdark_long (Sample.env 10000 1) "data/cam_det"
              Sample.blank st' H)
    as (d & Hd & _ & _ & Hdc & _ & _ & _ & _ & _ & _).
  destruct (sample_dark_prefixes "FUVdark") as (Hp & Hlen); [by left|].
  change (dark_durations "FUVdark").1 with 900%Z in Hp, Hlen.
  change (dark_durations "FUVdark").2 with 9%Z in Hp, Hlen.
  rewrite (sample_dark_loads 10000 1 _ no_stacks Hp), Hlen in Hd.
  injection Hd as <-. rewrite Hdc.
  cbn [long_high long_low no_stacks app].
  rewrite !(median_axis0_pixel 9), median_pixel by lia. done.
Defined.

Lemma sample_shaped (m : R) (g : string) :
  g ∈ flat_gains →
  ∃ fs, load_by_file_prefix (Sample.env m 1) ("data/cam_det" +:+ "_flat_" +:+ g) = Ok fs
        ∧ fs ≠ [] ∧ Forall (shaped g) fs.
Proof.
  intros Hg. unfold flat_gains in Hg.
  repeat (apply elem_of_cons in Hg as [->|Hg]); [| | |by apply elem_of_nil in Hg].
  - exists [Sample.dual m]. split; [done|]. split; [done|].
    repeat constructor; simpl; eauto.
  - exists [Sample.mono "high" m]. split; [done|]. split; [done|].
    repeat constructor; simpl; eauto.
  - exists [Sample.mono "low" m]. split; [done|]. split; [done|].
    repeat constructor; simpl; eauto.
Qed.

Lemma no_mid_range_exposure_fails_witness :
  is_raise (flat_analysis (Sample.env 20000 1) "data/cam_det" Sample.blank)
  ∧ flat_analysis (Sample.env 20000 1) "data/cam_det" Sample.blank
    = Raise IndexError.
Proof.
  destruct (no_mid_range_exposure_fails (Sample.env 20000 1) "data/cam_det"
              Sample.blank "hdr" [Sample.dual 20000] [20000%R]) as [H1 H2].
  - by left.
  - reflexivity.
  - by left.
  - constructor; [lra|constructor].
  - split; [exact H1|]. apply H2. apply sample_shaped.
Defined.

(** An empty directory: the message, [False], and no report. *)
Example empty_directory_example :
  let E := {| listdir := fun _ => Ok []; Exposure_open := fun _ => Raise ValueError;
              load_by_file_prefix := fun _ => Ok []; fit := fun _ _ _ _ => Raise ValueError;
              git_hash := Ok "abc1234"; now := "2024-04-13 12:00:00" |} in
  standard_analysis_products E "data"
  = Returned ["No data files found in directory"] PyFalse None.
Proof. reflexivity. Qed.

(** The sample directory: the run returns [None] and writes the report. *)
Example sample_run :
  ∃ st, standard_analysis_products (Sample.env 10000 1) "data"
        = Returned [] PyNone (Some ("data/cam_det_analysis_report.pdf", st)).
Proof.
  destruct (sample_write_report 10000 1) as (st & H); [lra|].
  exists st. unfold standard_analysis_products.
  cbn [listdir Sample.env]. rewrite decide_False by (simpl; lia). by rewrite H.
Qed.

(** C9, counterexample.  The fitter of this environment returns a model
    with solver status 5 (iteration limit reached, not one of the
    successful values 1 to 4); the loop nevertheless completes the
    channel and records the gain computed from that model. *)
Lemma unconverged_fit_records_gain :
  let E := Sample.env 10000 5 in
  let fl := Sample.flats 10000 in
  ptc_samples fl 0 = Ok ([10000], [4])%R
  ∧ py_min [4%R] = Ok 4%R
  ∧ fit E ptc_model [10000%R] ((fun x => x - 4)%R <$> [4%R]) 100
    = Ok (Sample.fitted, 5%Z)
  ∧ ¬ fit_converged 5
  ∧ ptc_channel E fl Sample.blank 0
    = Ok (gain_convert "high (dual-gain)" Sample.k Sample.blank)
  ∧ det_gain (gain_convert "high (dual-gain)" Sample.k Sample.blank)
      !! "high (dual-gain)" = Some Sample.k.
Proof.
  intros E fl. split; [apply sample_ptc_samples; [lra|lia]|].
  split; [done|]. split; [done|]. split; [unfold fit_converged; lia|].
  split; [apply sample_ptc_channel; [lra|done]|].
  destruct (gain_convert_fields "high (dual-gain)" Sample.k Sample.blank)
    as (_ & -> & _).
  by rewrite lookup_insert_eq.
Qed.

Lemma fit_status_not_inspected_witness :
  let E := Sample.env 10000 5 in
  let fl := Sample.flats 10000 in
  let st := Sample.blank in
  (∀ model_fit ierr,
     fit E ptc_model [10000%R] ((fun x => x - 4)%R <$> [4%R]) 100
     = Ok (model_fit, ierr) →
     let k := (5000 / PowerLaw1D_eval model_fit 5000)%R in
     ptc_channel E fl st 0 = Ok (gain_convert "high (dual-gain)" k st)
     ∧ det_gain (gain_convert "high (dual-gain)" k st) !! "high (dual-gain)"
       = Some k)
  ∧ (∀ e,
     fit E ptc_model [10000%R] ((fun x => x - 4)%R <$> [4%R]) 100 = Raise e →
     ptc_channel E fl st 0 = Raise e
     ∧ (0 < 4 → ∀ s, is_raise (for_each (ptc_channel E fl) (seq 0 4) s))).
Proof.
  apply (fit_status_not_inspected (Sample.env 10000 5) (Sample.flats 10000)
           Sample.blank 0 [10000%R] [4%R] 4%R "high (dual-gain)").
  - apply sample_ptc_samples; [lra|lia].
  - reflexivity.
  - reflexivity.
Defined.

(** ** Further properties: the reductions behind the pages *)

Lemma foldl_Rmax_spec (l : list R) (a : R) :
  (foldl Rmax a l ∈ a :: l) ∧ (∀ y, y ∈ a :: l → (y <= foldl Rmax a l)%R).
Proof.
  revert a. induction l as [|x l IH]; intros a; simpl.
  - split; [by left|]. intros y Hy. apply list_elem_of_singleton in Hy as ->. lra.
  - destruct (IH (Rmax a x)) as (Hin & Hle). split.
    + apply elem_of_cons in Hin as [Heq|Hin]; [|by right; right].
      rewrite Heq. unfold Rmax. destruct (Rle_dec a x); [right; left|left]; done.
    + intros y Hy.
      assert (Hm : (Rmax a x <= foldl Rmax (Rmax a x) l)%R) by (apply Hle; by left).
      apply elem_of_cons in Hy as [->|Hy].
      * pose proof (Rmax_l a x). lra.
      * apply elem_of_cons in Hy as [->|Hy].
        -- pose proof (Rmax_r a x). lra.
        -- apply Hle. by right.
Qed.

Lemma foldl_Rmin_spec (l : list R) (a : R) :
  (foldl Rmin a l ∈ a :: l) ∧ (∀ y, y ∈ a :: l → (foldl Rmin a l <= y)%R).
Proof.
  revert a. induction l as [|x l IH]; intros a; simpl.
  - split; [by left|]. intros y Hy. apply list_elem_of_singleton in Hy as ->. lra.
  - destruct (IH (Rmin a x)) as (Hin & Hle). split.
    + apply elem_of_cons in Hin as [Heq|Hin]; [|by right; right].
      rewrite Heq. unfold Rmin. destruct (Rle_dec a x); [left|right; left]; done.
    + intros y Hy.
      assert (Hm : (foldl Rmin (Rmin a x) l <= Rmin a x)%R) by (apply Hle; by left).
      apply elem_of_cons in Hy as [->|Hy].
      * pose proof (Rmin_l a x). lra.
      * apply elem_of_cons in Hy as [->|Hy].
        -- pose proof (Rmin_r a x). lra.
        -- apply Hle. by right.
Qed.

Lemma py_max_Ok (l : list R) (x : R) :
  py_max l = Ok x → x ∈ l ∧ ∀ y, y ∈ l → (y <= x)%R.
Proof.
  destruct l as [|a l]; [discriminate|]. intros [= <-]. apply foldl_Rmax_spec.
Qed.

Lemma py_min_Ok (l : list R) (x : R) :
  py_min l = Ok x → x ∈ l ∧ ∀ y, y ∈ l → (x <= y)%R.
Proof.
  destruct l as [|a l]; [discriminate|]. intros [= <-]. apply foldl_Rmin_spec.
Qed.

Lemma hist_page_Ok (p p' : list Page) (data : Frame) (title : string) :
  hist_page p data title = Ok p' →
  p' = p ++ [HistPage (length p + 1) title data].
Proof.
  unfold hist_page. intros H.
  apply bind_Ok in H as (dmin & _ & H). apply bind_Ok in H as (dmax & _ & H).
  destruct (decide _); [discriminate|]. by injection H as <-.
Qed.

(** X1.  [hist_page] draws its page, the next one of the document, for
    every image except two kinds, for which it raises [ValueError]: an
    image without pixels, and an image whose pixels all have one and the
    same integer value (its range of values then asks the second
    histogram for zero bins). *)
Theorem hist_page_fails_only_on_flat_integer_images (p : list Page) (data : Frame)
    (title : string) :
  (hist_page p data title = Raise ValueError
   ↔ data = [] ∨ ∃ z : Z, Forall (fun x => x = IZR z) data)
  ∧ (hist_page p data title ≠ Raise ValueError →
     hist_page p data title = Ok (p ++ [HistPage (length p + 1) title data])).
Proof.
  assert (Hchar : hist_page p data title = Raise ValueError
                  ↔ data = [] ∨ ∃ z : Z, Forall (fun x => x = IZR z) data).
  { unfold hist_page. destruct data as [|a l]; [simpl; split; auto|].
    cbn [py_min py_max mbind result_bind].
    destruct (foldl_Rmin_spec l a) as (Hmin_in & Hmin).
    destruct (foldl_Rmax_spec l a) as (Hmax_in & Hmax).
    set (mn := foldl Rmin a l) in *. set (mx := foldl Rmax a l) in *.
    pose proof (Zfloor_bound mn) as Hfl. pose proof (Zceil_bound mx) as Hce.
    assert (Hle : (mn <= mx)%R) by (apply Hmax; exact Hmin_in).
    destruct (decide (Zceil mx - Zfloor mn < 1)%Z) as [Hlt|Hge]; split.
    - intros _. right. exists (Zfloor mn).
      assert (Hz : (IZR (Zceil mx) <= IZR (Zfloor mn))%R) by (apply IZR_le; lia).
      apply Forall_forall. intros x Hx.
      pose proof (Hmin x Hx). pose proof (Hmax x Hx). lra.
    - done.
    - discriminate.
    - intros [Hnil|(z & Hall)]; [discriminate|]. exfalso. apply Hge.
      rewrite Forall_forall in Hall.
      rewrite (Hall mn Hmin_in) in *. rewrite (Hall mx Hmax_in) in *.
      rewrite (Zceil_eq z), (Zfloor_eq z) by lra. lia. }
  split; [exact Hchar|].
  intros Hne. unfold hist_page in *. destruct data as [|a l].
  - by destruct Hne.
  - cbn [py_min py_max mbind result_bind] in *.
    destruct (decide _); [by destruct Hne|]. done.
Qed.

(** ** Further properties: the exposure with the longest time *)

Lemma argmax_from_spec (pre l : list R) (best : R) (bi : nat) :
  pre !! bi = Some best →
  (∀ y, y ∈ pre → (y <= best)%R) →
  (∀ j y, j < bi → pre !! j = Some y → (y < best)%R) →
  let i := argmax_from best bi (length pre) l in
  ∃ x, (pre ++ l) !! i = Some x
       ∧ (∀ y, y ∈ pre ++ l → (y <= x)%R)
       ∧ (∀ j y, j < i → (pre ++ l) !! j = Some y → (y < x)%R).
Proof.
  revert pre best bi. induction l as [|x l IH]; intros pre best bi Hb Hle Hlt; simpl.
  - exists best. rewrite app_nil_r. done.
  - replace (pre ++ x :: l) with ((pre ++ [x]) ++ l) by (by rewrite <- app_assoc).
    replace (S (length pre)) with (length (pre ++ [x]))
      by (rewrite length_app; simpl; lia).
    destruct (decide (best < x)%R) as [Hx|Hx].
    + apply IH.
      * by rewrite lookup_app_r, Nat.sub_diag.
      * intros y Hy. apply elem_of_app in Hy as [Hy|Hy].
        -- specialize (Hle y Hy). lra.
        -- apply list_elem_of_singleton in Hy as ->. lra.
      * intros j y Hj Hy. rewrite lookup_app_l in Hy by done.
        assert (y ∈ pre) by (by eapply list_elem_of_lookup_2).
        specialize (Hle y ltac:(done)). lra.
    + apply IH.
      * rewrite lookup_app_l; [done|]. by eapply lookup_lt_Some.
      * intros y Hy. apply elem_of_app in Hy as [Hy|Hy]; [by apply Hle|].
        apply list_elem_of_singleton in Hy as ->. lra.
      * intros j y Hj Hy. apply (Hlt j y Hj).
        rewrite lookup_app_l in Hy; [done|].
        apply lookup_lt_Some in Hb. lia.
Qed.

Lemma np_argmax_Ok (l : list R) (i : nat) :
  np_argmax l = Ok i →
  ∃ x, l !! i = Some x
       ∧ (∀ y, y ∈ l → (y <= x)%R)
       ∧ (∀ j y, j < i → l !! j = Some y → (y < x)%R).
Proof.
  destruct l as [|a l]; [discriminate|]. intros [= <-].
  apply (argmax_from_spec [a] l a 0).
  - done.
  - intros y Hy. apply list_elem_of_singleton in Hy as ->. lra.
  - intros j y Hj. lia.
Qed.

Lemma exp_time_argmax (frames : list Exposure) (i : nat) :
  np_argmax (exp_time <$> frames) = Ok i →
  ∃ e, frames !! i = Some e
       ∧ (∀ e', e' ∈ frames → (exp_time e' <= exp_time e)%R)
       ∧ (∀ j e', j < i → frames !! j = Some e' → (exp_time e' < exp_time e)%R).
Proof.
  intros H. apply np_argmax_Ok in H as (x & Hx & Hle & Hlt).
  rewrite list_lookup_fmap in Hx.
  destruct (frames !! i) as [e|] eqn:He; [|discriminate]. injection Hx as <-.
  exists e. split; [done|]. split.
  - intros e' He'. apply Hle. apply list_elem_of_fmap. by exists e'.
  - intros j e' Hj He'. apply (Hlt j); [done|].
    by rewrite list_lookup_fmap, He'.
Qed.

(** X2.  For each gain mode the flat section takes its saturated frame
    from the exposure with the longest exposure time (the first such
    exposure when several share it), and its mid-range frame and time from
    the first exposure whose median signal is in the mid range: of each
    channel separately in hdr mode, where the two channels may choose
    different exposures.  The signal and variance series kept for the fit
    are those of all the exposures, in loading order. *)
Theorem flat_gain_selects (E : Env) (prefix : string) (acc acc' : Flats) (g : string) :
  flat_gain E prefix acc g = Ok acc' →
  ∃ frames i e,
    load_by_file_prefix E (prefix +:+ "_flat_" +:+ g) = Ok frames
    ∧ frames !! i = Some e
    ∧ (∀ e', e' ∈ frames → (exp_time e' <= exp_time e)%R)
    ∧ (∀ j e', j < i → frames !! j = Some e' → (exp_time e' < exp_time e)%R)
    ∧ (g = "hdr" →
       ∃ sat hi li eh el fh fl,
         cds_first_dual e = Ok sat
         ∧ sat_flats acc' = sat_flats acc ++ [sat.1; sat.2]
         ∧ med_sig acc'
           = med_sig acc
             ++ [(fun ff => chan_hi (get_median ff (full_frame ff))) <$> frames;
                 (fun ff => chan_lo (get_median ff (full_frame ff))) <$> frames]
         ∧ var acc'
           = var acc
             ++ [(fun ff => chan_hi (get_variance ff (full_frame ff))) <$> frames;
                 (fun ff => chan_lo (get_variance ff (full_frame ff))) <$> frames]
         ∧ mid_exp_i ((fun ff => chan_hi (get_median ff (full_frame ff))) <$> frames)
           = Ok hi
         ∧ mid_exp_i ((fun ff => chan_lo (get_median ff (full_frame ff))) <$> frames)
           = Ok li
         ∧ frames !! hi = Some eh ∧ frames !! li = Some el
         ∧ cds_first_dual eh = Ok fh ∧ cds_first_dual el = Ok fl
         ∧ mid_flats acc' = mid_flats acc ++ [fh.1; fl.2]
         ∧ mid_flat_times acc' = mid_flat_times acc ++ [exp_time eh; exp_time el])
    ∧ (g ≠ "hdr" →
       ∃ sat mi em fm,
         cds_first_mono e = Ok sat
         ∧ sat_flats acc' = sat_flats acc ++ [sat]
         ∧ med_sig acc'
           = med_sig acc
             ++ [(fun ff => chan_hi (get_median ff (full_frame ff))) <$> frames]
         ∧ var acc'
           = var acc
             ++ [(fun ff => chan_hi (get_variance ff (full_frame ff))) <$> frames]
         ∧ mid_exp_i ((fun ff => chan_hi (get_median ff (full_frame ff))) <$> frames)
           = Ok mi
         ∧ frames !! mi = Some em
         ∧ cds_first_mono em = Ok fm
         ∧ mid_flats acc' = mid_flats acc ++ [fm]
         ∧ mid_flat_times acc' = mid_flat_times acc ++ [exp_time em]).
Proof.
  unfold flat_gain. intros H.
  apply bind_Ok in H as (frames & Hload & H).
  apply bind_Ok in H as (mx & _ & H). apply bind_Ok in H as (i & Hi & H).
  apply exp_time_argmax in Hi as (e & He & Hle & Hlt).
  exists frames, i, e. split; [done|]. split; [done|]. split; [done|]. split; [done|].
  unfold py_index in H. rewrite He in H. cbn [mbind result_bind] in H.
  destruct (decide (g = "hdr")) as [Hg|Hg]; split; intros Hg'; try congruence.
  - apply bind_Ok in H as (sat & Hsat & H).
    apply bind_Ok in H as ([mh ml] & Hm & H).
    apply bind_Ok in H as ([vh vl] & Hv & H).
    apply bind_Ok in H as (hi & Hhi & H). apply bind_Ok in H as (li & Hli & H).
    apply bind_Ok in H as (th & Hth & H). apply bind_Ok in H as (tl & Htl & H).
    apply bind_Ok in H as (fh & Hfh & H). apply bind_Ok in H as (fl & Hfl & H).
    injection H as <-.
    apply dual_columns_Ok in Hm as [-> ->]. apply dual_columns_Ok in Hv as [-> ->].
    rewrite <- !list_fmap_compose in *.
    apply bind_Ok in Hfh as (eh & Heh & Hfh). apply bind_Ok in Hfl as (el & Hel & Hfl).
    apply py_index_Ok in Heh, Hel, Hth, Htl.
    rewrite list_lookup_fmap, Heh in Hth. rewrite list_lookup_fmap, Hel in Htl.
    injection Hth as <-. injection Htl as <-.
    exists sat, hi, li, eh, el, fh, fl. simpl. done.
  - apply bind_Ok in H as (sat & Hsat & H).
    apply bind_Ok in H as (med & Hm & H). apply bind_Ok in H as (vs & Hv & H).
    apply bind_Ok in H as (mi & Hmi & H). apply bind_Ok in H as (fm & Hfm & H).
    apply bind_Ok in H as (t & Ht & H). injection H as <-.
    apply mono_column_Ok in Hm as ->. apply mono_column_Ok in Hv as ->.
    rewrite <- !list_fmap_compose in *.
    apply bind_Ok in Hfm as (em & Hem & Hfm). apply py_index_Ok in Hem, Ht.
    rewrite list_lookup_fmap, Hem in Ht. injection Ht as <-.
    exists sat, mi, em, fm. simpl. done.
Qed.

Lemma flat_gain_selects_witness :
  ∃ acc',
    flat_gain (Sample.env 10000 1) "data/cam_det" (Sample.flats 10000) "high"
    = Ok acc'
    ∧ sat_flats acc' = sat_flats (Sample.flats 10000) ++ [Sample.pixel]
    ∧ mid_flat_times acc' = mid_flat_times (Sample.flats 10000) ++ [1%R].
Proof.
  eexists. split; [apply sample_flat_gain_mono; [lra|by left]|].
  destruct (flat_gain_selects (Sample.env 10000 1) "data/cam_det"
              (Sample.flats 10000) _ "high"
              (sample_flat_gain_mono 10000 1 (Sample.flats 10000) "high"
                 ltac:(lra) ltac:(by left)))
    as (frames & i & e & _ & _ & _ & _ & _ & Hmono).
  destruct (Hmono ltac:(done)) as (sat & mi & em & fm & _ & _ & _ & _ & _ & _ & _ & _ & _).
  done.
Defined.

(** ** Further properties: the pages of the sections *)

Lemma appended_refl (st : Report) : appended st st [].
Proof.
  split; [by rewrite app_nil_r|]. split; [constructor|]. intros i pg Hi. done.
Qed.

Lemma appended_trans (a b c : Report) (n1 n2 : list Page) :
  appended a b n1 → appended b c n2 → appended a c (n1 ++ n2).
Proof.
  intros (P1 & F1 & N1) (P2 & F2 & N2). split; [|split].
  - by rewrite P2, P1, app_assoc.
  - by apply Forall_app.
  - intros i pg Hi. destruct (decide (i < length n1)) as [Hlt|Hge].
    + rewrite lookup_app_l in Hi by done. by apply N1.
    + rewrite lookup_app_r in Hi by lia. rewrite (N2 _ _ Hi), P1, length_app. lia.
Qed.

Lemma appended_one (st st' : Report) (pg : Page) :
  pdf st' = pdf st ++ [pg] → section_page pg →
  page_number pg = length (pdf st) + 1 → appended st st' [pg].
Proof.
  intros Hp Hs Hn. split; [done|]. split; [by constructor|].
  intros [|i] pg' Hi; [|done]. injection Hi as <-. lia.
Qed.

Lemma for_each_appended {A : Type} (cnt : A → nat) (body : Report → A → result Report)
    (l : list A) (st st' : Report) :
  (∀ s a s', a ∈ l → body s a = Ok s' →
     ∃ new, appended s s' new ∧ length new = cnt a) →
  for_each body l st = Ok st' →
  ∃ new, appended st st' new ∧ length new = sum_list (cnt <$> l).
Proof.
  revert st. induction l as [|a l IH]; intros st Hbody H.
  - rewrite for_each_nil in H. injection H as <-. exists []. split; [|done].
    apply appended_refl.
  - loop_step H s1 H1.
    destruct (Hbody st a s1) as (n1 & A1 & L1); [by left|done|].
    destruct (IH s1) as (n2 & A2 & L2); [|done|].
    { intros s b s' Hb. apply Hbody. by right. }
    exists (n1 ++ n2). split; [by eapply appended_trans|].
    rewrite length_app, L1, L2. done.
Qed.

Lemma sum_list_ones {A : Type} (l : list A) :
  sum_list ((fun _ => 1) <$> l) = length l.
Proof. induction l as [|a l IH]; csimpl; [done|]. by rewrite IH. Qed.

Lemma enumerate_length {A : Type} (l : list A) : length (enumerate l) = length l.
Proof. unfold enumerate. rewrite length_zip_with, length_seq. lia. Qed.

Lemma hist_step_appended (st st1 st' : Report) (f : Frame) (title : string)
    (p : list Page) :
  pdf st1 = pdf st → hist_page (pdf st1) f title = Ok p → pdf st' = p →
  ∃ new, appended st st' new ∧ length new = 1.
Proof.
  intros H1 Hh Hp. apply hist_page_Ok in Hh. exists [HistPage (length (pdf st) + 1) title f].
  split; [|done]. apply appended_one; [|done|done]. by rewrite Hp, Hh, H1.
Qed.

Lemma bias_page_pages (gains : list string) (var : list R) (st st' : Report)
    (im : nat * Frame) :
  bias_page gains var st im = Ok st' → ∃ new, appended st st' new ∧ length new = 1.
Proof.
  destruct im as [i f]. unfold bias_page. intros H.
  apply bind_Ok in H as (mmin & _ & H). apply bind_Ok in H as (mmax & _ & H).
  apply bind_Ok in H as (g & _ & H). apply bind_Ok in H as (v & _ & H).
  apply bind_Ok in H as (p & Hp & H). injection H as <-.
  eapply hist_step_appended; [|exact Hp|]; done.
Qed.

Lemma dark_page_pages (mode : string) (times : list Z) (st st' : Report)
    (jm : nat * Frame) :
  dark_page mode times st jm = Ok st' → ∃ new, appended st st' new ∧ length new = 1.
Proof.
  destruct jm as [j f]. unfold dark_page. intros H.
  apply bind_Ok in H as (mmin & _ & H). apply bind_Ok in H as (mmax & _ & H).
  apply bind_Ok in H as (name & _ & H). apply bind_Ok in H as (t & _ & H).
  apply bind_Ok in H as (p & Hp & H). injection H as <-.
  eapply hist_step_appended; [|exact Hp|]; done.
Qed.

Lemma mid_flat_page_pages (labels : list string) (st st' : Report)
    (im : nat * Frame) :
  mid_flat_page labels st im = Ok st' → ∃ new, appended st st' new ∧ length new = 1.
Proof.
  destruct im as [i f]. unfold mid_flat_page. intros H.
  apply bind_Ok in H as (mmin & _ & H). apply bind_Ok in H as (mmax & _ & H).
  apply bind_Ok in H as (label & _ & H).
  apply bind_Ok in H as (p & Hp & H). injection H as <-.
  eapply hist_step_appended; [|exact Hp|]; done.
Qed.

Lemma well_depth_page_pages (labels : list string) (st st' : Report)
    (im : nat * Frame) :
  well_depth_page labels st im = Ok st' → ∃ new, appended st st' new ∧ length new = 1.
Proof.
  destruct im as [i f]. unfold well_depth_page. intros H.
  apply bind_Ok in H as (smin & _ & H). apply bind_Ok in H as (smax & _ & H).
  apply bind_Ok in H as (label & _ & H).
  apply bind_Ok in H as (p & Hp & H). injection H as <-.
  eapply hist_step_appended; [|exact Hp|]; done.
Qed.

Lemma page_loop_pages (body : Report → nat * Frame → result Report)
    (frames : list Frame) (st st' : Report) :
  (∀ s im s', body s im = Ok s' → ∃ new, appended s s' new ∧ length new = 1) →
  for_each body (enumerate frames) st = Ok st' →
  ∃ new, appended st st' new ∧ length new = length frames.
Proof.
  intros Hbody H.
  destruct (for_each_appended (fun _ => 1) body (enumerate frames) st st')
    as (new & Ha & Hl); [by intros s a s' _; apply Hbody|done|].
  exists new. split; [done|]. by rewrite Hl, sum_list_ones, enumerate_length.
Qed.

Lemma plot_step_appended (st : Report) (title : string) :
  appended st (set_pdf (savefig (fun n => PlotPage n title) (pdf st)) st)
    [PlotPage (length (pdf st) + 1) title].
Proof. by apply appended_one. Qed.

Lemma bias_frame_pages (st st' : Report) (bifr : Exposure) :
  bias_frame st bifr = Ok st' →
  ∃ new, appended st st' new ∧ length new = length (channel_labels (gain bifr)).
Proof.
  unfold bias_frame. intros H.
  apply bind_Ok in H as ([[gains med_frames] var] & Hc & H).
  apply bias_channels_Ok in Hc as (-> & Hlen).
  apply page_loop_pages in H as (new & Ha & Hl); [|intros ? ? ?; apply bias_page_pages].
  exists new. split; [done|]. by rewrite Hl.
Qed.

Lemma bias_analysis_pages (E : Env) (prefix : string) (st st' : Report) :
  bias_analysis E prefix st = Ok st' →
  ∃ frames new,
    load_by_file_prefix E (prefix +:+ "_bias") = Ok frames
    ∧ appended st st' new ∧ length new = bias_channel_count frames.
Proof.
  unfold bias_analysis. intros H. apply bind_Ok in H as (frames & Hload & H).
  apply (for_each_appended (fun e => length (channel_labels (gain e)))) in H
    as (new & Ha & Hl).
  - by exists frames, new.
  - intros s a s' _. apply bias_frame_pages.
Qed.

Lemma dark_mode_pages (E : Env) (prefix : string) (st st' : Report) (mode : string) :
  dark_mode E prefix st mode = Ok st' →
  ∃ new, appended st st' new ∧ length new = 5.
Proof.
  intros H. apply dark_mode_Ok in H as (d & st0 & _ & Hp & ->).
  unfold dark_pages in Hp. destruct (dark_durations mode) as [long short].
  apply bind_Ok in Hp as (frames & Hf & Hp).
  assert (length frames = 4) as Hlen.
  { unfold dark_frames in Hf.
    apply bind_Ok in Hf as (lh & _ & Hf). apply bind_Ok in Hf as (ll & _ & Hf).
    apply bind_Ok in Hf as (sh & _ & Hf). apply bind_Ok in Hf as (sl & _ & Hf).
    by injection Hf as <-. }
  apply page_loop_pages in Hp as (new & Ha & Hl); [|intros ? ? ?; apply dark_page_pages].
  eexists. split.
  - eapply appended_trans; [exact Ha|apply plot_step_appended].
  - rewrite length_app, Hl, Hlen. done.
Qed.

Lemma dark_analysis_pages (E : Env) (prefix : string) (st st' : Report) :
  dark_analysis E prefix st = Ok st' →
  ∃ new, appended st st' new ∧ length new = 15.
Proof.
  unfold dark_analysis. intros H.
  apply (for_each_appended (fun _ => 5)) in H as (new & Ha & Hl).
  - by exists new.
  - intros s a s' _. apply dark_mode_pages.
Qed.

Lemma ptc_loop_pdf (E : Env) (fl : Flats) (l : list nat) (st st' : Report) :
  for_each (ptc_channel E fl) l st = Ok st' → pdf st' = pdf st.
Proof.
  apply (for_each_invariant (fun s => pdf s = pdf st)); [|done].
  intros s1 j s2 _ Hs H. apply ptc_channel_inv in H as (label & k & _ & _ & ->).
  destruct (gain_convert_fields label k s1) as (-> & _). done.
Qed.

Lemma flat_analysis_pages (E : Env) (prefix : string) (st st' : Report)
    (labels : list string) :
  flat_analysis E prefix st = Ok (st', labels) →
  ∃ new, appended st st' new ∧ length new = 9.
Proof.
  intros H. apply flat_analysis_Ok in H as (fl & Hload & Hrep & ->).
  apply flat_load_Ok in Hload as (Hlab & (Hsat & Hmid & _) & _).
  apply flat_report_Ok in Hrep as (s1 & s2 & s3 & H1 & H2 & H3 & ->).
  apply page_loop_pages in H1 as (n1 & A1 & L1); [|intros ? ? ?; apply mid_flat_page_pages].
  apply page_loop_pages in H2 as (n2 & A2 & L2); [|intros ? ? ?; apply well_depth_page_pages].
  apply ptc_loop_pdf in H3.
  exists (n1 ++ n2 ++ [PlotPage (length (pdf s2) + 1)
                         "Linearity and photon transfer curves"]).
  split.
  - eapply appended_trans; [exact A1|]. eapply appended_trans; [exact A2|].
    apply appended_one; [|done|done].
    cbn [set_pdf pdf]. unfold savefig. by rewrite H3.
  - rewrite !length_app, L1, L2, Hmid, Hsat, Hlab. done.
Qed.

(** X3.  The number of pages each section adds to the report: the bias
    section one page per channel of every bias exposure the loader
    returns (two for an hdr exposure, one otherwise, none at all when the
    loader returns no exposure); the dark section fifteen (four histogram
    pages and a plot for each of the three modes); the flat section nine
    (four mid-range pages, four well-depth pages and the curves).  The
    pages are histogram pages and plots, numbered on from the page count
    the section found. *)
Theorem section_page_counts (E : Env) (prefix : string) (st st' : Report) :
  (bias_analysis E prefix st = Ok st' →
     ∃ frames new,
       load_by_file_prefix E (prefix +:+ "_bias") = Ok frames
       ∧ appended st st' new ∧ length new = bias_channel_count frames)
  ∧ (load_by_file_prefix E (prefix +:+ "_bias") = Ok [] →
     bias_analysis E prefix st = Ok st)
  ∧ (dark_analysis E prefix st = Ok st' →
     ∃ new, appended st st' new ∧ length new = 15)
  ∧ (∀ labels, flat_analysis E prefix st = Ok (st', labels) →
     ∃ new, appended st st' new ∧ length new = 9).
Proof.
  split; [apply bias_analysis_pages|]. split.
  { intros H. unfold bias_analysis. by rewrite H. }
  split; [apply dark_analysis_pages|]. intros labels. apply flat_analysis_pages.
Qed.

(** ** Further properties: the report as a whole *)

Lemma write_report_inv (E : Env) (dirname : string) (files : list string)
    (path : string) (st' : Report) :
  write_report E dirname files = Ok (path, st') →
  ∃ f0 camera detid exp git title,
    files !! 0 = Some f0
    ∧ split "_" f0 !! 0 = Some camera
    ∧ split "_" f0 !! 1 = Some detid
    ∧ Exposure_open E (path_join dirname f0) = Ok exp
    ∧ git_hash E = Ok git
    ∧ path = path_join dirname (camera +:+ "_" +:+ detid +:+ "_analysis_report.pdf")
    ∧ (∃ datestring temp,
         title = TitlePage 1 detid camera datestring (firmware exp) temp (now E) git
                   (contents (scan_files files)))
    ∧ run_sections (bias_analysis E (dirname +:+ "/" +:+ camera +:+ "_" +:+ detid))
        (dark_analysis E (dirname +:+ "/" +:+ camera +:+ "_" +:+ detid))
        (flat_analysis E (dirname +:+ "/" +:+ camera +:+ "_" +:+ detid))
        (scan_files files)
        {| pdf := [title]; read_noise := ∅; det_gain := ∅;
           dark_current := ∅; well_depth := ∅ |}
      = Ok st'.
Proof.
  unfold write_report, write_report_with. intros H.
  apply bind_Ok in H as (f0 & Hf0 & H). apply bind_Ok in H as (camera & Hc & H).
  apply bind_Ok in H as (detid & Hd & H). apply bind_Ok in H as (exp & He & H).
  apply bind_Ok in H as (git & Hg & H). apply bind_Ok in H as (st & Hrun & H).
  injection H as <- <-. apply py_index_Ok in Hf0, Hc, Hd.
  eexists f0, camera, detid, exp, git, _.
  repeat (split; [done|]). split; [by eexists _, _|]. exact Hrun.
Qed.

Lemma appended_numbered (st st' : Report) (new : list Page) :
  numbered (pdf st) → appended st st' new → numbered (pdf st').
Proof.
  intros Hn (Hp & _ & Hnew) i pg Hi. rewrite Hp in Hi.
  destruct (decide (i < length (pdf st))) as [Hlt|Hge].
  - rewrite lookup_app_l in Hi by done. by apply Hn.
  - rewrite lookup_app_r in Hi by lia. rewrite (Hnew _ _ Hi). lia.
Qed.

Lemma section_appended (cond : bool) (n : nat) (run : result Report)
    (st st' : Report) :
  (run = Ok st' → ∃ new, appended st st' new ∧ length new = n) →
  (if cond then run else Ok st) = Ok st' →
  ∃ new, appended st st' new ∧ length new = (if cond then n else 0).
Proof.
  intros Hrun H. destruct cond; [by apply Hrun|].
  injection H as <-. exists []. split; [apply appended_refl|done].
Qed.

(** X4.  In a report that is written, the first page is the title page;
    the pages are numbered 1, 2, 3, ... in the order they were drawn; the
    pages after the title page are histogram pages and plots, followed by
    the table as last page exactly when bias, dark and flat exposures are
    all present; and the page count is 1 for the title, plus the pages of
    the sections entered (one per bias channel, 15 for darks, 9 for
    flats), plus 1 for the table. *)
Theorem report_pages (E : Env) (dirname : string) (files : list string)
    (path : string) (st : Report) :
  write_report E dirname files = Ok (path, st) →
  let '(bias_present, dark_present, flat_present) := scan_files files in
  let complete := bias_present && dark_present && flat_present in
  numbered (pdf st)
  ∧ ∃ title body f0 camera detid,
      files !! 0 = Some f0
      ∧ split "_" f0 !! 0 = Some camera ∧ split "_" f0 !! 1 = Some detid
      ∧ (∃ datestring fw temp generated git,
           title = TitlePage 1 detid camera datestring fw temp generated git
                     (contents (scan_files files)))
      ∧ Forall section_page body
      ∧ length body
        = (if bias_present
           then match load_by_file_prefix E
                        ((dirname +:+ "/" +:+ camera +:+ "_" +:+ detid) +:+ "_bias") with
                | Ok frames => bias_channel_count frames
                | Raise _ => 0
                end
           else 0)
          + (if dark_present then 15 else 0)
          + (if flat_present then 9 else 0)
      ∧ pdf st = title :: body
                 ++ (if complete
                     then [TablePage (length body + 2) (summary_rows flat_labels st)]
                     else []).
Proof.
  intros H.
  apply write_report_inv in H
    as (f0 & camera & detid & exp & git & title & Hf0 & Hc & Hd & _ & _ & _ & Ht & H).
  destruct Ht as (datestring & temp & Ht).
  destruct (scan_files files) as [[b d] f] eqn:Hscan.
  apply run_sections_Ok in H as (s1 & s2 & s3 & labels & H1 & H2 & H3 & ->).
  set (prefix := dirname +:+ "/" +:+ camera +:+ "_" +:+ detid) in *.
  set (st0 := {| pdf := [title]; read_noise := ∅; det_gain := ∅;
                 dark_current := ∅; well_depth := ∅ |}) in *.
  set (nbias := if b
                then match load_by_file_prefix E (prefix +:+ "_bias") with
                     | Ok frames => bias_channel_count frames
                     | Raise _ => 0
                     end
                else 0).
  assert (H1' : ∃ new, appended st0 s1 new ∧ length new = nbias).
  { unfold nbias. destruct b.
    - apply bias_analysis_pages in H1 as (frames & new & -> & Ha & Hl).
      by exists new.
    - injection H1 as <-. exists []. split; [apply appended_refl|done]. }
  destruct H1' as (n1 & A1 & L1).
  apply (section_appended d 15) in H2 as (n2 & A2 & L2);
    [|apply dark_analysis_pages].
  assert (H3' : ∃ new, appended s2 s3 new ∧ length new = (if f then 9 else 0)
                       ∧ (f = true → labels = flat_labels)).
  { destruct f.
    - pose proof H3 as H3'. apply flat_analysis_pages in H3 as (new & Ha & Hl).
      apply flat_analysis_keys in H3' as (-> & _). by exists new.
    - injection H3 as <- <-. exists []. split; [apply appended_refl|done]. }
  destruct H3' as (n3 & A3 & L3 & Hlab).
  pose proof (appended_trans _ _ _ _ _ A1 (appended_trans _ _ _ _ _ A2 A3)) as A.
  destruct A as (Hp & Hsec & Hnum). cbn [pdf st0] in Hp, Hnum.
  assert (Hn3 : numbered (pdf s3)).
  { intros i pg Hi. rewrite Hp in Hi. destruct i as [|i].
    - injection Hi as <-. by rewrite Ht.
    - simpl in Hi. rewrite (Hnum _ _ Hi). simpl. lia. }
  assert (Hlen : length (n1 ++ n2 ++ n3)
                 = nbias + (if d then 15 else 0) + (if f then 9 else 0)).
  { rewrite !length_app, L1, L2, L3. lia. }
  split.
  - destruct (b && d && f); [|done]. cbn [set_pdf pdf]. unfold savefig.
    intros i pg Hi. destruct (decide (i < length (pdf s3))) as [Hlt|Hge].
    + rewrite lookup_app_l in Hi by done. by apply Hn3.
    + rewrite lookup_app_r in Hi by lia.
      destruct (i - length (pdf s3)) as [|k] eqn:Hk; [|done].
      injection Hi as <-. simpl. lia.
  - exists title, (n1 ++ n2 ++ n3), f0, camera, detid.
    split; [done|]. split; [done|]. split; [done|].
    split; [by eexists _, _, _, _, _|].
    split; [done|]. split; [exact Hlen|].
    destruct (b && d && f) eqn:Hall.
    + cbn [set_pdf pdf]. unfold savefig. rewrite Hp.
      apply andb_true_iff in Hall as [_ Hf]. rewrite (Hlab Hf).
      simpl. do 3 f_equal. f_equal. rewrite length_app. simpl. lia.
    + by rewrite Hp, app_nil_r.
Qed.


Lemma report_pages_witness :
  ∃ st, write_report (Sample.env 10000 1) "data" Sample.files
        = Ok ("data/cam_det_analysis_report.pdf", st)
        ∧ numbered (pdf st) ∧ length (pdf st) = 28.
Proof.
  destruct (sample_write_report 10000 1) as (st & H); [lra|].
  exists st. split; [exact H|].
  pose proof (report_pages (Sample.env 10000 1) "data" Sample.files _ st H) as Hr.
  change (scan_files Sample.files) with (true, true, true) in Hr.
  cbn beta iota zeta in Hr.
  destruct Hr as (Hn & title & body & f0 & camera & detid & Hf0 & Hc & Hd & _ & _ & Hl & Hp).
  split; [exact Hn|].
  injection Hf0 as <-.
  change (split "_" "cam_det_bias_hdr_20240413.fits")
    with ["cam"; "det"; "bias"; "hdr"; "20240413.fits"] in Hc, Hd.
  injection Hc as <-. injection Hd as <-.
  rewrite Hp. simpl. rewrite length_app, Hl. reflexivity.
Defined.

Lemma run_sections_first_page (bias dark : Report → result Report)
    (flat : Report → result (Report * list string))
    (present : bool * bool * bool) (E : Env) (prefix : string)
    (title : Page) (st0 st : Report) :
  bias = bias_analysis E prefix → dark = dark_analysis E prefix →
  flat = flat_analysis E prefix →
  pdf st0 = [title] →
  run_sections bias dark flat present st0 = Ok st →
  take 1 (pdf st) = [title].
Proof.
  intros -> -> -> Hp0 H. destruct present as [[b d] f].
  apply run_sections_Ok in H as (s1 & s2 & s3 & labels & H1 & H2 & H3 & ->).
  assert (A1 : ∃ new, appended st0 s1 new).
  { destruct b; [|injection H1 as <-; exists []; apply appended_refl].
    apply bias_analysis_pages in H1 as (? & new & _ & Ha & _). by exists new. }
  assert (A2 : ∃ new, appended s1 s2 new).
  { destruct d; [|injection H2 as <-; exists []; apply appended_refl].
    apply dark_analysis_pages in H2 as (new & Ha & _). by exists new. }
  assert (A3 : ∃ new, appended s2 s3 new).
  { destruct f; [|injection H3 as <- _; exists []; apply appended_refl].
    apply flat_analysis_pages in H3 as (new & Ha & _). by exists new. }
  destruct A1 as (n1 & A1), A2 as (n2 & A2), A3 as (n3 & A3).
  destruct (appended_trans _ _ _ _ _ A1 (appended_trans _ _ _ _ _ A2 A3)) as (Hp & _).
  rewrite Hp0 in Hp.
  destruct (b && d && f); cbn [set_pdf pdf]; unfold savefig; by rewrite Hp.
Qed.

(** ** Further properties: the file names *)

Lemma prefix_char (c a : ascii) (s : string) :
  String.prefix (String c EmptyString) (String a s) = bool_decide (c = a).
Proof.
  simpl. destruct (ascii_dec c a) as [->|Hne].
  - rewrite bool_decide_eq_true_2 by done. by destruct s.
  - by rewrite bool_decide_eq_false_2.
Qed.

Lemma contains_char_cons (c a : ascii) (s : string) :
  contains (String c EmptyString) (String a s) = false ↔
  a ≠ c ∧ contains (String c EmptyString) s = false.
Proof.
  change (contains (String c EmptyString) (String a s))
    with (String.prefix (String c EmptyString) (String a s)
          || contains (String c EmptyString) s).
  rewrite prefix_char, orb_false_iff, bool_decide_eq_false. naive_solver.
Qed.

Lemma split_no_sep (sep : ascii) (s : string) :
  contains (String sep EmptyString) s = false → split sep s = [s].
Proof.
  induction s as [|a s IH]; intros H; [done|].
  apply contains_char_cons in H as [Hne Hs]. simpl.
  rewrite decide_False by done. by rewrite (IH Hs).
Qed.

Lemma split_app (sep : ascii) (a rest : string) :
  contains (String sep EmptyString) a = false →
  split sep (a +:+ String sep rest) = a :: split sep rest.
Proof.
  induction a as [|c a IH]; intros H.
  - simpl. by rewrite decide_True.
  - apply contains_char_cons in H as [Hne Ha]. simpl.
    rewrite decide_False by done. by rewrite (IH Ha).
Qed.

Lemma split_length (sep : ascii) (s : string) : 0 < length (split sep s).
Proof.
  induction s as [|a s IH]; simpl; [lia|].
  destruct (decide (a = sep)); simpl; [lia|]. destruct (split sep s); simpl; lia.
Qed.

Lemma path_join_plain (dirname name : string) :
  String.prefix "/" name = false → dirname ≠ EmptyString →
  ends_with_slash dirname = false →
  path_join dirname name = dirname +:+ "/" +:+ name.
Proof.
  intros Hn Hd He. unfold path_join. rewrite Hn, He. by rewrite decide_False.
Qed.

Lemma path_join_slash (dirname name : string) :
  String.prefix "/" name = false → ends_with_slash dirname = true →
  path_join dirname name = dirname +:+ name.
Proof.
  intros Hn He. unfold path_join. rewrite Hn, He.
  destruct (decide (dirname = EmptyString)) as [->|]; done.
Qed.

Lemma prefix_app_nonslash (a rest : string) :
  String.prefix "/" a = false →
  String.prefix "/" (a +:+ String "_" rest) = false.
Proof.
  destruct a as [|c a]; [done|]. intros H.
  change (String c a +:+ String "_" rest) with (String c (a +:+ String "_" rest)).
  rewrite prefix_char in *. exact H.
Qed.

(** X5.  The camera and detector names are the first two fields of the
    first file name, cut at underscores: for a first file named
    [camera_detid_...], where neither name contains an underscore, a run
    that completes writes the report [camera_detid_analysis_report.pdf]
    into the directory, at [os.path.join] of the two: [dirname/name] for a
    directory name without a slash at its end, [dirname] followed by the
    name for one that ends with a slash, the name alone for an empty
    directory name.  The run puts the two names on the title page and
    reads its exposures under the prefix [dirname/camera_detid], here with
    a slash in every case.  A first file name without any underscore
    makes the run raise [IndexError], whatever else the directory
    holds. *)
Theorem names_from_first_file (E : Env) (dirname : string) (files : list string)
    (f0 : string) :
  files !! 0 = Some f0 →
  (contains "_" f0 = false → write_report E dirname files = Raise IndexError)
  ∧ (∀ camera detid rest path st,
       f0 = camera +:+ "_" +:+ detid +:+ "_" +:+ rest →
       contains "_" camera = false → contains "_" detid = false →
       write_report E dirname files = Ok (path, st) →
       path = path_join dirname
                (camera +:+ "_" +:+ detid +:+ "_analysis_report.pdf")
       ∧ (String.prefix "/" camera = false →
          (dirname ≠ EmptyString → ends_with_slash dirname = false →
           path = dirname +:+ "/" +:+ camera +:+ "_" +:+ detid
                  +:+ "_analysis_report.pdf")
          ∧ (ends_with_slash dirname = true →
             path = dirname +:+ camera +:+ "_" +:+ detid +:+ "_analysis_report.pdf")
          ∧ (dirname = EmptyString →
             path = camera +:+ "_" +:+ detid +:+ "_analysis_report.pdf"))
       ∧ (∃ datestring fw temp generated git cont,
            pdf st !! 0
            = Some (TitlePage 1 detid camera datestring fw temp generated git cont))
       ∧ run_sections (bias_analysis E (dirname +:+ "/" +:+ camera +:+ "_" +:+ detid))
           (dark_analysis E (dirname +:+ "/" +:+ camera +:+ "_" +:+ detid))
           (flat_analysis E (dirname +:+ "/" +:+ camera +:+ "_" +:+ detid))
           (scan_files files)
           {| pdf := take 1 (pdf st); read_noise := ∅; det_gain := ∅;
              dark_current := ∅; well_depth := ∅ |}
         = Ok st).
Proof.
  intros Hf0. split.
  - intros Hno. unfold write_report, write_report_with, py_index.
    rewrite Hf0. cbn [mbind result_bind]. rewrite (split_no_sep "_" f0 Hno). done.
  - intros camera detid rest path st -> Hc Hd H.
    apply write_report_inv in H
      as (f0 & c' & d' & exp & git & title & Hf0' & Hc' & Hd' & _ & _ & -> & Ht & H).
    rewrite Hf0 in Hf0'. injection Hf0' as <-.
    change (camera +:+ "_" +:+ detid +:+ "_" +:+ rest)
      with (camera +:+ String "_" (detid +:+ String "_" rest)) in Hc', Hd'.
    rewrite (split_app "_" camera _ Hc) in Hc', Hd'.
    simpl in Hc'. injection Hc' as <-.
    change ((camera :: split "_" (detid +:+ String "_" rest)) !! 1)
      with (split "_" (detid +:+ String "_" rest) !! 0) in Hd'.
    rewrite (split_app "_" detid _ Hd) in Hd'. injection Hd' as <-.
    destruct Ht as (datestring & temp & ->).
    assert (Htake : take 1 (pdf st)
                    = [TitlePage 1 detid camera datestring (firmware exp) temp
                         (now E) git (contents (scan_files files))]).
    { eapply run_sections_first_page;
        [reflexivity|reflexivity|reflexivity| |exact H]. reflexivity. }
    split; [done|]. split; [|split].
    + intros Hslash.
      pose proof (prefix_app_nonslash camera
                    (detid +:+ "_analysis_report.pdf") Hslash) as Hname.
      change (camera +:+ String "_" (detid +:+ "_analysis_report.pdf"))
        with (camera +:+ "_" +:+ detid +:+ "_analysis_report.pdf") in Hname.
      split; [|split].
      * intros Hne Hend. by apply path_join_plain.
      * intros Hend. by apply path_join_slash.
      * intros ->. unfold path_join. by rewrite Hname.
    + destruct (pdf st) as [|pg more]; [discriminate|].
      simpl in Htake. injection Htake as ->. by eexists _, _, _, _, _, _.
    + by rewrite Htake.
Qed.

Lemma names_from_first_file_witness :
  ∃ st,
    write_report (Sample.env 10000 1) "data" Sample.files
    = Ok ("data/cam_det_analysis_report.pdf", st)
    ∧ ∃ datestring fw temp generated git cont,
        pdf st !! 0 = Some (TitlePage 1 "det" "cam" datestring fw temp generated git cont).
Proof.
  destruct (sample_write_report 10000 1) as (st & H); [lra|].
  exists st. split; [exact H|].
  destruct (names_from_first_file (Sample.env 10000 1) "data" Sample.files
              "cam_det_bias_hdr_20240413.fits" eq_refl) as (_ & Hnames).
  destruct (Hnames "cam" "det" "bias_hdr_20240413.fits" _ st eq_refl eq_refl eq_refl H)
    as (_ & _ & Htitle & _).
  exact Htitle.
Defined.

Lemma existsb_perm (p : string → bool) (l l' : list string) :
  l ≡ₚ l' → existsb p l = existsb p l'.
Proof.
  induction 1 as [|x l l' _ IH|x y l|l l' l'' _ IH1 _ IH2]; simpl.
  - done.
  - by rewrite IH.
  - destruct (p x), (p y); done.
  - by rewrite IH1.
Qed.

(** X6.  The scan of the directory sets the flag of a kind of exposure
    exactly when some file name contains its word ("bias", "dark",
    "flat") anywhere in the name; one name can set several flags; and the
    flags do not depend on the order in which the directory is listed. *)
Theorem conditions_from_file_names (files : list string) :
  ((scan_files files).1.1 = true ↔ ∃ x, x ∈ files ∧ contains "bias" x = true)
  ∧ ((scan_files files).1.2 = true ↔ ∃ x, x ∈ files ∧ contains "dark" x = true)
  ∧ ((scan_files files).2 = true ↔ ∃ x, x ∈ files ∧ contains "flat" x = true)
  ∧ (∀ files', files ≡ₚ files' → scan_files files' = scan_files files)
  ∧ scan_files ["x_bias_dark_flat"] = (true, true, true).
Proof.
  rewrite scan_files_spec. cbn [fst snd].
  assert (Hex : ∀ p, existsb p files = true ↔ ∃ x, x ∈ files ∧ p x = true).
  { intros p. rewrite existsb_exists. split; intros (x & Hx & Hp); exists x;
      (split; [by apply list_elem_of_In|done]). }
  split; [apply Hex|]. split; [apply Hex|]. split; [apply Hex|]. split; [|done].
  intros files' Hp. rewrite scan_files_spec.
  by rewrite !(existsb_perm _ _ _ Hp).
Qed.

(** ** Further properties: the command line *)

Lemma elem_of_opts (argv : list string) :
  "-g" ∈ filter (fun opt => String.prefix "-" opt = true) (tail argv)
  ↔ "-g" ∈ tail argv.
Proof. rewrite list_elem_of_filter. split; [by intros [_ ?]|]. by split. Qed.

(** X7.  On the command line the directory is the first word after the
    script name that does not start with "-"; when there is none, the
    directory is the one typed at the prompt.  The loader is called with
    [graycode=True] exactly when "-g" is among the words, before or after
    the directory.  Other words starting with "-" and further directory
    arguments change nothing. *)
Theorem command_line_parsing (script : string) (words : list string)
    (input : string) :
  (∀ opts dir rest,
     words = opts ++ dir :: rest →
     Forall (fun w => String.prefix "-" w = true) opts →
     String.prefix "-" dir = false →
     (command_line (script :: words) input).1 = dir)
  ∧ (Forall (fun w => String.prefix "-" w = true) words →
     (command_line (script :: words) input).1 = input)
  ∧ ((command_line (script :: words) input).2 = true ↔ "-g" ∈ words)
  ∧ (∀ w before after,
       words = before ++ w :: after →
       (String.prefix "-" w = true ∧ w ≠ "-g")
       ∨ (String.prefix "-" w = false
          ∧ ∃ dir, dir ∈ before ∧ String.prefix "-" dir = false) →
       command_line (script :: before ++ after) input
       = command_line (script :: words) input)
  ∧ (∀ E load,
       main E load (script :: words) input
       = standard_analysis_products
           (with_loader E (load (bool_decide ("-g" ∈ words))))
           (command_line (script :: words) input).1).
Proof.
  assert (Hmain : ∀ E load,
            main E load (script :: words) input
            = standard_analysis_products
                (with_loader E (load (bool_decide ("-g" ∈ words))))
                (command_line (script :: words) input).1).
  { intros E load. unfold main, command_line. cbn [tail fst snd].
    do 3 f_equal. apply bool_decide_ext. apply (elem_of_opts (script :: words)). }
  revert Hmain. unfold command_line. cbn [tail fst snd]. intros Hmain.
  assert (Hargs_opts : ∀ opts, Forall (fun w => String.prefix "-" w = true) opts →
            filter (fun arg => String.prefix "-" arg = false) opts = []).
  { induction 1 as [|w l Hw _ IH]; [done|].
    rewrite filter_cons, decide_False; [done|]. by rewrite Hw. }
  split; [|split; [|split; [|split; [|exact Hmain]]]].
  - intros opts dir rest -> Hopts Hdir.
    rewrite filter_app, (Hargs_opts _ Hopts), filter_cons.
    destruct (decide (String.prefix "-" dir = false)); [|done].
    cbn [app length head default]. by rewrite decide_False by lia.
  - intros Hall. rewrite (Hargs_opts _ Hall). cbn [length].
    by rewrite decide_True by lia.
  - rewrite bool_decide_eq_true. apply (elem_of_opts (script :: words)).
  - intros w before after -> Hw.
    rewrite !filter_app, !filter_cons.
    destruct Hw as [[Hopt Hne]|[Harg (dir & Hin & Hdir)]].
    + destruct (decide (String.prefix "-" w = true)); [|done].
      destruct (decide (String.prefix "-" w = false)); [congruence|].
      f_equal. apply bool_decide_ext.
      rewrite !elem_of_app, elem_of_cons. naive_solver.
    + destruct (decide (String.prefix "-" w = true)); [congruence|].
      destruct (decide (String.prefix "-" w = false)); [|done].
      f_equal.
      assert (∃ a l, filter (fun arg => String.prefix "-" arg = false) before = a :: l)
        as (a & l & ->).
      { assert (dir ∈ filter (fun arg => String.prefix "-" arg = false) before)
          as Hin' by (by apply list_elem_of_filter).
        destruct (filter _ before) as [|a l]; [by apply elem_of_nil in Hin'|].
        by exists a, l. }
      cbn [app length head default]. by rewrite !decide_False by (simpl; lia).
Qed.

(** ** Further properties: the numbers a run records *)

Lemma well_depth_loop_values (a b c d : Frame) (st st' : Report) :
  for_each (well_depth_page flat_labels) (enumerate [a; b; c; d]) st = Ok st' →
  well_depth st'
  = <["low" := np.median d]> (<["high" := np.median c]>
      (<["low (dual-gain)" := np.median b]>
         (<["high (dual-gain)" := np.median a]> (well_depth st))))
  ∧ read_noise st' = read_noise st ∧ det_gain st' = det_gain st
  ∧ dark_current st' = dark_current st.
Proof.
  intros H. unfold enumerate in H. cbn [length seq zip_with] in H.
  loop_step H s1 H0. loop_step H s2 H1. loop_step H s3 H2. loop_step H s4 H3.
  rewrite for_each_nil in H. injection H as H; subst s4.
  apply well_depth_page_Ok in H0 as (l0 & L0 & W0 & R0 & G0 & D0).
  apply well_depth_page_Ok in H1 as (l1 & L1 & W1 & R1 & G1 & D1).
  apply well_depth_page_Ok in H2 as (l2 & L2 & W2 & R2 & G2 & D2).
  apply well_depth_page_Ok in H3 as (l3 & L3 & W3 & R3 & G3 & D3).
  injection L0 as <-. injection L1 as <-. injection L2 as <-. injection L3 as <-.
  repeat split; congruence.
Qed.

(** X8.  After a flat section that completes, every one of the four
    channels has its gain in [det_gain] and, in [well_depth], the median
    of its saturated frame multiplied by that gain, whatever
    [well_depth] held before; the read noise and dark current found
    under the channel's label are converted with the same gain. *)
Theorem flat_section_values (E : Env) (prefix : string) (st st' : Report)
    (labels : list string) :
  flat_analysis E prefix st = Ok (st', labels) →
  ∃ fl, flat_load E prefix = Ok fl
    ∧ ∀ j label, flat_labels !! j = Some label →
        ∃ sat k,
          sat_flats fl !! j = Some sat
          ∧ ptc_gain E fl j = Ok k
          ∧ det_gain st' !! label = Some k
          ∧ well_depth st' !! label = Some (np.median sat * k)%R
          ∧ read_noise st' !! label
            = (fun r => sqrt r * k)%R <$> read_noise st !! label
          ∧ dark_current st' !! label
            = (fun d => d * k)%R <$> dark_current st !! label.
Proof.
  intros H. apply flat_analysis_Ok in H as (fl & Hload & Hrep & ->).
  exists fl. split; [done|].
  apply flat_load_Ok in Hload as (Hlab & (Hsat & _) & _).
  apply flat_report_Ok in Hrep as (s1 & s2 & s3 & H1 & H2 & H3 & ->).
  apply mid_flat_pages_Ok in H1 as (R1 & G1 & D1 & W1).
  rewrite Hlab in Hsat, H2.
  destruct (sat_flats fl) as [|a [|b [|c [|d [|? ?]]]]] eqn:Hsf; try discriminate.
  apply well_depth_loop_values in H2 as (W2 & R2 & G2 & D2).
  destruct (ptc_loop_Ok E fl s2 s3 Hlab H3) as (_ & Hin & _).
  intros j label Hj. destruct (Hin j label Hj) as (k & Hk & G & R' & D & W).
  cbn [set_pdf det_gain well_depth read_noise dark_current].
  rewrite R', D, W, W2, R2, D2, R1, D1.
  destruct j as [|[|[|[|j]]]]; simpl in Hj; try discriminate; injection Hj as <-.
  - exists a, k. repeat split; try done.
    by rewrite lookup_insert_ne, lookup_insert_ne, lookup_insert_ne, lookup_insert_eq.
  - exists b, k. repeat split; try done.
    by rewrite lookup_insert_ne, lookup_insert_ne, lookup_insert_eq.
  - exists c, k. repeat split; try done.
    by rewrite lookup_insert_ne, lookup_insert_eq.
  - exists d, k. repeat split; try done. by rewrite lookup_insert_eq.
Qed.

Lemma flat_section_values_witness :
  ∃ st',
    flat_analysis (Sample.env 10000 1) "data/cam_det" Sample.blank
    = Ok (st', flat_labels)
    ∧ well_depth st' !! "high" = Some (1 / 2 * Sample.k)%R.
Proof.
  destruct (sample_flat_analysis 10000 1 Sample.blank) as (st' & H); [lra|].
  exists st'. split; [exact H|].
  destruct (flat_section_values _ _ _ _ _ H) as (fl & Hfl & Hv).
  rewrite sample_flat_load in Hfl by lra. injection Hfl as <-.
  destruct (Hv 2 "high" eq_refl) as (sat & k & Hsat & Hk & _ & Hw & _).
  injection Hsat as <-.
  rewrite sample_ptc_gain in Hk by (lra || lia). injection Hk as <-.
  rewrite Hw. by rewrite median_pixel.
Defined.

Lemma bias_frame_values (st st' : Report) (bifr : Exposure) :
  bias_frame st bifr = Ok st' →
  (gain bifr = "hdr" →
   ∃ vh vl, get_variance bifr (full_frame bifr) = Dual vh vl
     ∧ read_noise st'
       = <["low (dual-gain)" := sqrt vl]>
           (<["high (dual-gain)" := sqrt vh]> (read_noise st)))
  ∧ (gain bifr ≠ "hdr" →
     ∃ v, get_variance bifr (full_frame bifr) = Mono v
       ∧ read_noise st' = <[gain bifr := sqrt v]> (read_noise st)).
Proof.
  unfold bias_frame, bias_channels. intros H.
  destruct (decide (gain bifr = "hdr")) as [Hg|Hg]; split; intros Hg'; try congruence.
  - apply bind_Ok in H as ([[gains mf] var] & Hc & H).
    apply bind_Ok in Hc as ([hi lo] & _ & Hc).
    apply bind_Ok in Hc as ([vh vl] & Hv & Hc). injection Hc as <- <- <-.
    destruct (get_variance bifr (full_frame bifr)) as [|vh' vl'] eqn:Hvar;
      [discriminate|]. injection Hv as -> ->.
    exists vh, vl. split; [done|].
    unfold enumerate in H. cbn [length seq zip_with] in H.
    loop_step H s1 H0. loop_step H s2 H1.
    rewrite for_each_nil in H. injection H as H; subst s2.
    apply bias_page_Ok in H0 as (g0 & v0 & L0 & V0 & R0 & _).
    apply bias_page_Ok in H1 as (g1 & v1 & L1 & V1 & R1 & _).
    injection L0 as <-. injection L1 as <-. injection V0 as <-. injection V1 as <-.
    congruence.
  - apply bind_Ok in H as ([[gains mf] var] & Hc & H).
    apply bind_Ok in Hc as (fs & _ & Hc).
    apply bind_Ok in Hc as (v & Hv & Hc). injection Hc as <- <- <-.
    destruct (get_variance bifr (full_frame bifr)) as [v'|] eqn:Hvar;
      [|discriminate]. injection Hv as ->.
    exists v. split; [done|].
    unfold enumerate in H. cbn [length seq zip_with] in H.
    loop_step H s1 H0. rewrite for_each_nil in H. injection H as H; subst s1.
    apply bias_page_Ok in H0 as (g0 & v0 & L0 & V0 & R0 & _).
    injection L0 as <-. injection V0 as <-. done.
Qed.

(** X9.  A bias exposure records, for each of its channels, the square
    root of the variance the exposure reports for that channel, replacing
    an earlier entry of the same label.  When the flat section later
    converts that entry with the gain [k] of the channel, the read noise
    that ends up in the report is [sqrt (sqrt variance) * k]: the square
    root is taken a second time. *)
Theorem bias_read_noise_values (st st' : Report) (bifr : Exposure) :
  bias_frame st bifr = Ok st' →
  (gain bifr = "hdr" →
   ∃ vh vl, get_variance bifr (full_frame bifr) = Dual vh vl
     ∧ read_noise st'
       = <["low (dual-gain)" := sqrt vl]>
           (<["high (dual-gain)" := sqrt vh]> (read_noise st))
     ∧ ∀ k, read_noise (gain_convert "high (dual-gain)" k st') !! "high (dual-gain)"
            = Some (sqrt (sqrt vh) * k)%R
          ∧ read_noise (gain_convert "low (dual-gain)" k st') !! "low (dual-gain)"
            = Some (sqrt (sqrt vl) * k)%R)
  ∧ (gain bifr ≠ "hdr" →
     ∃ v, get_variance bifr (full_frame bifr) = Mono v
       ∧ read_noise st' = <[gain bifr := sqrt v]> (read_noise st)
       ∧ ∀ k, read_noise (gain_convert (gain bifr) k st') !! gain bifr
              = Some (sqrt (sqrt v) * k)%R).
Proof.
  intros H. destruct (bias_frame_values st st' bifr H) as (Hhdr & Hmono). split.
  - intros Hg. destruct (Hhdr Hg) as (vh & vl & Hv & Hr).
    exists vh, vl. split; [done|]. split; [done|]. intros k.
    destruct (gain_convert_lookups "high (dual-gain)" k st') as (_ & -> & _).
    destruct (gain_convert_lookups "low (dual-gain)" k st') as (_ & -> & _).
    rewrite Hr, lookup_insert_eq, lookup_insert_ne, lookup_insert_eq by done. done.
  - intros Hg. destruct (Hmono Hg) as (v & Hv & Hr).
    exists v. split; [done|]. split; [done|]. intros k.
    destruct (gain_convert_lookups (gain bifr) k st') as (_ & -> & _).
    by rewrite Hr, lookup_insert_eq.
Qed.

Lemma bias_read_noise_values_witness :
  ∃ st',
    bias_frame Sample.blank (Sample.dual 10000) = Ok st'
    ∧ read_noise st'
      = <["low (dual-gain)" := sqrt 4]> (<["high (dual-gain)" := sqrt 4]> ∅).
Proof.
  destruct (sample_bias_frame 10000 Sample.blank) as (st' & H).
  exists st'. split; [exact H|].
  destruct (bias_read_noise_values _ _ _ H) as (Hhdr & _).
  destruct (Hhdr eq_refl) as (vh & vl & Hv & Hr & _).
  injection Hv as <- <-. exact Hr.
Defined.

(** ** Further properties: what the fit is given and what it gives back *)

Lemma mask_select_length {A B : Type} (a : list A) (b : list B) (mask : list bool) :
  length a = length b →
  length (mask_select a mask) = length (mask_select b mask).
Proof.
  unfold mask_select. rewrite !length_fmap. revert b mask.
  induction a as [|x a IH]; intros [|y b] [|c mask] Hlen; try done.
  simpl in Hlen. cbn [zip zip_with]. rewrite !filter_cons. cbn [snd].
  destruct (decide (c = true)); cbn [length]; rewrite (IH b mask) by lia; done.
Qed.

Lemma mask_select_elem {A : Type} (a : list A) (mask : list bool) (i : nat) (x : A) :
  a !! i = Some x → mask !! i = Some true → x ∈ mask_select a mask.
Proof.
  unfold mask_select. revert mask i.
  induction a as [|y a IH]; intros [|c mask] [|i] Ha Hm; try done.
  - injection Ha as ->. injection Hm as ->. cbn [zip zip_with].
    rewrite filter_cons. cbn [snd]. rewrite decide_True by done. csimpl. by left.
  - cbn [zip zip_with]. rewrite filter_cons. simpl in Ha, Hm.
    destruct (decide _); csimpl; [right|]; by apply (IH mask i).
Qed.

Lemma flat_gain_fit_ready (E : Env) (prefix : string) (acc acc' : Flats) (g : string) :
  flat_gain E prefix acc g = Ok acc' → fit_ready acc → fit_ready acc'.
Proof.
  unfold flat_gain, fit_ready. intros H Hacc.
  apply bind_Ok in H as (frames & Hload & H).
  apply bind_Ok in H as (mx & _ & H). apply bind_Ok in H as (mi & _ & H).
  destruct (decide (g = "hdr")).
  - apply bind_Ok in H as (sat & _ & H).
    apply bind_Ok in H as ([mh ml] & Hm & H).
    apply bind_Ok in H as ([vh vl] & Hv & H).
    apply bind_Ok in H as (hi & Hhi & H). apply bind_Ok in H as (li & Hli & H).
    inv_ok H. subst acc'. cbn [med_sig var].
    apply dual_columns_Ok in Hm as [-> ->]. apply dual_columns_Ok in Hv as [-> ->].
    apply mid_exp_i_Ok in Hhi as ((m1 & Hm1 & Hr1) & _).
    apply mid_exp_i_Ok in Hli as ((m2 & Hm2 & Hr2) & _).
    apply Forall2_app; [done|]. repeat constructor.
    + by rewrite !length_fmap.
    + exists m1. split; [by eapply list_elem_of_lookup_2|done].
    + by rewrite !length_fmap.
    + exists m2. split; [by eapply list_elem_of_lookup_2|done].
  - apply bind_Ok in H as (sat & _ & H).
    apply bind_Ok in H as (med & Hm & H). apply bind_Ok in H as (vs & Hv & H).
    apply bind_Ok in H as (i & Hi & H). inv_ok H. subst acc'. cbn [med_sig var].
    apply mono_column_Ok in Hm as ->. apply mono_column_Ok in Hv as ->.
    apply mid_exp_i_Ok in Hi as ((m1 & Hm1 & Hr1) & _).
    apply Forall2_app; [done|]. repeat constructor.
    + by rewrite !length_fmap.
    + exists m1. split; [by eapply list_elem_of_lookup_2|done].
Qed.

Lemma flat_load_fit_ready (E : Env) (prefix : string) (fl : Flats) :
  flat_load E prefix = Ok fl → fit_ready fl.
Proof.
  unfold flat_load. apply (for_each_invariant fit_ready).
  - intros s1 g s2 _ Hs H. by apply (flat_gain_fit_ready E prefix s1 s2 g).
  - constructor.
Qed.

(** X10.  Once the flats of the three gain modes are loaded, the fit of
    each of the four channels is reached with a sample that is not empty:
    the channel's mid-range exposure is below 15000 ADU and so belongs to
    it, and [min(v)] cannot fail.  The signals and the variances given to
    the fitter have the same length; the variances are shifted by their
    minimum, so that none is negative and the smallest is exactly zero;
    and the gain of the channel is read from whatever model the fitter
    returns. *)
Theorem ptc_fit_input (E : Env) (prefix : string) (fl : Flats) (j : nat) :
  flat_load E prefix = Ok fl → j < 4 →
  ∃ sig v noise_floor,
    ptc_samples fl j = Ok (sig, v)
    ∧ length sig = length v
    ∧ (∃ m, m ∈ sig ∧ (5000 < m < 15000)%R)
    ∧ Forall (fun m => (m < 15000)%R) sig
    ∧ py_min v = Ok noise_floor
    ∧ Forall (fun y => (0 <= y)%R) ((fun x => (x - noise_floor)%R) <$> v)
    ∧ 0%R ∈ (fun x => (x - noise_floor)%R) <$> v
    ∧ ptc_gain E fl j
      = fit E ptc_model sig ((fun x => (x - noise_floor)%R) <$> v) 100
          ≫= fun r => Ok (5000 / PowerLaw1D_eval r.1 5000)%R.
Proof.
  intros Hload Hj.
  pose proof (flat_load_fit_ready E prefix fl Hload) as Hready.
  apply flat_load_Ok in Hload as (Hlab & (_ & _ & _ & Hlen & _) & _).
  rewrite Hlab in Hlen. cbn [length flat_labels] in Hlen.
  destruct (lookup_lt_is_Some_2 (med_sig fl) j) as (s & Hs); [lia|].
  unfold fit_ready in Hready.
  destruct (Forall2_lookup_l _ _ _ _ _ Hready Hs) as (v & Hv & Hsv & m & Hm & Hr).
  apply list_elem_of_lookup_1 in Hm as (i & Hi).
  assert (Hmask : unsaturated_mask s !! i = Some true).
  { unfold unsaturated_mask. rewrite list_lookup_fmap, Hi. simpl.
    by rewrite bool_decide_eq_true_2 by lra. }
  assert (Hvi : is_Some (v !! i)).
  { apply lookup_lt_is_Some_2. rewrite <- Hsv. by eapply lookup_lt_Some. }
  destruct Hvi as (x & Hx).
  pose proof (mask_select_elem v _ i x Hx Hmask) as Hxin.
  set (sig := mask_select s (unsaturated_mask s)).
  set (vs := mask_select v (unsaturated_mask s)) in *.
  assert (Hsamples : ptc_samples fl j = Ok (sig, vs)).
  { unfold ptc_samples, py_index. by rewrite Hs, Hv. }
  destruct vs as [|y0 vs'] eqn:Hvs; [by apply elem_of_nil in Hxin|].
  exists sig, (y0 :: vs'), (foldl Rmin y0 vs').
  destruct (foldl_Rmin_spec vs' y0) as (Hin & Hmin).
  split; [done|]. split; [|split; [|split; [|split; [|split; [|split]]]]].
  - rewrite <- Hvs. by apply mask_select_length.
  - exists m. split; [|done]. by apply (mask_select_elem s _ i).
  - unfold sig. rewrite mask_select_unsaturated.
    apply Forall_forall. intros a Ha. by apply list_elem_of_filter in Ha as [? _].
  - done.
  - apply Forall_fmap, Forall_forall. intros y Hy. simpl.
    pose proof (Hmin y Hy). lra.
  - apply list_elem_of_fmap. exists (foldl Rmin y0 vs'). split; [lra|done].
  - unfold ptc_gain. rewrite Hsamples. cbn [mbind result_bind py_min].
    destruct (fit E ptc_model sig _ 100) as [[mf ierr]|e]; done.
Qed.

Lemma ptc_fit_input_witness :
  ∃ sig v noise_floor,
    ptc_samples (Sample.flats 10000) 0 = Ok (sig, v)
    ∧ length sig = length v
    ∧ py_min v = Ok noise_floor
    ∧ 0%R ∈ (fun x => (x - noise_floor)%R) <$> v.
Proof.
  assert (Hload : flat_load (Sample.env 10000 1) "data/cam_det"
                  = Ok (Sample.flats 10000)) by (apply sample_flat_load; lra).
  destruct (ptc_fit_input (Sample.env 10000 1) "data/cam_det"
              (Sample.flats 10000) 0 Hload ltac:(lia))
    as (sig & v & nf & H1 & H2 & _ & _ & H3 & _ & H4 & _).
  by exists sig, v, nf.
Defined.

(** X11.  The model the fit starts from is [amplitude * x]: [x_0 = 1] and
    [alpha = -1] are fixed.  When the fitter returns a model that still
    has these two values and an amplitude other than zero, the gain
    recorded for the channel is the reciprocal of the fitted amplitude;
    the signal level 5000 at which the script evaluates the model plays
    no part, any positive level gives the same number. *)
Theorem gain_is_inverse_amplitude (E : Env) (fl : Flats) (j : nat)
    (sig v : list R) (noise_floor : R) (m : PowerLaw1D) (ierr : Z) :
  ptc_samples fl j = Ok (sig, v) →
  py_min v = Ok noise_floor →
  fit E ptc_model sig ((fun x => (x - noise_floor)%R) <$> v) 100 = Ok (m, ierr) →
  x_0 m = x_0 ptc_model → alpha m = alpha ptc_model → amplitude m ≠ 0%R →
  ptc_gain E fl j = Ok (1 / amplitude m)%R
  ∧ ∀ x, (0 < x)%R → (x / PowerLaw1D_eval m x = 1 / amplitude m)%R.
Proof.
  intros Hs Hmin Hfit Hx0 Ha Hamp.
  assert (Hlevel : ∀ x, (0 < x)%R → (x / PowerLaw1D_eval m x = 1 / amplitude m)%R).
  { intros x Hx. unfold PowerLaw1D_eval. rewrite Hx0, Ha. cbn [x_0 alpha ptc_model].
    replace (x / 1)%R with x by lra. replace (- -1)%R with 1%R by lra.
    rewrite Rpower_1 by lra. field. split; lra. }
  split; [|exact Hlevel].
  unfold ptc_gain. rewrite Hs. cbn [mbind result_bind]. rewrite Hmin.
  cbn [mbind result_bind]. rewrite Hfit. cbn [mbind result_bind].
  f_equal. apply Hlevel. lra.
Qed.

Lemma gain_is_inverse_amplitude_witness :
  ptc_gain (Sample.env 10000 1) (Sample.flats 10000) 0
  = Ok (1 / amplitude Sample.fitted)%R.
Proof.
  refine (proj1 (gain_is_inverse_amplitude (Sample.env 10000 1) (Sample.flats 10000) 0
            [10000%R] [4%R] 4%R Sample.fitted 1 _ eq_refl eq_refl eq_refl eq_refl _)).
  - apply sample_ptc_samples; [lra|lia].
  - simpl. lra.
Defined.

(** ** Further properties: the acquisitions the dark section needs *)

Lemma for_each_Ok_elem {A St : Type} (body : St → A → result St) (l : list A)
    (s s' : St) (a : A) :
  for_each body l s = Ok s' → a ∈ l → ∃ s1 s2, body s1 a = Ok s2.
Proof.
  revert s. induction l as [|b l IH]; intros s H Ha; [by apply elem_of_nil in Ha|].
  loop_step H s1 H1. apply elem_of_cons in Ha as [->|Ha]; [by exists s, s1|].
  by apply (IH s1).
Qed.

Lemma dark_load_inv (E : Env) (acc d : DarkStacks) (ps : string * string) :
  dark_load E acc ps = Ok d → dual_first E ps.1 ∧ dual_first E ps.2.
Proof.
  unfold dark_load, dual_first. intros H.
  apply bind_Ok in H as (lf & Hl & H). apply bind_Ok in H as (sf & Hs & H).
  apply bind_Ok in H as (hl & Hhl & H). destruct hl as [lh0 ll0].
  apply bind_Ok in H as (hs & Hhs & _).
  apply bind_Ok in Hl as (ll & Hll & Hl0). apply bind_Ok in Hs as (ls & Hls & Hs0).
  apply py_index_Ok in Hl0, Hs0.
  destruct ll as [|e1 r1]; [done|]. destruct ls as [|e2 r2]; [done|].
  injection Hl0 as ->. injection Hs0 as ->.
  split; [by exists lf, r1, (lh0, ll0)|by exists sf, r2, hs].
Qed.

Lemma dark_load_raises (E : Env) (acc : DarkStacks) (ps : string * string) :
  ¬ (dual_first E ps.1 ∧ dual_first E ps.2) → is_raise (dark_load E acc ps).
Proof.
  intros Hn. destruct (dark_load E acc ps) as [d|e] eqn:H; [|done].
  destruct Hn. by apply dark_load_inv in H.
Qed.

(** X12.  The dark section loads 27 pairs of acquisitions, a long and a
    short exposure each: FUVdark0..8 at 900 s and 9 s, NUVdark0..8 at
    300 s and 3 s, and the 3 x 3 full-dwell exposures of NUVguidingdark
    under the names ending in 4 and 2.  The section completes only when
    every one of these 54 prefixes has files and the first file of each is
    a dual-gain exposure; if a single one is missing, the section, and
    with it the run, ends in an exception, whatever was measured
    before. *)
Theorem dark_section_needs_every_acquisition (E : Env) (prefix : string) :
  length (dark_acquisitions prefix) = 27
  ∧ (∀ i, i < 9 →
       ((prefix +:+ "_" +:+ "FUVdark" +:+ pretty i +:+ "_") +:+ "900" +:+ "_",
        (prefix +:+ "_" +:+ "FUVdark" +:+ pretty i +:+ "_") +:+ "9" +:+ "_")
       ∈ dark_acquisitions prefix
       ∧ ((prefix +:+ "_" +:+ "NUVdark" +:+ pretty i +:+ "_") +:+ "300" +:+ "_",
          (prefix +:+ "_" +:+ "NUVdark" +:+ pretty i +:+ "_") +:+ "3" +:+ "_")
         ∈ dark_acquisitions prefix)
  ∧ (∀ i j, i < 3 → j < 3 →
       ((prefix +:+ "_" +:+ "NUVguidingdark" +:+ pretty i +:+ "_FullDwell_exp"
           +:+ pretty j +:+ "_UVEXNUV_") +:+ "4",
        (prefix +:+ "_" +:+ "NUVguidingdark" +:+ pretty i +:+ "_FullDwell_exp"
           +:+ pretty j +:+ "_UVEXNUV_") +:+ "2")
       ∈ dark_acquisitions prefix)
  ∧ (∀ st st', dark_analysis E prefix st = Ok st' →
       ∀ ps, ps ∈ dark_acquisitions prefix →
         dual_first E ps.1 ∧ dual_first E ps.2)
  ∧ (∀ st ps, ps ∈ dark_acquisitions prefix →
       ¬ (dual_first E ps.1 ∧ dual_first E ps.2) →
       is_raise (dark_analysis E prefix st)).
Proof.
  assert (Hin : ∀ ps, ps ∈ dark_acquisitions prefix →
            ∃ mode, mode ∈ dark_modes
              ∧ ps ∈ dark_prefixes prefix mode (dark_durations mode).1
                       (dark_durations mode).2).
  { intros ps Hps. unfold dark_acquisitions in Hps.
    apply list_elem_of_bind in Hps as (mode & Hps & Hmode). by exists mode. }
  split; [reflexivity|]. split; [|split; [|split]].
  - intros i Hi.
    assert (Hseq : i ∈ seq 0 9) by (apply elem_of_seq; lia).
    split; unfold dark_acquisitions; apply list_elem_of_bind.
    + exists "FUVdark". split; [|set_solver].
      unfold dark_prefixes. rewrite decide_False by done.
      apply list_elem_of_bind. exists i. split; [|done].
      apply list_elem_of_singleton. reflexivity.
    + exists "NUVdark". split; [|unfold dark_modes; set_solver].
      unfold dark_prefixes. rewrite decide_False by done.
      apply list_elem_of_bind. exists i. split; [|done].
      apply list_elem_of_singleton. reflexivity.
  - intros i j Hi Hj.
    assert (Hsi : i ∈ seq 0 3) by (apply elem_of_seq; lia).
    assert (Hsj : j ∈ seq 0 3) by (apply elem_of_seq; lia).
    unfold dark_acquisitions. apply list_elem_of_bind.
    exists "NUVguidingdark". split; [|unfold dark_modes; set_solver].
    unfold dark_prefixes. rewrite decide_True by done.
    apply list_elem_of_bind. exists i. split; [|done].
    apply list_elem_of_bind. exists j. split; [|done].
    apply list_elem_of_singleton. reflexivity.
  - intros st st' H ps Hps. destruct (Hin ps Hps) as (mode & Hmode & Hpm).
    unfold dark_analysis in H.
    destruct (for_each_Ok_elem _ _ _ _ mode H Hmode) as (s1 & s2 & Hm).
    apply dark_mode_Ok in Hm as (d & _ & Hloads & _).
    destruct (for_each_Ok_elem _ _ _ _ ps Hloads Hpm) as (a1 & a2 & Hl).
    by apply dark_load_inv in Hl.
  - intros st ps Hps Hn. destruct (Hin ps Hps) as (mode & Hmode & Hpm).
    unfold dark_analysis. apply (for_each_raises _ _ mode); [done|].
    intros s'. unfold dark_mode.
    destruct (dark_durations mode) as [long short] eqn:Hd. cbn [fst snd] in Hpm.
    pose proof (for_each_raises (dark_load E) _ ps no_stacks Hpm
                  (fun acc => dark_load_raises E acc ps Hn)) as Hr.
    destruct (for_each (dark_load E) _ no_stacks); [done|]. done.
Qed.

(** ** Further properties: the cells of the summary table *)

Lemma bias_loop_dom (frames : list Exposure) (st st' : Report) :
  for_each bias_frame frames st = Ok st' →
  dom (read_noise st')
  = dom (read_noise st) ∪ list_to_set (frames ≫= fun e => channel_labels (gain e)).
Proof.
  revert st. induction frames as [|e frames IH]; intros st H.
  - rewrite for_each_nil in H. injection H as <-. csimpl. set_solver.
  - loop_step H s1 H1. apply bias_frame_Ok in H1 as (Hd & _).
    rewrite (IH s1 H), Hd, bind_cons, list_to_set_app_L. set_solver.
Qed.

Lemma dark_analysis_dom (E : Env) (prefix : string) (st st' : Report) :
  dark_analysis E prefix st = Ok st' →
  dom (dark_current st')
  = dom (dark_current st) ∪ {["high (dual-gain)"; "low (dual-gain)"]}.
Proof.
  unfold dark_analysis, dark_modes. intros H.
  loop_step H s1 H1. loop_step H s2 H2. loop_step H s3 H3.
  rewrite for_each_nil in H. injection H as H; subst s3.
  apply dark_mode_Ok in H1 as (d1 & t1 & _ & P1 & ->).
  apply dark_mode_Ok in H2 as (d2 & t2 & _ & P2 & ->).
  apply dark_mode_Ok in H3 as (d3 & t3 & _ & P3 & ->).
  apply dark_pages_Ok in P1 as (D1 & _). apply dark_pages_Ok in P2 as (D2 & _).
  apply dark_pages_Ok in P3 as (D3 & _).
  rewrite decide_True in D1 by done.
  rewrite decide_False in D2 by done. rewrite decide_False in D3 by done.
  cbn [set_pdf dark_current] in *.
  rewrite D3, D2, D1, !dom_insert_L. set_solver.
Qed.

(** X13.  When bias, dark and flat exposures are all present and the run
    completes, the last page is the summary table, with one row per
    channel in the order high (dual-gain), low (dual-gain), high, low.
    Every row has a gain and a well depth.  A dark current appears in the
    two dual-gain rows only, because the dark exposures are all dual-gain:
    the rows of the single-gain modes never show one.  A read noise
    appears in a row exactly when one of the bias exposures found has a
    channel of that name. *)
Theorem summary_table (E : Env) (dirname : string) (files : list string)
    (path : string) (st : Report) :
  write_report E dirname files = Ok (path, st) →
  scan_files files = (true, true, true) →
  ∃ f0 camera detid bias_frames,
    files !! 0 = Some f0
    ∧ split "_" f0 !! 0 = Some camera ∧ split "_" f0 !! 1 = Some detid
    ∧ load_by_file_prefix E
        ((dirname +:+ "/" +:+ camera +:+ "_" +:+ detid) +:+ "_bias")
      = Ok bias_frames
    ∧ last (pdf st)
      = Some (TablePage (length (pdf st)) (summary_rows flat_labels st))
    ∧ dom (det_gain st) = list_to_set flat_labels
    ∧ dom (well_depth st) = list_to_set flat_labels
    ∧ dom (dark_current st) = {["high (dual-gain)"; "low (dual-gain)"]}
    ∧ dom (read_noise st)
      = list_to_set (bias_frames ≫= fun e => channel_labels (gain e))
    ∧ ∀ i label, flat_labels !! i = Some label →
        ∃ k rn dc w,
          summary_rows flat_labels st !! i = Some (label, Some k, rn, dc, Some w)
          ∧ (is_Some dc ↔ i < 2)
          ∧ (is_Some rn ↔ ∃ e, e ∈ bias_frames ∧ label ∈ channel_labels (gain e)).
Proof.
  intros H Hscan.
  apply write_report_inv in H
    as (f0 & camera & detid & exp & git & title & Hf0 & Hcam & Hdet & _ & _ & _ & _ & H).
  rewrite Hscan in H.
  apply run_sections_Ok in H as (s1 & s2 & s3 & labels & Hb & Hd & Hf & ->).
  cbn [andb] in *.
  pose proof (bias_analysis_others _ _ _ _ Hb) as (Gb & Db & Wb).
  unfold bias_analysis in Hb. apply bind_Ok in Hb as (frames & Hload & Hb).
  apply bias_loop_dom in Hb. cbn [read_noise det_gain dark_current well_depth] in *.
  pose proof (dark_analysis_others _ _ _ _ Hd) as (Rd & Gd & Wd).
  apply dark_analysis_dom in Hd.
  apply flat_analysis_keys in Hf as (-> & Gf & Wf & Rf & Df).
  assert (HG : dom (det_gain s3) = list_to_set flat_labels).
  { rewrite Gf, Gd, Gb, dom_empty_L. set_solver. }
  assert (HW : dom (well_depth s3) = list_to_set flat_labels).
  { rewrite Wf, Wd, Wb, dom_empty_L. set_solver. }
  assert (HD : dom (dark_current s3) = {["high (dual-gain)"; "low (dual-gain)"]}).
  { rewrite Df, Hd, Db, dom_empty_L. set_solver. }
  assert (HR : dom (read_noise s3)
               = list_to_set (frames ≫= fun e => channel_labels (gain e))).
  { rewrite Rf, Rd, Hb, dom_empty_L. set_solver. }
  exists f0, camera, detid, frames.
  do 4 (split; [done|]). split; [|do 4 (split; [done|])].
  { cbn [pdf set_pdf]. unfold savefig. rewrite last_snoc, length_app. simpl.
    reflexivity. }
  intros i label Hi.
  assert (Hin : label ∈ flat_labels) by (by eapply list_elem_of_lookup_2).
  assert (Hk : is_Some (det_gain s3 !! label)).
  { apply elem_of_dom. rewrite HG. by apply elem_of_list_to_set. }
  assert (Hw : is_Some (well_depth s3 !! label)).
  { apply elem_of_dom. rewrite HW. by apply elem_of_list_to_set. }
  destruct Hk as (k & Hk). destruct Hw as (w & Hw).
  exists k, (read_noise s3 !! label),
    ((fun d => d * 1000)%R <$> dark_current s3 !! label), w.
  split; [|split].
  - unfold summary_rows. rewrite list_lookup_fmap, Hi. simpl.
    cbn [det_gain read_noise dark_current well_depth set_pdf].
    by rewrite Hk, Hw.
  - rewrite fmap_is_Some, <- elem_of_dom, HD.
    destruct i as [|[|[|[|i]]]]; simpl in Hi; try discriminate;
      injection Hi as <-; split; intros Hx; try lia; set_solver.
  - rewrite <- elem_of_dom, HR, elem_of_list_to_set, list_elem_of_bind.
    split; intros (e & ? & ?); by exists e.
Qed.

Lemma summary_table_witness :
  ∃ st, write_report (Sample.env 10000 1) "data" Sample.files
        = Ok ("data/cam_det_analysis_report.pdf", st)
        ∧ dom (dark_current st) = {["high (dual-gain)"; "low (dual-gain)"]}.
Proof.
  destruct (sample_write_report 10000 1) as (st & H); [lra|].
  exists st. split; [exact H|].
  destruct (summary_table _ _ _ _ _ H eq_refl)
    as (f0 & camera & detid & frames & _ & _ & _ & _ & _ & _ & _ & HD & _).
  exact HD.
Defined.

(** ** Further properties: how the flat section can fail *)

Lemma hist_page_cases (p : list Page) (data : Frame) (title : string) :
  (undrawable data ∧ hist_page p data title = Raise ValueError)
  ∨ (¬ undrawable data
     ∧ hist_page p data title = Ok (savefig (fun n => HistPage n title data) p)
     ∧ ∃ mn mx, py_min data = Ok mn ∧ py_max data = Ok mx).
Proof.
  unfold hist_page, undrawable. destruct data as [|a l]; [left; auto|].
  cbn [py_min py_max mbind result_bind].
  destruct (foldl_Rmin_spec l a) as (Hmin_in & Hmin).
  destruct (foldl_Rmax_spec l a) as (Hmax_in & Hmax).
  set (mn := foldl Rmin a l) in *. set (mx := foldl Rmax a l) in *.
  pose proof (Zfloor_bound mn) as Hfl. pose proof (Zceil_bound mx) as Hce.
  assert (Hle : (mn <= mx)%R) by (apply Hmax; exact Hmin_in).
  destruct (decide (Zceil mx - Zfloor mn < 1)%Z) as [Hlt|Hge].
  - left. split; [|done]. right. exists (Zfloor mn).
    assert (Hz : (IZR (Zceil mx) <= IZR (Zfloor mn))%R) by (apply IZR_le; lia).
    apply Forall_forall. intros x Hx.
    pose proof (Hmin x Hx). pose proof (Hmax x Hx). lra.
  - right. split; [|split; [done|by exists mn, mx]].
    intros [Hnil|(z & Hall)]; [discriminate|]. apply Hge.
    rewrite Forall_forall in Hall.
    rewrite (Hall mn Hmin_in) in *. rewrite (Hall mx Hmax_in) in *.
    rewrite (Zceil_eq z), (Zfloor_eq z) by lra. lia.
Qed.

Lemma mid_flat_page_cases (labels : list string) (st : Report) (i : nat)
    (f : Frame) (label : string) :
  labels !! i = Some label →
  (undrawable f ∧ mid_flat_page labels st (i, f) = Raise ValueError)
  ∨ (¬ undrawable f ∧ ∃ st', mid_flat_page labels st (i, f) = Ok st').
Proof.
  intros Hl. unfold mid_flat_page, py_index. rewrite Hl.
  destruct (hist_page_cases (pdf st) f ("Mid-range flat frame - gain: " +:+ label))
    as [(Hu & H)|(Hu & H & mn & mx & Hmn & Hmx)].
  - left. split; [done|]. destruct f as [|a f]; [done|].
    cbn [py_min py_max mbind result_bind]. by rewrite H.
  - right. split; [done|]. rewrite Hmn, Hmx. cbn [mbind result_bind].
    rewrite H. by eexists.
Qed.

Lemma well_depth_page_cases (labels : list string) (st : Report) (i : nat)
    (f : Frame) (label : string) :
  labels !! i = Some label →
  (undrawable f ∧ well_depth_page labels st (i, f) = Raise ValueError)
  ∨ (¬ undrawable f ∧ ∃ st', well_depth_page labels st (i, f) = Ok st').
Proof.
  intros Hl. unfold well_depth_page, py_index. rewrite Hl.
  cbn [mbind result_bind pdf set_well_depth].
  destruct (hist_page_cases (pdf st) f
              ("Well depth (saturated flat frame) - gain: " +:+ label))
    as [(Hu & H)|(Hu & H & mn & mx & Hmn & Hmx)].
  - left. split; [done|]. destruct f as [|a f]; [done|].
    cbn [py_min py_max mbind result_bind]. by rewrite H.
  - right. split; [done|]. rewrite Hmn, Hmx. cbn [mbind result_bind].
    rewrite H. by eexists.
Qed.

Lemma page_loop_cases (body : Report → nat * Frame → result Report)
    (labels : list string) (frames : list Frame) (start : nat) :
  (∀ st i f label, labels !! i = Some label →
     (undrawable f ∧ body st (i, f) = Raise ValueError)
     ∨ (¬ undrawable f ∧ ∃ st', body st (i, f) = Ok st')) →
  start + length frames ≤ length labels →
  (Exists undrawable frames
   ∧ ∀ st, for_each body (zip (seq start (length frames)) frames) st
           = Raise ValueError)
  ∨ (Forall (fun f => ¬ undrawable f) frames
     ∧ ∀ st, ∃ st', for_each body (zip (seq start (length frames)) frames) st
                    = Ok st').
Proof.
  intros Hbody. revert start.
  induction frames as [|f frames IH]; intros start Hlen.
  - right. split; [constructor|]. intros st. by exists st.
  - cbn [length] in Hlen.
    destruct (lookup_lt_is_Some_2 labels start) as (label & Hl); [lia|].
    cbn [length seq zip zip_with].
    destruct (IH (S start)) as [(Hex & Hr)|(Hall & Hok)]; [lia|..].
    + left. split; [by right|]. intros st. rewrite for_each_cons.
      destruct (Hbody st start f label Hl) as [(_ & ->)|(_ & st' & ->)]; [done|].
      apply Hr.
    + destruct (hist_page_cases [] f "") as [(Hu & _)|(Hu & _)].
      * left. split; [by left|]. intros st. rewrite for_each_cons.
        destruct (Hbody st start f label Hl) as [(_ & ->)|(Hn & _)]; done.
      * right. split; [by constructor|]. intros st. rewrite for_each_cons.
        destruct (Hbody st start f label Hl) as [(Hn & _)|(_ & st' & ->)]; [done|].
        apply Hok.
Qed.

Lemma for_each_first_raise {A St : Type} (body : St → A → result St)
    (l1 l2 : list A) (a : A) (e : exn) (s : St) :
  (∀ s b, b ∈ l1 → ∃ s', body s b = Ok s') →
  (∀ s, body s a = Raise e) →
  for_each body (l1 ++ a :: l2) s = Raise e.
Proof.
  intros H1 Ha. rewrite for_each_app.
  destruct (for_each_total body l1 H1 s) as (s' & ->).
  cbn [mbind result_bind]. by rewrite for_each_cons, Ha.
Qed.

Lemma linearity_total (fl : Flats) :
  gain_label fl = flat_labels → flats_aligned fl →
  for_each (fun (_ : unit) j => _ ← linearity_points fl j; Ok tt) (seq 0 4) tt
  = Ok tt.
Proof.
  intros Hlab (_ & _ & Ht & Hs & _). rewrite Hlab in Ht, Hs.
  destruct (for_each_total
              (fun (_ : unit) j => _ ← linearity_points fl j; Ok tt)
              (seq 0 4)) with (s := tt) as ([] & H); [|exact H].
  intros [] j Hj. apply elem_of_seq in Hj. exists tt.
  unfold linearity_points, py_index. rewrite Hlab.
  destruct (lookup_lt_is_Some_2 (exp_times fl) j) as (t & ->); [simpl in *; lia|].
  destruct (lookup_lt_is_Some_2 (med_sig fl) j) as (s & ->); [simpl in *; lia|].
  destruct (lookup_lt_is_Some_2 flat_labels j) as (l & ->); [simpl; lia|]. done.
Qed.

(** X14.  Once the flats of the three gain modes are loaded, the flat
    section can fail in two ways only.  A mid-range or saturated frame
    that [hist_page] cannot draw (all pixels at one integer value) ends
    the section in [ValueError].  Otherwise the eight pages are drawn, the
    linearity plot never fails, and the section completes exactly when
    the fit of each of the four channels returns; when the fit of a
    channel raises and those of the channels before it returned, the
    section ends in that very exception. *)
Theorem flat_section_failures (E : Env) (prefix : string) (fl : Flats)
    (st : Report) :
  flat_load E prefix = Ok fl →
  (Exists undrawable (mid_flats fl ++ sat_flats fl) →
   flat_analysis E prefix st = Raise ValueError)
  ∧ ((∃ st', flat_analysis E prefix st = Ok (st', flat_labels))
     ↔ Forall (fun f => ¬ undrawable f) (mid_flats fl ++ sat_flats fl)
       ∧ ∀ j, j < 4 → ∃ k, ptc_gain E fl j = Ok k)
  ∧ (Forall (fun f => ¬ undrawable f) (mid_flats fl ++ sat_flats fl) →
     ∀ j e, j < 4 → ptc_gain E fl j = Raise e →
       (∀ i, i < j → ∃ k, ptc_gain E fl i = Ok k) →
       flat_analysis E prefix st = Raise e).
Proof.
  intros Hload.
  pose proof (flat_load_Ok E prefix fl Hload) as (Hlab & Hal & _).
  pose proof Hal as (Hsat & Hmid & _). rewrite Hlab in Hsat, Hmid.
  pose proof (linearity_total fl Hlab Hal) as Hlin.
  assert (Hptc_ok : ∀ s j, j < 4 → (∃ k, ptc_gain E fl j = Ok k) →
            ∃ s', ptc_channel E fl s j = Ok s').
  { intros s j Hj (k & Hk). unfold ptc_channel, py_index. rewrite Hk, Hlab.
    destruct (lookup_lt_is_Some_2 flat_labels j) as (l & ->); [simpl; lia|].
    by eexists. }
  unfold flat_analysis, flat_report. rewrite Hload.
  cbn [mbind result_bind]. rewrite Hlab. unfold enumerate.
  destruct (page_loop_cases (mid_flat_page flat_labels) flat_labels (mid_flats fl) 0
              (mid_flat_page_cases flat_labels)) as [(Hex1 & Hr1)|(Hall1 & Hok1)];
    [simpl in *; lia|..].
  { (* a mid-range frame cannot be drawn *)
    rewrite Hr1. cbn [mbind result_bind]. split; [done|]. split; [split|].
    - by intros (st' & ?).
    - intros (Hall & _). apply Forall_app in Hall as (Hall & _).
      apply Exists_exists in Hex1 as (f & Hf & Hu).
      rewrite Forall_forall in Hall. by destruct (Hall f Hf).
    - intros Hall. apply Forall_app in Hall as (Hall & _).
      apply Exists_exists in Hex1 as (f & Hf & Hu).
      rewrite Forall_forall in Hall. by destruct (Hall f Hf). }
  destruct (Hok1 st) as (s1 & ->). cbn [mbind result_bind].
  destruct (page_loop_cases (well_depth_page flat_labels) flat_labels (sat_flats fl) 0
              (well_depth_page_cases flat_labels)) as [(Hex2 & Hr2)|(Hall2 & Hok2)];
    [simpl in *; lia|..].
  { (* a saturated frame cannot be drawn *)
    rewrite Hr2. cbn [mbind result_bind]. split; [done|]. split; [split|].
    - by intros (st' & ?).
    - intros (Hall & _). apply Forall_app in Hall as (_ & Hall).
      apply Exists_exists in Hex2 as (f & Hf & Hu).
      rewrite Forall_forall in Hall. by destruct (Hall f Hf).
    - intros Hall. apply Forall_app in Hall as (_ & Hall).
      apply Exists_exists in Hex2 as (f & Hf & Hu).
      rewrite Forall_forall in Hall. by destruct (Hall f Hf). }
  destruct (Hok2 s1) as (s2 & ->). cbn [mbind result_bind].
  rewrite Hlin. cbn [mbind result_bind].
  assert (Hdraw : Forall (fun f => ¬ undrawable f) (mid_flats fl ++ sat_flats fl))
    by (by apply Forall_app).
  split; [|split; [split|]].
  - intros Hex. apply Exists_exists in Hex as (f & Hf & Hu).
    rewrite Forall_forall in Hdraw. by destruct (Hdraw f Hf).
  - intros (st' & H). split; [done|]. intros j Hj.
    destruct (for_each (ptc_channel E fl) (seq 0 4) s2) as [s3|e] eqn:Hloop;
      [|discriminate].
    destruct (ptc_loop_Ok E fl s2 s3 Hlab Hloop) as (_ & Hin & _).
    destruct (lookup_lt_is_Some_2 flat_labels j) as (l & Hl); [simpl; lia|].
    destruct (Hin j l Hl) as (k & Hk & _). by exists k.
  - intros (_ & Hfit).
    destruct (for_each_total (ptc_channel E fl) (seq 0 4)) with (s := s2)
      as (s3 & ->); [|by eexists].
    intros s j Hj. apply elem_of_seq in Hj. apply Hptc_ok; [lia|]. apply Hfit. lia.
  - intros _ j e Hj He Hbefore.
    assert (Hseq : seq 0 4 = seq 0 j ++ j :: seq (S j) (3 - j)).
    { replace 4 with (j + S (3 - j)) at 1 by lia. by rewrite seq_app. }
    rewrite Hseq, (for_each_first_raise _ _ _ j e); [done| |].
    + intros s i Hi. apply elem_of_seq in Hi. apply Hptc_ok; [lia|].
      apply Hbefore. lia.
    + intros s. unfold ptc_channel. by rewrite He.
Qed.

Lemma pixel_drawable : ¬ undrawable Sample.pixel.
Proof.
  intros [H|(z & H)]; [discriminate|].
  apply Forall_cons in H as (H & _).
  assert (Hz : IZR (2 * z) = IZR 1) by (rewrite mult_IZR; lra).
  apply eq_IZR in Hz. lia.
Qed.

Lemma flat_section_failures_witness :
  ∃ st', flat_analysis (Sample.env 10000 1) "data/cam_det" Sample.blank
         = Ok (st', flat_labels).
Proof.
  assert (Hload : flat_load (Sample.env 10000 1) "data/cam_det"
                  = Ok (Sample.flats 10000)) by (apply sample_flat_load; lra).
  apply (proj2 (proj1 (proj2 (flat_section_failures (Sample.env 10000 1)
            "data/cam_det" (Sample.flats 10000) Sample.blank Hload)))).
  split.
  - repeat constructor; apply pixel_drawable.
  - intros j Hj. exists Sample.k. apply sample_ptc_gain; [lra|lia].
Defined.

(** ** Further properties: the title page *)

Lemma split_last (sep : ascii) (body stamp : string) :
  contains (String sep EmptyString) stamp = false →
  ∃ pre, pre ≠ [] ∧ split sep (body +:+ String sep stamp) = pre ++ [stamp].
Proof.
  intros Hs. induction body as [|c body (pre & Hne & IH)].
  - exists [EmptyString]. split; [done|]. simpl.
    by rewrite decide_True, (split_no_sep sep stamp Hs).
  - change (String c body +:+ String sep stamp)
      with (String c (body +:+ String sep stamp)).
    cbn [split]. rewrite IH. destruct (decide (c = sep)).
    + by exists (EmptyString :: pre).
    + destruct pre as [|w pre]; [done|]. by exists (String c w :: pre).
Qed.

Lemma substring_date (y m d rest : string) :
  String.length y = 4 → String.length m = 2 → String.length d = 2 →
  substring 0 4 (y +:+ m +:+ d +:+ rest) = y
  ∧ substring 4 2 (y +:+ m +:+ d +:+ rest) = m
  ∧ substring 6 2 (y +:+ m +:+ d +:+ rest) = d.
Proof.
  intros Hy Hm Hd.
  destruct y as [|y1 [|y2 [|y3 [|y4 [|? ?]]]]]; try discriminate.
  destruct m as [|m1 [|m2 [|? ?]]]; try discriminate.
  destruct d as [|d1 [|d2 [|? ?]]]; try discriminate.
  by destruct rest.
Qed.

(** X15.  The first page of a report that is written is the title page.
    It names the detector and the camera, the firmware of the first file
    listed, which is opened as an exposure at [os.path.join] of the
    directory and its name whatever kind of file it is, and the sections
    present, one line each in the order bias, dark, flat.  The temperature
    is shown as measured only when the exposure reports one strictly above
    zero; a temperature of zero or below is replaced by the assumed one.
    The date is cut out of the last underscore-separated field of the
    first file name: a field that starts with [YYYYMMDD] gives
    [YYYY-MM-DD]. *)
Theorem title_page (E : Env) (dirname : string) (files : list string)
    (path : string) (st : Report) :
  write_report E dirname files = Ok (path, st) →
  ∃ f0 exp git camera detid datestring temp,
    files !! 0 = Some f0
    ∧ split "_" f0 !! 0 = Some camera ∧ split "_" f0 !! 1 = Some detid
    ∧ Exposure_open E (path_join dirname f0) = Ok exp
    ∧ git_hash E = Ok git
    ∧ pdf st !! 0
      = Some (TitlePage 1 detid camera datestring (firmware exp) temp (now E) git
                (contents (scan_files files)))
    ∧ ((0 < temperature exp)%R → temp = Some (temperature exp))
    ∧ ((temperature exp <= 0)%R → temp = None)
    ∧ contents (scan_files files)
      = (if existsb (contains "bias") files then ["- Bias frames"] else [])
        ++ (if existsb (contains "dark") files
            then ["- Standard operating dark frames"] else [])
        ++ (if existsb (contains "flat") files
            then ["- Flat fields vs exposure time"] else [])
    ∧ (∀ body y m d rest,
         f0 = body +:+ "_" +:+ (y +:+ m +:+ d +:+ rest) →
         String.length y = 4 → String.length m = 2 → String.length d = 2 →
         contains "_" (y +:+ m +:+ d +:+ rest) = false →
         datestring = y +:+ "-" +:+ m +:+ "-" +:+ d).
Proof.
  unfold write_report, write_report_with. intros H.
  apply bind_Ok in H as (f0 & Hf0 & H). apply bind_Ok in H as (camera & Hc & H).
  apply bind_Ok in H as (detid & Hd & H). apply bind_Ok in H as (exp & He & H).
  apply bind_Ok in H as (git & Hg & H). apply bind_Ok in H as (st' & Hrun & H).
  injection H as _ <-. apply py_index_Ok in Hf0, Hc, Hd.
  eexists f0, exp, git, camera, detid, _, _.
  split; [done|]. split; [done|]. split; [done|]. split; [exact He|]. split; [done|]. split; [|split; [|split; [|split]]].
  - assert (Htake : take 1 (pdf st') !! 0 = pdf st' !! 0) by (by destruct (pdf st')).
    rewrite <- Htake.
    erewrite run_sections_first_page;
      [reflexivity|reflexivity|reflexivity|reflexivity| |exact Hrun]. reflexivity.
  - intros Ht. by rewrite decide_True.
  - intros Ht. rewrite decide_False; [done|lra].
  - by rewrite scan_files_spec.
  - intros body y m d rest -> Hy Hm Hdd Hno.
    change (body +:+ "_" +:+ y +:+ m +:+ d +:+ rest)
      with (body +:+ String "_" (y +:+ m +:+ d +:+ rest)).
    destruct (split_last "_" body _ Hno) as (pre & _ & ->).
    rewrite List.last_last.
    destruct (substring_date y m d rest Hy Hm Hdd) as (-> & -> & ->). done.
Qed.

Lemma title_page_witness :
  ∃ st exp git temp,
    write_report (Sample.env 10000 1) "data" Sample.files
    = Ok ("data/cam_det_analysis_report.pdf", st)
    ∧ pdf st !! 0
      = Some (TitlePage 1 "det" "cam" "2024-04-13" (firmware exp) temp
                "2024-04-13 12:00:00" git
                ["- Bias frames"; "- Standard operating dark frames";
                 "- Flat fields vs exposure time"]).
Proof.
  destruct (sample_write_report 10000 1) as (st & H); [lra|].
  destruct (title_page _ _ _ _ _ H)
    as (f0 & exp & git & camera & detid & date & temp
        & Hf0 & Hc & Hdet & _ & _ & Hp & _ & _ & _ & Hd).
  injection Hf0 as <-. injection Hc as <-. injection Hdet as <-.
  exists st, exp, git, temp. split; [exact H|].
  rewrite Hp.
  rewrite (Hd "cam_det_bias_hdr" "2024" "04" "13" ".fits" eq_refl eq_refl eq_refl
             eq_refl eq_refl).
  reflexivity.
Defined.

(** ** Further properties: the dark current a run reports *)

Lemma dark_analysis_values (E : Env) (prefix : string) (st st' : Report) :
  dark_analysis E prefix st = Ok st' →
  ∃ d,
    for_each (dark_load E) (dark_prefixes prefix "FUVdark" 900 9) no_stacks = Ok d
    ∧ dark_current st'
      = <["high (dual-gain)" :=
            (np.median (np.median_axis0 (long_high d)) / 900)%R]>
          (<["low (dual-gain)" :=
               (np.median (np.median_axis0 (long_low d)) / 900)%R]>
             (dark_current st)).
Proof.
  unfold dark_analysis, dark_modes. intros H.
  loop_step H s1 H1. loop_step H s2 H2. loop_step H s3 H3.
  rewrite for_each_nil in H. injection H as H; subst s3.
  apply dark_mode_Ok in H1 as (d1 & t1 & L1 & P1 & ->).
  apply dark_mode_Ok in H2 as (d2 & t2 & _ & P2 & ->).
  apply dark_mode_Ok in H3 as (d3 & t3 & _ & P3 & ->).
  apply dark_pages_Ok in P1 as (D1 & _). apply dark_pages_Ok in P2 as (D2 & _).
  apply dark_pages_Ok in P3 as (D3 & _).
  rewrite decide_True in D1 by done.
  rewrite decide_False in D2 by done. rewrite decide_False in D3 by done.
  cbn [set_pdf dark_current] in *.
  unfold dark_durations in L1. rewrite decide_True in L1 by done.
  cbn [fst snd] in L1.
  exists d1. split; [exact L1|]. congruence.
Qed.

(** X16.  In a run that has dark and flat exposures and completes, the
    dark current reported for each dual-gain channel is the median pixel
    of the median frame of the nine 900 s FUV darks of that channel,
    divided by 900 s and multiplied by the gain fitted for that channel
    from the dual-gain flats; no other channel gets a dark current, and
    the NUV and guiding darks do not enter the number.  The summary table
    prints it multiplied by 1000. *)
Theorem reported_dark_current (E : Env) (dirname : string) (files : list string)
    (path : string) (st : Report) (bias_present : bool) :
  write_report E dirname files = Ok (path, st) →
  scan_files files = (bias_present, true, true) →
  ∃ f0 camera detid d fl kh kl,
    files !! 0 = Some f0
    ∧ split "_" f0 !! 0 = Some camera ∧ split "_" f0 !! 1 = Some detid
    ∧ for_each (dark_load E)
        (dark_prefixes (dirname +:+ "/" +:+ camera +:+ "_" +:+ detid)
           "FUVdark" 900 9) no_stacks = Ok d
    ∧ flat_load E (dirname +:+ "/" +:+ camera +:+ "_" +:+ detid) = Ok fl
    ∧ ptc_gain E fl 0 = Ok kh ∧ ptc_gain E fl 1 = Ok kl
    ∧ dark_current st
      = <["high (dual-gain)" :=
            (np.median (np.median_axis0 (long_high d)) / 900 * kh)%R]>
          (<["low (dual-gain)" :=
               (np.median (np.median_axis0 (long_low d)) / 900 * kl)%R]> ∅)
    ∧ summary_rows flat_labels st !! 0
      = Some ("high (dual-gain)", det_gain st !! "high (dual-gain)",
              read_noise st !! "high (dual-gain)",
              Some (np.median (np.median_axis0 (long_high d)) / 900 * kh * 1000)%R,
              well_depth st !! "high (dual-gain)").
Proof.
  intros H Hscan.
  apply write_report_inv in H
    as (f0 & camera & detid & exp & git & title & Hf0 & Hcam & Hdet & _ & _ & _ & _ & H).
  rewrite Hscan in H.
  apply run_sections_Ok in H as (s1 & s2 & s3 & labels & Hb & Hd & Hf & Hst).
  set (prefix := dirname +:+ "/" +:+ camera +:+ "_" +:+ detid) in *.
  assert (D1 : dark_current s1 = ∅).
  { destruct bias_present; [|by injection Hb as <-].
    by apply bias_analysis_others in Hb as (_ & -> & _). }
  apply dark_analysis_values in Hd as (d & Hloads & D2).
  apply flat_analysis_Ok in Hf as (fl & Hload & Hrep & ->).
  pose proof (flat_load_Ok E prefix fl Hload) as (Hlab & (Hsat & _) & _).
  apply flat_report_Ok in Hrep as (t1 & t2 & t3 & P1 & P2 & P3 & ->).
  apply mid_flat_pages_Ok in P1 as (_ & _ & E1 & _).
  apply well_depth_pages_Ok in P2 as (_ & _ & _ & E2); [|done].
  destruct (ptc_loop_Ok E fl t2 t3 Hlab P3) as (_ & Hin & Hout).
  destruct (Hin 0 "high (dual-gain)" eq_refl) as (kh & Hkh & _ & _ & Dh & _).
  destruct (Hin 1 "low (dual-gain)" eq_refl) as (kl & Hkl & _ & _ & Dl & _).
  assert (Hdc : dark_current t3
            = <["high (dual-gain)" :=
                  (np.median (np.median_axis0 (long_high d)) / 900 * kh)%R]>
                (<["low (dual-gain)" :=
                     (np.median (np.median_axis0 (long_low d)) / 900 * kl)%R]> ∅)).
  { apply map_eq. intros l.
    destruct (decide (l = "high (dual-gain)")) as [->|Hh].
    { rewrite Dh, E2, E1, D2, !lookup_insert_eq. done. }
    destruct (decide (l = "low (dual-gain)")) as [->|Hl].
    { rewrite Dl, E2, E1, D2. rewrite lookup_insert_ne by done.
      rewrite lookup_insert_eq. rewrite lookup_insert_ne by done.
      by rewrite lookup_insert_eq. }
    rewrite !lookup_insert_ne by done. rewrite lookup_empty.
    assert (Hnone : dark_current t2 !! l = None).
    { rewrite E2, E1, D2, !lookup_insert_ne by done. by rewrite D1. }
    destruct (decide (l ∈ flat_labels)) as [Hlin|Hlin].
    - apply list_elem_of_lookup_1 in Hlin as (j & Hj).
      destruct (Hin j l Hj) as (k & _ & _ & _ & Dj & _). by rewrite Dj, Hnone.
    - destruct (Hout l Hlin) as (_ & _ & Dj & _). by rewrite Dj, Hnone. }
  assert (Hfinal : dark_current st = dark_current t3).
  { rewrite Hst. by destruct (bias_present && true && true). }
  exists f0, camera, detid, d, fl, kh, kl.
  do 7 (split; [done|]). split; [by rewrite Hfinal|].
  unfold summary_rows. cbn [fmap list_fmap flat_labels lookup list_lookup].
  rewrite Hfinal, Hdc, lookup_insert_eq. done.
Qed.

Lemma reported_dark_current_witness :
  ∃ st, write_report (Sample.env 10000 1) "data" Sample.files
        = Ok ("data/cam_det_analysis_report.pdf", st)
        ∧ dom (dark_current st) = {["high (dual-gain)"; "low (dual-gain)"]}.
Proof.
  destruct (sample_write_report 10000 1) as (st & H); [lra|].
  exists st. split; [exact H|].
  destruct (reported_dark_current _ _ _ _ _ true H eq_refl)
    as (f0 & camera & detid & d & fl & kh & kl & _ & _ & _ & _ & _ & _ & _ & HD & _).
  rewrite HD, !dom_insert_L, dom_empty_L. set_solver.
Defined.

(** ** The dark current of constant frames (claim C3) *)

Lemma np_stack_cases (fs : list Frame) :
  np.stack fs = Ok fs ∨ np.stack fs = Raise ValueError.
Proof.
  unfold np.stack. destruct fs as [|f fs]; [by right|].
  destruct (decide _); [by left|by right].
Qed.

Lemma dark_page_cases (mode : string) (times : list Z) (st : Report) (j : nat)
    (f : Frame) (name : string) (t : Z) :
  dark_names !! j = Some name → times !! j = Some t →
  (undrawable f ∧ dark_page mode times st (j, f) = Raise ValueError)
  ∨ (¬ undrawable f ∧ ∃ st', dark_page mode times st (j, f) = Ok st').
Proof.
  intros Hn Ht. unfold dark_page, py_index. rewrite Hn, Ht.
  cbn [mbind result_bind pdf set_dark_current].
  destruct (hist_page_cases (pdf st) f
              ("Dark frames - " +:+ mode +:+ " mode - " +:+ name +:+ " frame"))
    as [(Hu & H)|(Hu & H & mn & mx & Hmn & Hmx)].
  - left. split; [done|]. destruct f as [|a f]; [done|].
    cbn [py_min py_max mbind result_bind]. by rewrite H.
  - right. split; [done|]. rewrite Hmn, Hmx. cbn [mbind result_bind].
    rewrite H. by eexists.
Qed.

Lemma constant_integer_undrawable (n : nat) (z : Z) :
  undrawable (replicate n (IZR z)).
Proof. right. exists z. apply Forall_forall. by intros x [-> _]%elem_of_replicate. Qed.

(** C3.  For nine identical long FUVdark exposures with every pixel at
    [V], the value the dark section assigns to each dual-gain channel is
    [V / 900].  When [V] is an integer the two entries are nevertheless
    never reported: the page of the long low-gain frame is drawn by
    [hist_page], whose second histogram then has zero bins, so the page,
    the FUVdark page loop and the whole dark section end in [ValueError],
    whatever the short exposures and the state before are; the high-gain
    entry is not even assigned. *)
Theorem constant_integer_darks_abort (E : Env) (prefix : string) (st : Report)
    (d : DarkStacks) (z : Z) (n : nat) :
  0 < n →
  for_each (dark_load E) (dark_prefixes prefix "FUVdark" 900 9) no_stacks = Ok d →
  long_low d = replicate 9 (replicate n (IZR z)) →
  long_high d = replicate 9 (replicate n (IZR z)) →
  (∀ dc,
     dark_assign "FUVdark" "long low-gain"
       (np.median (np.median_axis0 (long_low d))) 900 dc
     = <["low (dual-gain)" := (IZR z / 900)%R]> dc
     ∧ dark_assign "FUVdark" "long high-gain"
         (np.median (np.median_axis0 (long_high d))) 900 dc
       = <["high (dual-gain)" := (IZR z / 900)%R]> dc)
  ∧ (∀ st0, dark_page "FUVdark" [9; 9; 900; 900]%Z st0
              (2, np.median_axis0 (long_low d)) = Raise ValueError)
  ∧ dark_pages "FUVdark" d st = Raise ValueError
  ∧ dark_mode E prefix st "FUVdark" = Raise ValueError
  ∧ dark_analysis E prefix st = Raise ValueError.
Proof.
  intros Hn Hloads Hlow Hhigh.
  assert (Hml : np.median_axis0 (long_low d) = replicate n (IZR z)).
  { rewrite Hlow. apply median_axis0_constant. lia. }
  assert (Hmh : np.median_axis0 (long_high d) = replicate n (IZR z)).
  { rewrite Hhigh. apply median_axis0_constant. lia. }
  assert (Hpage : ∀ st0, dark_page "FUVdark" [9; 9; 900; 900]%Z st0
                           (2, np.median_axis0 (long_low d)) = Raise ValueError).
  { intros st0. rewrite Hml.
    destruct (dark_page_cases "FUVdark" [9; 9; 900; 900]%Z st0 2
                (replicate n (IZR z)) "long low-gain" 900 eq_refl eq_refl)
      as [(_ & H)|(Hu & _)]; [exact H|].
    destruct Hu. apply constant_integer_undrawable. }
  assert (Hpages : dark_pages "FUVdark" d st = Raise ValueError).
  { unfold dark_pages, dark_durations, dark_frames.
    rewrite decide_True by done.
    rewrite Hhigh at 1. rewrite (np_stack_replicate 8). cbn [mbind result_bind].
    rewrite Hlow at 1. rewrite (np_stack_replicate 8). cbn [mbind result_bind].
    destruct (np_stack_cases (short_high d)) as [->| ->]; [|done].
    cbn [mbind result_bind].
    destruct (np_stack_cases (short_low d)) as [->| ->]; [|done].
    cbn [mbind result_bind]. unfold enumerate. cbn [length seq zip zip_with].
    rewrite for_each_cons.
    destruct (dark_page_cases "FUVdark" [9; 9; 900; 900]%Z st 0
                (np.median_axis0 (short_low d)) "short low-gain" 9 eq_refl eq_refl)
      as [(_ & ->)|(_ & s1 & ->)]; [done|].
    cbn [mbind result_bind]. rewrite for_each_cons.
    destruct (dark_page_cases "FUVdark" [9; 9; 900; 900]%Z s1 1
                (np.median_axis0 (short_high d)) "short high-gain" 9 eq_refl eq_refl)
      as [(_ & ->)|(_ & s2 & ->)]; [done|].
    cbn [mbind result_bind]. rewrite for_each_cons.
    replace (np.median_axis0 (replicate 9 (replicate n (IZR z))))
      with (np.median_axis0 (long_low d)) by (by rewrite Hlow).
    by rewrite Hpage. }
  assert (Hmode : dark_mode E prefix st "FUVdark" = Raise ValueError).
  { unfold dark_mode, dark_durations. rewrite decide_True by done.
    rewrite Hloads. cbn [mbind result_bind]. by rewrite Hpages. }
  split; [|split; [exact Hpage|split; [exact Hpages|split; [exact Hmode|]]]].
  - intros dc. unfold dark_assign. rewrite Hml, Hmh, median_replicate by lia.
    split.
    + by rewrite decide_True.
    + rewrite decide_False by (by intros [_ ?]). by rewrite decide_True.
  - unfold dark_analysis, dark_modes. rewrite for_each_cons. by rewrite Hmode.
Qed.

Lemma constant_integer_darks_abort_witness :
  dark_analysis (Synthetic.env 1 900) "data/cam_det" Sample.blank
  = Raise ValueError.
Proof.
  refine (proj2 (proj2 (proj2 (proj2
    (constant_integer_darks_abort (Synthetic.env 1 900) "data/cam_det"
       Sample.blank
       {| short_low := replicate 9 [900%R]; short_high := replicate 9 [900%R];
          long_low := replicate 9 [900%R]; long_high := replicate 9 [900%R];
          s_starts := replicate 9 0%R; l_starts := replicate 9 0%R |}
       900 1 _ _ _ _))))).
  - lia.
  - reflexivity.
  - reflexivity.
  - reflexivity.
Defined.

(** ** The mid-range exposure and the samples of the fit (claim C4) *)

(** C4.  For a gain mode that the flat analyzer gets through, the
    mid-range flat of each channel is the frame of the first exposure, in
    loading order, whose median signal in that channel is strictly
    between 5000 and 15000 ADU, and the mid-range time is the exposure
    time of that exposure; an exposure whose median is exactly 5000 or
    exactly 15000 is never the one chosen.  The signals the fit of a
    channel is given are exactly the median signals strictly below 15000,
    with their variances; a sample at exactly 15000 is left out. *)
Theorem mid_range_and_unsaturated_strict (E : Env) (prefix : string)
    (acc acc' : Flats) (g : string) :
  flat_gain E prefix acc g = Ok acc' →
  ∃ frames,
    load_by_file_prefix E (prefix +:+ "_flat_" +:+ g) = Ok frames
    ∧ (g = "hdr" →
       ∃ hi li eh el fh fl,
         mid_exp_i ((fun ff => chan_hi (get_median ff (full_frame ff))) <$> frames)
         = Ok hi
         ∧ mid_exp_i ((fun ff => chan_lo (get_median ff (full_frame ff))) <$> frames)
           = Ok li
         ∧ first_mid_range
             ((fun ff => chan_hi (get_median ff (full_frame ff))) <$> frames) hi
         ∧ first_mid_range
             ((fun ff => chan_lo (get_median ff (full_frame ff))) <$> frames) li
         ∧ frames !! hi = Some eh ∧ frames !! li = Some el
         ∧ cds_first_dual eh = Ok fh ∧ cds_first_dual el = Ok fl
         ∧ mid_flats acc' = mid_flats acc ++ [fh.1; fl.2]
         ∧ mid_flat_times acc' = mid_flat_times acc ++ [exp_time eh; exp_time el]
         ∧ med_sig acc'
           = med_sig acc
             ++ [(fun ff => chan_hi (get_median ff (full_frame ff))) <$> frames;
                 (fun ff => chan_lo (get_median ff (full_frame ff))) <$> frames]
         ∧ var acc'
           = var acc
             ++ [(fun ff => chan_hi (get_variance ff (full_frame ff))) <$> frames;
                 (fun ff => chan_lo (get_variance ff (full_frame ff))) <$> frames])
    ∧ (g ≠ "hdr" →
       ∃ mi em fm,
         mid_exp_i ((fun ff => chan_hi (get_median ff (full_frame ff))) <$> frames)
         = Ok mi
         ∧ first_mid_range
             ((fun ff => chan_hi (get_median ff (full_frame ff))) <$> frames) mi
         ∧ frames !! mi = Some em
         ∧ cds_first_mono em = Ok fm
         ∧ mid_flats acc' = mid_flats acc ++ [fm]
         ∧ mid_flat_times acc' = mid_flat_times acc ++ [exp_time em]
         ∧ med_sig acc'
           = med_sig acc
             ++ [(fun ff => chan_hi (get_median ff (full_frame ff))) <$> frames]
         ∧ var acc'
           = var acc
             ++ [(fun ff => chan_hi (get_variance ff (full_frame ff))) <$> frames])
    ∧ (∀ medians i, mid_exp_i medians = Ok i ↔ first_mid_range medians i)
    ∧ (∀ medians i,
         medians !! i = Some 5000%R ∨ medians !! i = Some 15000%R →
         mid_exp_i medians ≠ Ok i)
    ∧ (∀ fl j s vs, med_sig fl !! j = Some s → var fl !! j = Some vs →
         ∃ sig v,
           sig = filter (fun m => (m < 15000)%R) s
           ∧ ptc_samples fl j = Ok (sig, v)
           ∧ (∀ m, m ∈ sig ↔ m ∈ s ∧ (m < 15000)%R)
           ∧ (15000%R ∉ sig)
           ∧ (length s = length vs →
              zip sig v = filter (fun p => (p.1 < 15000)%R) (zip s vs))
           ∧ ptc_gain E fl j
             = (noise_floor ← py_min v;
                r ← fit E ptc_model sig ((fun x => (x - noise_floor)%R) <$> v) 100;
                Ok (5000 / PowerLaw1D_eval r.1 5000)%R))
    ∧ (∀ fl j, med_sig fl !! j = None ∨ var fl !! j = None →
         is_raise (ptc_samples fl j) ∧ is_raise (ptc_gain E fl j)).
Proof.
  unfold flat_gain. intros H.
  apply bind_Ok in H as (frames & Hload & H).
  apply bind_Ok in H as (mx & _ & H). apply bind_Ok in H as (i & _ & H).
  exists frames. split; [done|].
  split; [|split; [|split; [|split; [|split]]]].
  - intros Hg. rewrite decide_True in H by done.
    apply bind_Ok in H as (sat & _ & H).
    apply bind_Ok in H as ([mh ml] & Hm & H).
    apply bind_Ok in H as ([vh vl] & Hv & H).
    apply bind_Ok in H as (hi & Hhi & H). apply bind_Ok in H as (li & Hli & H).
    apply bind_Ok in H as (th & Hth & H). apply bind_Ok in H as (tl & Htl & H).
    apply bind_Ok in H as (fh & Hfh & H). apply bind_Ok in H as (fl & Hfl & H).
    injection H as <-.
    apply dual_columns_Ok in Hm as [-> ->]. apply dual_columns_Ok in Hv as [-> ->].
    rewrite <- !list_fmap_compose in *.
    apply bind_Ok in Hfh as (eh & Heh & Hfh). apply bind_Ok in Hfl as (el & Hel & Hfl).
    apply py_index_Ok in Heh, Hel, Hth, Htl.
    rewrite list_lookup_fmap, Heh in Hth. rewrite list_lookup_fmap, Hel in Htl.
    injection Hth as <-. injection Htl as <-.
    exists hi, li, eh, el, fh, fl. cbn [mid_flats mid_flat_times med_sig var].
    split; [exact Hhi|]. split; [exact Hli|].
    split; [by apply mid_exp_i_Ok in Hhi|]. split; [by apply mid_exp_i_Ok in Hli|].
    done.
  - intros Hg. rewrite decide_False in H by done.
    apply bind_Ok in H as (sat & _ & H).
    apply bind_Ok in H as (med & Hm & H). apply bind_Ok in H as (vs & Hv & H).
    apply bind_Ok in H as (mi & Hmi & H). apply bind_Ok in H as (fm & Hfm & H).
    apply bind_Ok in H as (t & Ht & H). injection H as <-.
    apply mono_column_Ok in Hm as ->. apply mono_column_Ok in Hv as ->.
    rewrite <- !list_fmap_compose in *.
    apply bind_Ok in Hfm as (em & Hem & Hfm). apply py_index_Ok in Hem, Ht.
    rewrite list_lookup_fmap, Hem in Ht. injection Ht as <-.
    exists mi, em, fm. cbn [mid_flats mid_flat_times med_sig var].
    split; [exact Hmi|]. split; [by apply mid_exp_i_Ok in Hmi|]. done.
  - intros medians i'. apply mid_exp_i_Ok.
  - intros medians i' Hi Hok. apply mid_exp_i_Ok in Hok as ((m & Hm & Hin) & _).
    rewrite Hm in Hi. destruct Hi as [[= ->]|[= ->]]; lra.
  - intros fl j s vs Hs Hv.
    exists (filter (fun m => (m < 15000)%R) s), (mask_select vs (unsaturated_mask s)).
    split; [done|].
    assert (Hsamples : ptc_samples fl j
              = Ok (filter (fun m => (m < 15000)%R) s,
                    mask_select vs (unsaturated_mask s))).
    { unfold ptc_samples, py_index. rewrite Hs, Hv. cbn [mbind result_bind].
      by rewrite mask_select_unsaturated. }
    split; [exact Hsamples|]. split; [|split; [|split]].
    + intros m. rewrite list_elem_of_filter. tauto.
    + rewrite list_elem_of_filter. intros [Hlt _]. lra.
    + intros Hlen. rewrite <- mask_select_unsaturated.
      by apply mask_select_pairs.
    + unfold ptc_gain. rewrite Hsamples. cbn [mbind result_bind].
      destruct (py_min _) as [nf|e]; [|done]. cbn [mbind result_bind].
      destruct (fit E ptc_model _ _ 100) as [[mf ierr]|e]; done.
  - intros fl j Hnone.
    assert (Hs : is_raise (ptc_samples fl j)).
    { unfold ptc_samples, py_index. destruct Hnone as [-> | Hv]; [done|].
      rewrite Hv. by destruct (med_sig fl !! j). }
    split; [exact Hs|]. unfold ptc_gain.
    by destruct (ptc_samples fl j).
Qed.

Lemma ramp_flat_gain :
  flat_gain Ramp.env "data/cam_det" no_flats "high"
  = Ok {| gain_label := ["high"]; sat_flats := [[20000%R]];
          mid_flats := [[10000%R]]; mid_flat_times := [2%R];
          exp_times := [[1; 2; 3; 4]%R];
          med_sig := [[5000; 10000; 15000; 20000]%R];
          var := [[5000 / 2; 10000 / 2; 15000 / 2; 20000 / 2]%R] |}.
Proof.
  assert (Hmid : mid_exp_i [5000; 10000; 15000; 20000]%R = Ok 1).
  { apply mid_exp_i_Ok. split.
    - exists 10000%R. split; [done|lra].
    - intros q m' Hq Hm'. destruct q as [|q]; [|lia].
      injection Hm' as <-. lra. }
  assert (Hmax : np_argmax [1; 2; 3; 4]%R = Ok 3).
  { unfold np_argmax. cbn [argmax_from].
    rewrite decide_True by lra. rewrite decide_True by lra.
    by rewrite decide_True by lra. }
  unfold flat_gain. cbn [load_by_file_prefix Ramp.env mbind result_bind].
  change (exp_time <$> Ramp.frames) with [1; 2; 3; 4]%R.
  rewrite Hmax. cbn [py_max mbind result_bind].
  rewrite decide_False by done.
  change ((fun ff => get_median ff (full_frame ff)) <$> Ramp.frames)
    with [Mono 5000%R; Mono 10000%R; Mono 15000%R; Mono 20000%R].
  change ((fun ff => get_variance ff (full_frame ff)) <$> Ramp.frames)
    with [Mono (5000 / 2)%R; Mono (10000 / 2)%R; Mono (15000 / 2)%R;
          Mono (20000 / 2)%R].
  cbn [mono_column as_mono mbind result_bind]. rewrite Hmid.
  reflexivity.
Qed.

Lemma mid_range_and_unsaturated_strict_witness :
  ∃ acc' mi v,
    flat_gain Ramp.env "data/cam_det" no_flats "high" = Ok acc'
    ∧ first_mid_range [5000; 10000; 15000; 20000]%R mi
    ∧ mi = 1
    ∧ mid_flats acc' = [[10000%R]]
    ∧ ptc_samples acc' 0 = Ok ([5000; 10000]%R, v).
Proof.
  destruct (mid_range_and_unsaturated_strict Ramp.env "data/cam_det" no_flats _
              "high" ramp_flat_gain)
    as (frames & Hload & _ & Hmono & _ & _ & Hfit & _).
  injection Hload as <-.
  destruct (Hmono ltac:(done)) as (mi & em & fm & _ & Hfirst & _ & _ & Hmf & _).
  destruct (Hfit {| gain_label := ["high"]; sat_flats := [[20000%R]];
                    mid_flats := [[10000%R]]; mid_flat_times := [2%R];
                    exp_times := [[1; 2; 3; 4]%R];
                    med_sig := [[5000; 10000; 15000; 20000]%R];
                    var := [[5000 / 2; 10000 / 2; 15000 / 2; 20000 / 2]%R] |}
              0 [5000; 10000; 15000; 20000]%R
              [5000 / 2; 10000 / 2; 15000 / 2; 20000 / 2]%R eq_refl eq_refl)
    as (sig & v & Hsig & Hsamples & _).
  eexists _, mi, v. split; [exact ramp_flat_gain|].
  split; [exact Hfirst|]. split; [|split; [done|]].
  - destruct Hfirst as ((m & Hm & Hr) & Hbefore).
    destruct mi as [|[|mi]]; [injection Hm as <-; lra|done|].
    exfalso. apply (Hbefore 1 10000%R); [lia|done|lra].
  - rewrite Hsamples, Hsig. do 2 f_equal.
    rewrite !filter_cons, filter_nil.
    rewrite decide_True by lra. rewrite decide_True by lra.
    rewrite decide_False by lra. by rewrite decide_False by lra.
Defined.

(** ** The empty directory and the sections skipped (claim C7) *)

Lemma bias_only_bias_analysis (st : Report) :
  ∃ st', bias_analysis Partial.bias_only "data/cam_det" st = Ok st'.
Proof.
  unfold bias_analysis. cbn [load_by_file_prefix Partial.bias_only].
  change ("data/cam_det" +:+ "_bias") with "data/cam_det_bias".
  rewrite decide_True by done. cbn [mbind result_bind].
  rewrite for_each_cons.
  destruct (sample_bias_frame 10000 st) as (s1 & ->). by exists s1.
Qed.

Lemma bias_only_write_report :
  ∃ st, write_report Partial.bias_only "data" Partial.files
        = Ok ("data/cam_det_analysis_report.pdf", st).
Proof.
  unfold write_report, write_report_with.
  rewrite scan_files_spec.
  change (existsb (contains "bias") Partial.files) with true.
  change (existsb (contains "dark") Partial.files) with false.
  change (existsb (contains "flat") Partial.files) with false.
  change (py_index Partial.files 0) with (Ok "cam_det_bias_hdr_20240413.fits").
  cbn [mbind result_bind].
  change (split "_" "cam_det_bias_hdr_20240413.fits")
    with ["cam"; "det"; "bias"; "hdr"; "20240413.fits"].
  change (py_index ["cam"; "det"; "bias"; "hdr"; "20240413.fits"] 0) with (Ok "cam").
  change (py_index ["cam"; "det"; "bias"; "hdr"; "20240413.fits"] 1) with (Ok "det").
  cbn [mbind result_bind Exposure_open git_hash Partial.bias_only].
  change ("data" +:+ "/" +:+ "cam" +:+ "_" +:+ "det") with "data/cam_det".
  unfold run_sections.
  match goal with |- context [bias_analysis _ _ ?s] =>
    destruct (bias_only_bias_analysis s) as (s1 & ->) end.
  cbn [mbind result_bind andb]. by eexists.
Qed.

(** C7.  With no file in the directory the call prints its message,
    returns [False] and writes no report.  With files present, the call
    goes on to write the report.  A kind of exposure (bias, dark or flat)
    that no file name mentions has its section skipped: the outcome is the
    same whatever the analyzer of that section would have done, failure
    included, and a report that is written has no entry in the
    dictionaries of that section.  The sections whose exposures are
    present are still run, in the order bias, dark, flat, each on the
    state the one before left, and the report holds what they
    recorded. *)
Theorem empty_directory_and_skipped_sections (E : Env) (dirname : string)
    (files : list string) :
  listdir E dirname = Ok files →
  (files = [] →
     standard_analysis_products E dirname
     = Returned ["No data files found in directory"] PyFalse None)
  ∧ (files ≠ [] →
     standard_analysis_products E dirname
     = match write_report E dirname files with
       | Ok r => Returned [] PyNone (Some r)
       | Raise e => Raised e
       end)
  ∧ (Forall (fun f => contains "bias" f = false) files →
     (scan_files files).1.1 = false
     ∧ ∀ bias', write_report_with bias' (dark_analysis E) (flat_analysis E)
                  E dirname files
                = write_report E dirname files)
  ∧ (Forall (fun f => contains "dark" f = false) files →
     (scan_files files).1.2 = false
     ∧ ∀ dark', write_report_with (bias_analysis E) dark' (flat_analysis E)
                  E dirname files
                = write_report E dirname files)
  ∧ (Forall (fun f => contains "flat" f = false) files →
     (scan_files files).2 = false
     ∧ ∀ flat', write_report_with (bias_analysis E) (dark_analysis E) flat'
                  E dirname files
                = write_report E dirname files)
  ∧ (∀ path st, write_report E dirname files = Ok (path, st) →
     (Forall (fun f => contains "bias" f = false) files → read_noise st = ∅)
     ∧ (Forall (fun f => contains "dark" f = false) files → dark_current st = ∅)
     ∧ (Forall (fun f => contains "flat" f = false) files →
          det_gain st = ∅ ∧ well_depth st = ∅))
  ∧ (∀ path st, write_report E dirname files = Ok (path, st) →
     ∃ f0 camera detid title s1 s2 s3 labels,
       files !! 0 = Some f0
       ∧ split "_" f0 !! 0 = Some camera ∧ split "_" f0 !! 1 = Some detid
       ∧ (if existsb (contains "bias") files
          then bias_analysis E (dirname +:+ "/" +:+ camera +:+ "_" +:+ detid)
                 {| pdf := [title]; read_noise := ∅; det_gain := ∅;
                    dark_current := ∅; well_depth := ∅ |} = Ok s1
          else s1 = {| pdf := [title]; read_noise := ∅; det_gain := ∅;
                       dark_current := ∅; well_depth := ∅ |})
       ∧ (if existsb (contains "dark") files
          then dark_analysis E (dirname +:+ "/" +:+ camera +:+ "_" +:+ detid) s1
               = Ok s2
          else s2 = s1)
       ∧ (if existsb (contains "flat") files
          then flat_analysis E (dirname +:+ "/" +:+ camera +:+ "_" +:+ detid) s2
               = Ok (s3, labels)
          else s3 = s2)
       ∧ read_noise st = read_noise s3 ∧ det_gain st = det_gain s3
       ∧ dark_current st = dark_current s3 ∧ well_depth st = well_depth s3
       ∧ take (length (pdf s3)) (pdf st) = pdf s3).
Proof.
  intros Hls. unfold standard_analysis_products. rewrite Hls.
  split; [by intros ->|]. split.
  { intros Hne. destruct (decide (length files < 1)) as [Hlt|_]; [|done].
    destruct files; [done|]. simpl in Hlt. lia. }
  rewrite scan_files_spec. cbn [fst snd].
  split; [|split; [|split; [|split]]].
  - intros Hno. rewrite (existsb_absent _ _ Hno). split; [done|].
    intros bias'. unfold write_report. apply write_report_with_skip; auto.
    by rewrite (existsb_absent _ _ Hno).
  - intros Hno. rewrite (existsb_absent _ _ Hno). split; [done|].
    intros dark'. unfold write_report. apply write_report_with_skip; auto.
    by rewrite (existsb_absent _ _ Hno).
  - intros Hno. rewrite (existsb_absent _ _ Hno). split; [done|].
    intros flat'. unfold write_report. apply write_report_with_skip; auto.
    by rewrite (existsb_absent _ _ Hno).
  - intros path st. apply skipped_section_numbers.
  - intros path st H.
    apply write_report_inv in H
      as (f0 & camera & detid & exp & git & title & Hf0 & Hc & Hd & _ & _ & _ & _ & H).
    rewrite scan_files_spec in H.
    apply run_sections_Ok in H as (s1 & s2 & s3 & labels & H1 & H2 & H3 & ->).
    exists f0, camera, detid, title, s1, s2, s3, labels.
    do 3 (split; [done|]).
    split; [destruct (existsb (contains "bias") files); congruence|].
    split; [destruct (existsb (contains "dark") files); congruence|].
    split; [destruct (existsb (contains "flat") files); congruence|].
    destruct (_ && _ && _); cbn [set_pdf pdf read_noise det_gain dark_current
                                   well_depth savefig].
    + do 4 (split; [done|]). unfold savefig. by rewrite take_app_length.
    + do 4 (split; [done|]). by rewrite firstn_all.
Qed.

Lemma empty_directory_and_skipped_sections_witness :
  standard_analysis_products Partial.empty_dir "data"
  = Returned ["No data files found in directory"] PyFalse None
  ∧ ∃ st title s1,
      standard_analysis_products Partial.bias_only "data"
      = Returned [] PyNone (Some ("data/cam_det_analysis_report.pdf", st))
      ∧ write_report_with (bias_analysis Partial.bias_only)
          (fun _ _ => Raise ValueError) (fun _ _ => Raise ValueError)
          Partial.bias_only "data" Partial.files
        = Ok ("data/cam_det_analysis_report.pdf", st)
      ∧ dark_current st = ∅ ∧ det_gain st = ∅ ∧ well_depth st = ∅
      ∧ bias_analysis Partial.bias_only "data/cam_det"
          {| pdf := [title]; read_noise := ∅; det_gain := ∅;
             dark_current := ∅; well_depth := ∅ |} = Ok s1
      ∧ read_noise st = read_noise s1.
Proof.
  split.
  - apply (empty_directory_and_skipped_sections Partial.empty_dir "data" []);
      reflexivity.
  - destruct bias_only_write_report as (st & H).
    destruct (empty_directory_and_skipped_sections Partial.bias_only "data"
                Partial.files eq_refl)
      as (_ & Hrun & _ & Hdark & Hflat & Hempty & Hsections).
    assert (Hnd : Forall (fun f => contains "dark" f = false) Partial.files)
      by (by repeat constructor).
    assert (Hnf : Forall (fun f => contains "flat" f = false) Partial.files)
      by (by repeat constructor).
    destruct (Hdark Hnd) as (_ & Hd'). destruct (Hflat Hnf) as (_ & Hf').
    destruct (Hempty _ st H) as (_ & Hdc & Hgw). destruct (Hgw Hnf) as (Hg & Hw).
    destruct (Hsections _ st H)
      as (f0 & camera & detid & title & s1 & s2 & s3 & labels
          & Hf0 & Hc & Hdet & Hb & Hd2 & Hf3 & Hr & _).
    injection Hf0 as <-. injection Hc as <-. injection Hdet as <-.
    change (existsb (contains "bias") Partial.files) with true in Hb.
    change (existsb (contains "dark") Partial.files) with false in Hd2.
    change (existsb (contains "flat") Partial.files) with false in Hf3.
    cbv iota in Hb, Hd2, Hf3. subst s3 s2.
    exists st, title, s1. split; [|split; [|split; [|split; [|split; [|split]]]]].
    + rewrite (Hrun ltac:(discriminate)). by rewrite H.
    + rewrite <- H. unfold write_report.
      apply write_report_with_skip;
        [done|intros Hx; discriminate Hx|intros Hx; discriminate Hx].
    + by apply Hdc.
    + exact Hg.
    + exact Hw.
    + exact Hb.
    + exact Hr.
Defined.

(** ** The three gain modes of the flat section (claim C10) *)

Lemma flat_analysis_no_frames (E : Env) (prefix : string) (st : Report) (g : string) :
  g ∈ flat_gains →
  load_by_file_prefix E (prefix +:+ "_flat_" +:+ g) = Ok []
  ∨ (∃ e, load_by_file_prefix E (prefix +:+ "_flat_" +:+ g) = Raise e) →
  is_raise (flat_analysis E prefix st).
Proof.
  intros Hg Hload. unfold flat_analysis, flat_load.
  assert (is_raise (for_each (flat_gain E prefix) flat_gains
            {| gain_label := []; sat_flats := []; mid_flats := [];
               mid_flat_times := []; exp_times := []; med_sig := []; var := [] |})) as Hr.
  { apply (for_each_raises _ _ g); [done|].
    intros acc. by apply flat_gain_no_frames. }
  by destruct (for_each _ _ _).
Qed.

Lemma flat_analysis_first_missing (E : Env) (prefix : string) (st : Report)
    (l1 l2 : list string) (g : string) (acc : Flats) (e : exn) :
  flat_gains = l1 ++ g :: l2 →
  for_each (flat_gain E prefix) l1 no_flats = Ok acc →
  flat_gain E prefix acc g = Raise e →
  flat_analysis E prefix st = Raise e.
Proof.
  intros Hsplit Hbefore Hg. unfold flat_analysis, flat_load.
  rewrite Hsplit, for_each_app. fold no_flats. rewrite Hbefore.
  cbn [mbind result_bind]. by rewrite for_each_cons, Hg.
Qed.

Lemma run_raises_with_flat (E : Env) (dirname : string) (files : list string)
    (f f0 camera detid : string) :
  f ∈ files → contains "flat" f = true →
  files !! 0 = Some f0 →
  split "_" f0 !! 0 = Some camera → split "_" f0 !! 1 = Some detid →
  (∀ s, is_raise (flat_analysis E (dirname +:+ "/" +:+ camera +:+ "_" +:+ detid) s)) →
  is_raise (write_report E dirname files).
Proof.
  intros Hin Hf Hf0 Hc Hd Hflat. unfold write_report, write_report_with, py_index.
  rewrite Hf0. cbn [mbind result_bind]. rewrite Hc, Hd. cbn [mbind result_bind].
  destruct (Exposure_open E _) as [exp|]; [|done]. cbn [mbind result_bind].
  destruct (git_hash E) as [git|]; [|done]. cbn [mbind result_bind].
  rewrite scan_files_spec, (existsb_present _ _ f Hin Hf).
  unfold run_sections.
  match goal with |- context [(if ?b then bias_analysis E ?p ?s else Ok ?s)] =>
    destruct (if b then bias_analysis E p s else Ok s) as [s1|]; [|done] end.
  cbn [mbind result_bind].
  match goal with |- context [(if ?b then dark_analysis E ?p ?s else Ok ?s)] =>
    destruct (if b then dark_analysis E p s else Ok s) as [s2|]; [|done] end.
  cbn [mbind result_bind].
  specialize (Hflat s2). by destruct (flat_analysis E _ s2).
Qed.

(** C10.  In a directory with a file name containing "flat" the run
    enters the flat section, under the prefix [dirname/camera_detid] of
    the first file name.  A run that returns has loaded a non-empty set
    of flat exposures for each of 'hdr', 'high' and 'low', and has fitted
    and recorded a gain for exactly the four channels "high (dual-gain)",
    "low (dual-gain)", "high" and "low".  If one of the three gain modes
    has no flat exposures (the loader returns none, or fails), the run
    ends in an exception instead of going on without that mode; when the
    modes before it were loaded, the exception is the [ValueError] of
    taking the maximum of no exposure times, or the loader's own. *)
Theorem flat_section_needs_all_gain_modes (E : Env) (dirname : string)
    (files : list string) (f f0 camera detid : string) :
  listdir E dirname = Ok files →
  f ∈ files → contains "flat" f = true →
  files !! 0 = Some f0 →
  split "_" f0 !! 0 = Some camera → split "_" f0 !! 1 = Some detid →
  (scan_files files).2 = true
  ∧ (∀ path st, write_report E dirname files = Ok (path, st) →
       standard_analysis_products E dirname = Returned [] PyNone (Some (path, st))
       ∧ ∃ fl s s',
           flat_load E (dirname +:+ "/" +:+ camera +:+ "_" +:+ detid) = Ok fl
           ∧ flat_analysis E (dirname +:+ "/" +:+ camera +:+ "_" +:+ detid) s
             = Ok (s', flat_labels)
           ∧ gain_label fl = flat_labels
           ∧ (∀ g, g ∈ flat_gains →
                ∃ frames,
                  load_by_file_prefix E
                    ((dirname +:+ "/" +:+ camera +:+ "_" +:+ detid)
                       +:+ "_flat_" +:+ g) = Ok frames
                  ∧ frames ≠ [])
           ∧ (∀ j label, flat_labels !! j = Some label →
                ∃ k, ptc_gain E fl j = Ok k ∧ det_gain st !! label = Some k)
           ∧ dom (det_gain st) = list_to_set flat_labels)
  ∧ (∀ g, g ∈ flat_gains →
       load_by_file_prefix E
         ((dirname +:+ "/" +:+ camera +:+ "_" +:+ detid) +:+ "_flat_" +:+ g) = Ok []
       ∨ (∃ e, load_by_file_prefix E
                 ((dirname +:+ "/" +:+ camera +:+ "_" +:+ detid) +:+ "_flat_" +:+ g)
               = Raise e) →
       ∃ e, standard_analysis_products E dirname = Raised e)
  ∧ (∀ prefix st l1 g l2 acc,
       flat_gains = l1 ++ g :: l2 →
       for_each (flat_gain E prefix) l1 no_flats = Ok acc →
       (load_by_file_prefix E (prefix +:+ "_flat_" +:+ g) = Ok [] →
        flat_analysis E prefix st = Raise ValueError)
       ∧ (∀ e, load_by_file_prefix E (prefix +:+ "_flat_" +:+ g) = Raise e →
          flat_analysis E prefix st = Raise e))
  ∧ (∀ prefix st st' labels, flat_analysis E prefix st = Ok (st', labels) →
       (∀ g, g ∈ flat_gains →
          ∃ frames, load_by_file_prefix E (prefix +:+ "_flat_" +:+ g) = Ok frames
                    ∧ frames ≠ [])
       ∧ labels = flat_labels
       ∧ (∃ fl, flat_load E prefix = Ok fl
            ∧ ∀ j label, flat_labels !! j = Some label →
                ∃ k, ptc_gain E fl j = Ok k ∧ det_gain st' !! label = Some k)
       ∧ (∀ l, l ∉ flat_labels → det_gain st' !! l = det_gain st !! l))
  ∧ (∀ prefix st g, g ∈ flat_gains →
       load_by_file_prefix E (prefix +:+ "_flat_" +:+ g) = Ok []
       ∨ (∃ e, load_by_file_prefix E (prefix +:+ "_flat_" +:+ g) = Raise e) →
       is_raise (flat_analysis E prefix st)).
Proof.
  intros Hls Hin Hf Hf0 Hc Hd.
  assert (Hne : ¬ length files < 1).
  { apply lookup_lt_Some in Hf0. lia. }
  assert (Hsection : ∀ prefix st st' labels,
            flat_analysis E prefix st = Ok (st', labels) →
            (∀ g, g ∈ flat_gains →
               ∃ frames, load_by_file_prefix E (prefix +:+ "_flat_" +:+ g) = Ok frames
                         ∧ frames ≠ [])
            ∧ labels = flat_labels
            ∧ (∃ fl, flat_load E prefix = Ok fl
                 ∧ ∀ j label, flat_labels !! j = Some label →
                     ∃ k, ptc_gain E fl j = Ok k ∧ det_gain st' !! label = Some k)
            ∧ (∀ l, l ∉ flat_labels → det_gain st' !! l = det_gain st !! l)).
  { intros prefix st st' labels H.
    apply flat_analysis_Ok in H as (fl & Hload & Hrep & ->).
    pose proof Hload as Hload'.
    apply flat_load_Ok in Hload' as (Hlab & _ & Hframes).
    apply flat_report_Ok in Hrep as (s1 & s2 & s3 & H1 & H2 & H3 & ->).
    apply mid_flat_pages_Ok in H1 as (_ & G1 & _ & _).
    apply well_depth_pages_Ok' in H2 as G2.
    destruct (ptc_loop_Ok E fl s2 s3 Hlab H3) as (_ & Hin' & Hout).
    cbn [set_pdf det_gain].
    split; [exact Hframes|]. split; [exact Hlab|]. split.
    + exists fl. split; [done|]. intros j label Hj.
      destruct (Hin' j label Hj) as (k & Hk & Hg & _). by exists k.
    + intros l Hl. destruct (Hout l Hl) as (-> & _). congruence. }
  split; [|split; [|split; [|split; [|split; [exact Hsection|]]]]].
  - rewrite scan_files_spec. simpl. by apply (existsb_present _ _ f).
  - intros path st H. split.
    { unfold standard_analysis_products. rewrite Hls.
      rewrite decide_False by done. by rewrite H. }
    apply write_report_inv in H
      as (f0' & c' & d' & exp & git & title & Hf0' & Hc' & Hd' & _ & _ & _ & _ & H).
    rewrite Hf0 in Hf0'. injection Hf0' as <-.
    rewrite Hc in Hc'. injection Hc' as <-. rewrite Hd in Hd'. injection Hd' as <-.
    rewrite scan_files_spec, (existsb_present _ _ f Hin Hf) in H.
    apply run_sections_Ok in H as (s1 & s2 & s3 & labels & H1 & H2 & H3 & ->).
    assert (G1 : det_gain s1 = ∅).
    { destruct (existsb (contains "bias") files); [|by injection H1 as <-].
      by apply bias_analysis_others in H1 as (-> & _). }
    assert (G2 : det_gain s2 = ∅).
    { destruct (existsb (contains "dark") files); [|by injection H2 as <-].
      apply dark_analysis_others in H2 as (_ & -> & _). exact G1. }
    pose proof (flat_analysis_keys _ _ _ _ _ H3) as (-> & Gdom & _).
    destruct (Hsection _ _ _ _ H3) as (Hframes & _ & (fl & Hload & Hgains) & _).
    pose proof (flat_load_Ok E _ fl Hload) as (Hlab & _).
    exists fl, s2, s3. split; [done|]. split; [done|]. split; [done|].
    split; [exact Hframes|].
    assert (Hdg : det_gain
                    (if existsb (contains "bias") files
                        && existsb (contains "dark") files && true
                     then set_pdf (savefig (fun n => TablePage n
                                     (summary_rows flat_labels s3)) (pdf s3)) s3
                     else s3) = det_gain s3) by (by destruct (_ && _ && _)).
    rewrite Hdg. split; [exact Hgains|].
    rewrite Gdom, G2, dom_empty_L. set_solver.
  - intros g Hg Hload.
    assert (Hr : is_raise (write_report E dirname files)).
    { apply (run_raises_with_flat E dirname files f f0 camera detid); try done.
      intros s. by apply (flat_analysis_no_frames E _ s g). }
    unfold standard_analysis_products. rewrite Hls.
    rewrite decide_False by done.
    destruct (write_report E dirname files) as [r|e]; [done|]. by exists e.
  - intros prefix st l1 g l2 acc Hsplit Hbefore. split.
    + intros Hload.
      apply (flat_analysis_first_missing E prefix st l1 l2 g acc); [done|done|].
      unfold flat_gain. by rewrite Hload.
    + intros e Hload.
      apply (flat_analysis_first_missing E prefix st l1 l2 g acc); [done|done|].
      unfold flat_gain. by rewrite Hload.
  - intros prefix st g Hg Hload. by apply (flat_analysis_no_frames E prefix st g).
Qed.

Lemma flat_section_needs_all_gain_modes_witness :
  (∃ st, standard_analysis_products (Sample.env 10000 1) "data"
         = Returned [] PyNone (Some ("data/cam_det_analysis_report.pdf", st))
         ∧ dom (det_gain st) = list_to_set flat_labels)
  ∧ ∃ e, standard_analysis_products Partial.no_low "data" = Raised e.
Proof.
  split.
  - destruct (sample_write_report 10000 1) as (st & H); [lra|].
    destruct (flat_section_needs_all_gain_modes (Sample.env 10000 1) "data"
                Sample.files "cam_det_flat_hdr_20240413.fits"
                "cam_det_bias_hdr_20240413.fits" "cam" "det"
                eq_refl ltac:(by right; right; left) eq_refl eq_refl eq_refl eq_refl)
      as (_ & Hrun & _).
    destruct (Hrun _ st H) as (Hout & fl & s & s' & _ & _ & _ & _ & _ & Hdom).
    by exists st.
  - destruct (flat_section_needs_all_gain_modes Partial.no_low "data"
                Sample.files "cam_det_flat_hdr_20240413.fits"
                "cam_det_bias_hdr_20240413.fits" "cam" "det"
                eq_refl ltac:(by right; right; left) eq_refl eq_refl eq_refl eq_refl)
      as (_ & _ & Hmissing & _).
    apply (Hmissing "low"); [by right; right; left|]. left. reflexivity.
Defined.
